(** * Spreadsheet round-trip editor: a shallow embedding and its properties

    The definitions below follow the TypeScript sources of the front end:
    - [frontend-app/src/components/ExcelEditor.tsx] (grid projection,
      reconciliation, save handlers),
    - [src/components/ExcelEditor.tsx] (the earlier table editor with
      [handleCellEdit]),
    - [frontend-app/src/components/FileUpload.tsx] and
      [src/components/FileUpload.tsx] ([beforeUpload]),
    - [frontend-app/src/services/api.ts] (the axios instance and the
      upload / save / update calls).

    JavaScript strings are carried as Rocq strings holding their UTF-8
    bytes; JavaScript objects used as dictionaries are finite maps with
    string keys; arrays are lists. *)

From Stdlib Require Import Ascii String QArith.
From stdpp Require Import gmap strings list fin_maps pretty.

Open Scope string_scope.

(** ** JavaScript values found in cells *)

(** A cell of a sheet is an untyped scalar ([any] in the source).  Numbers
    are carried as integers: the code only tests them for truthiness and
    never computes with them. *)
Inductive Cell : Type :=
  | CString (s : string)
  | CNumber (z : Z)
  | CNaN
  | CBool (b : bool)
  | CNull
  | CUndefined.

#[global] Instance Cell_eq_dec : EqDecision Cell.
Proof. solve_decision. Defined.

#[global] Instance Cell_inhabited : Inhabited Cell := populate CUndefined.

(** JavaScript truthiness: [false], [0], [NaN], [""], [null] and
    [undefined] are falsy, everything else is truthy. *)
Definition truthy (c : Cell) : bool :=
  match c with
  | CString s => negb (String.eqb s "")
  | CNumber z => negb (z =? 0)%Z
  | CNaN => false
  | CBool b => b
  | CNull => false
  | CUndefined => false
  end.

(** [a || b] *)
Definition js_or (a b : Cell) : Cell := if truthy a then a else b.

(** [String(v)]; the decimal rendering of a number is the one of JavaScript
    for integers below 10^21 in absolute value. *)
Definition js_String (c : Cell) : string :=
  match c with
  | CString s => s
  | CNumber z => pretty z
  | CNaN => "NaN"
  | CBool true => "true"
  | CBool false => "false"
  | CNull => "null"
  | CUndefined => "undefined"
  end.

(** ** [String.prototype.trim] on UTF-8 text

    The white space removed by [trim] is TAB, LF, VT, FF, CR, SP, U+00A0,
    U+1680, U+2000..U+200A, U+2028, U+2029, U+202F, U+205F, U+3000 and
    U+FEFF.  Each is recognised by its UTF-8 byte sequence. *)
Module Trim.

Definition code (a : ascii) : N := N_of_ascii a.

(** one-byte white space *)
Definition ws1 (a : ascii) : bool :=
  let x := code a in ((9 <=? x) && (x <=? 13) || (x =? 32))%N.

(** two-byte white space: U+00A0 *)
Definition ws2 (a b : ascii) : bool :=
  ((code a =? 194) && (code b =? 160))%N.

(** three-byte white space *)
Definition ws3 (a b c : ascii) : bool :=
  let x := code a in
  let y := code b in
  let z := code c in
  ((x =? 225) && (y =? 154) && (z =? 128)                       (* U+1680 *)
   || (x =? 226) && (y =? 128) && (128 <=? z) && (z <=? 138)     (* U+2000..U+200A *)
   || (x =? 226) && (y =? 128) && ((z =? 168) || (z =? 169))       (* U+2028, U+2029 *)
   || (x =? 226) && (y =? 128) && (z =? 175)                     (* U+202F *)
   || (x =? 226) && (y =? 129) && (z =? 159)                     (* U+205F *)
   || (x =? 227) && (y =? 128) && (z =? 128)                     (* U+3000 *)
   || (x =? 239) && (y =? 187) && (z =? 191))%N.                 (* U+FEFF *)

Fixpoint trimStart (s : string) : string :=
  match s with
  | EmptyString => EmptyString
  | String a r =>
      if ws1 a then trimStart r
      else
        match r with
        | EmptyString => s
        | String b r2 =>
            if ws2 a b then trimStart r2
            else
              match r2 with
              | EmptyString => s
              | String c r3 => if ws3 a b c then trimStart r3 else s
              end
        end
  end.

Definition is_empty (s : string) : bool :=
  match s with EmptyString => true | String _ _ => false end.

(** A suffix that is white space only is dropped; in well-formed UTF-8 a
    white-space sequence can only start at a character boundary. *)
Fixpoint trimEnd (s : string) : string :=
  match s with
  | EmptyString => EmptyString
  | String a r => if is_empty (trimStart s) then EmptyString else String a (trimEnd r)
  end.

Definition trim (s : string) : string := trimEnd (trimStart s).

End Trim.

(** ** The grid projection of [frontend-app/src/components/ExcelEditor.tsx] *)

(** [excelData : any[][]]; the source guards every row access with [?.],
    so a row may be [undefined] ([None]). *)
Abbreviation Row := (option (list Cell)).
Abbreviation Sheet := (list (option (list Cell))).

(** The part of AG Grid's [ColDef] the editor fills in.  [field] and
    [headerName] are optional in the widget's type. *)
Record ColDef : Type := mkColDef {
  field : option string;
  headerName : option string;
  editable : bool;
  sortable : bool;
  filter : bool;
  resizable : bool;
  minWidth : nat;
  cellEditor : string
}.

#[global] Instance ColDef_eq_dec : EqDecision ColDef.
Proof. solve_decision. Defined.

(** A row object [{ id, col0, col1, ... }]. *)
Abbreviation RowObj := (gmap string Cell).

Record Grid : Type := mkGrid {
  rowData : list (gmap string Cell);
  columnDefs : list ColDef
}.

(** [row?.length || 0] *)
Definition row_length (row : option (list Cell)) : nat :=
  match row with
  | Some r => length r
  | None => 0
  end.

(** [row?.[i]] *)
Definition row_get (row : option (list Cell)) (i : nat) : Cell :=
  match row with
  | Some r => default CUndefined (r !! i)
  | None => CUndefined
  end.

(** [Math.max(...excelData.map(row => row?.length || 0))], used only after
    the guard [!excelData.length], that is on a non-empty array of
    non-negative lengths. *)
Definition maxCols (excelData : Sheet) : nat :=
  foldr Nat.max 0 (row_length <$> excelData).

(** [excelData[0] || []] *)
Definition first_row (excelData : Sheet) : list Cell :=
  match excelData with
  | Some r :: _ => r
  | _ => []
  end.

(** [header => typeof header === 'string' && header.trim() !== ''] *)
Definition is_header_text (header : Cell) : bool :=
  match header with
  | CString s => negb (String.eqb (Trim.trim s) "")
  | _ => false
  end.

(** [headers.every(...)] *)
Definition hasHeaders (headers : list Cell) : bool := forallb is_header_text headers.

(** [`col${i}`] *)
Definition col_key (i : nat) : string := "col" +:+ pretty i.

(** [`列${i + 1}`] *)
Definition default_header (i : nat) : string := "列" +:+ pretty (i + 1).

(** [headers[i]] on an array: [undefined] past the end *)
Definition arr_get (l : list Cell) (i : nat) : Cell := default CUndefined (l !! i).

Definition header_name (hasH : bool) (headers : list Cell) (i : nat) : string :=
  if hasH && truthy (arr_get headers i) then js_String (arr_get headers i)
  else default_header i.

(** The object pushed by the column loop. *)
Definition make_col (hasH : bool) (headers : list Cell) (i : nat) : ColDef :=
  {| field := Some (col_key i);
     headerName := Some (header_name hasH headers i);
     editable := true;
     sortable := true;
     filter := true;
     resizable := true;
     minWidth := 100;
     cellEditor := "agTextCellEditor" |}.

(** [for (let i = 0; i < maxCols; i++) cols.push(...)] *)
Definition build_cols (hasH : bool) (headers : list Cell) (n : nat) : list ColDef :=
  foldl (fun cols i => (cols ++ [make_col hasH headers i])%list) [] (seq 0 n).

(** [const rowObj = { id: index }; for (...) rowObj[`col${i}`] = row?.[i] || ''] *)
Definition make_row (n : nat) (index : nat) (row : option (list Cell)) : gmap string Cell :=
  foldl (fun (rowObj : gmap string Cell) i =>
           <[col_key i := js_or (row_get row i) (CString "")]> rowObj)
        {["id" := CNumber (Z.of_nat index)]} (seq 0 n).

Definition emptyGrid : Grid := {| rowData := []; columnDefs := [] |}.

(** The [useMemo] block computing [{ rowData, columnDefs }]. *)
Definition toGrid (excelData : Sheet) : Grid :=
  match excelData with
  | [] => emptyGrid
  | _ =>
      let headers := first_row excelData in
      let hasH := hasHeaders headers in
      let n := maxCols excelData in
      let cols := build_cols hasH headers n in
      let startRow := if hasH then 1 else 0 in
      let rows := imap (make_row n) (drop startRow excelData) in
      {| rowData := rows; columnDefs := cols |}
  end.

(** [getGridData].  [gridApi] is [None] while the grid is not mounted;
    otherwise it lists the [data] of every row node, which may be
    [undefined] for a node without data. *)
Definition getGridData (gridApi : option (list (option (gmap string Cell))))
    (columnDefs : list ColDef) : Sheet :=
  match gridApi with
  | None => []
  | Some nodes =>
      let allRows := omap id nodes in
      let headers := (fun col => CString (default "" (headerName col))) <$> columnDefs in
      let dataRows :=
        (fun (row : gmap string Cell) =>
           (fun col => js_or (default CUndefined (row !! default "" (field col))) (CString ""))
             <$> columnDefs) <$> allRows in
      Some headers :: (Some <$> dataRows)
  end.

(** The reconciliation of a grid whose row nodes carry exactly the rows
    handed to the widget. *)
Definition fromGrid (g : Grid) : Sheet :=
  getGridData (Some (Some <$> rowData g)) (columnDefs g).

Definition roundTrip (excelData : Sheet) : Sheet := fromGrid (toGrid excelData).

(** ** Effects: browser state, exceptions and the axios instance

    The asynchronous functions of the source run one at a time; each is
    modelled as a state transformer that returns a value or throws. *)

Inductive Exn : Type :=
  | AxiosError (status : option nat) (reason : string)
  | OtherError (reason : string).

Inductive Result (A : Type) : Type :=
  | Return (a : A)
  | Throw (e : Exn).
Arguments Return {A} a.
Arguments Throw {A} e.

Definition M (St A : Type) : Type := St -> Result A * St.

#[global] Instance M_ret {St} : MRet (M St) := fun A a st => (Return a, st).

#[global] Instance M_bind {St} : MBind (M St) := fun A B f m st =>
  match m st with
  | (Return a, st') => f a st'
  | (Throw e, st') => (Throw e, st')
  end.

Definition throw {St A} (e : Exn) : M St A := fun st => (Throw e, st).
Definition get {St} : M St St := fun st => (Return st, st).
Definition modify {St} (f : St -> St) : M St unit := fun st => (Return tt, f st).

(** [try { body } catch (error) { handler }] *)
Definition try_catch {St A} (body : M St A) (handler : Exn -> M St A) : M St A :=
  fun st =>
    match body st with
    | (Return a, st') => (Return a, st')
    | (Throw e, st') => handler e st'
    end.

(** [try { body } finally { cleanup }] *)
Definition try_finally {St A} (body : M St A) (cleanup : M St unit) : M St A :=
  fun st =>
    let '(r, st') := body st in
    match cleanup st' with
    | (Return _, st'') => (r, st'')
    | (Throw e, st'') => (Throw e, st'')
    end.

Inductive Method : Type := GET | POST | PUT.

#[global] Instance Method_eq_dec : EqDecision Method.
Proof. solve_decision. Defined.

(** A browser [File]: name, MIME type and size in bytes. *)
Record File : Type := mkFile {
  file_name : string;
  file_type : string;
  file_size : N
}.

Record RelatedPersonInfo : Type := mkInfo {
  info_name : string;
  relationship : string;
  idNumber : string;
  phone : string;
  description : option string
}.

(** Request payloads: the multipart form of the upload and the JSON body
    [{ data, file_name }] of the two persistence calls. *)
Inductive Body : Type :=
  | FormData (file : File) (relatedPersonInfo : RelatedPersonInfo)
  | SaveBody (data : Sheet) (file_name : string).

(** The axios request configuration that reaches the transport. *)
Record Request : Type := mkRequest {
  method : Method;
  baseURL : string;
  url : string;
  contentType : string;
  authorization : option string;
  body : Body
}.

(** What the transport yields: an HTTP response with a status and a
    payload, or no response at all (network failure, timeout). *)
Inductive Reply (A : Type) : Type :=
  | HttpReply (status : nat) (data : A)
  | NoReply (reason : string).
Arguments HttpReply {A} status data.
Arguments NoReply {A} reason.

Inductive Level : Type := LogLevel | ErrorLevel.

(** [message.success] / [message.error] *)
Inductive Notice : Type :=
  | NoticeSuccess (text : string)
  | NoticeError (text : string).

(** Calls of the callback props. *)
Inductive Callback : Type :=
  | OnSave (data : Sheet)
  | OnUploadSuccess (excelUrl fileName : string).

(** The ambient state shared by all components.  Console entries keep the
    level and the leading label of the call. *)
Record World : Type := mkWorld {
  localStorage : gmap string string;
  location_href : string;
  console : list (Level * string);
  notices : list Notice;
  network : list Request;
  callbacks : list Callback
}.

Definition console_log (label : string) : M World unit :=
  modify (fun w => {| localStorage := localStorage w; location_href := location_href w;
                      console := (console w ++ [(LogLevel, label)])%list; notices := notices w;
                      network := network w; callbacks := callbacks w |}).

Definition console_error (label : string) : M World unit :=
  modify (fun w => {| localStorage := localStorage w; location_href := location_href w;
                      console := (console w ++ [(ErrorLevel, label)])%list; notices := notices w;
                      network := network w; callbacks := callbacks w |}).

Definition notify (n : Notice) : M World unit :=
  modify (fun w => {| localStorage := localStorage w; location_href := location_href w;
                      console := console w; notices := (notices w ++ [n])%list;
                      network := network w; callbacks := callbacks w |}).

Definition message_success (text : string) : M World unit := notify (NoticeSuccess text).
Definition message_error (text : string) : M World unit := notify (NoticeError text).

Definition call_back (c : Callback) : M World unit :=
  modify (fun w => {| localStorage := localStorage w; location_href := location_href w;
                      console := console w; notices := notices w;
                      network := network w; callbacks := (callbacks w ++ [c])%list |}).

Definition dispatch (r : Request) : M World unit :=
  modify (fun w => {| localStorage := localStorage w; location_href := location_href w;
                      console := console w; notices := notices w;
                      network := (network w ++ [r])%list; callbacks := callbacks w |}).

(** [localStorage.removeItem('access_token'); localStorage.removeItem('user_info');
    window.location.href = '/login'] *)
Definition force_login : M World unit :=
  modify (fun w => {| localStorage := delete "user_info" (delete "access_token" (localStorage w));
                      location_href := "/login";
                      console := console w; notices := notices w;
                      network := network w; callbacks := callbacks w |}).

(** ** [frontend-app/src/services/api.ts] *)

Module Api.

(** axios resolves a response whose status is in the 2xx range. *)
Definition validateStatus (status : nat) : bool :=
  ((200 <=? status) && (status <? 300))%nat.

(** [const token = localStorage.getItem('access_token'); if (token) ...] *)
Definition bearer (w : World) : option string :=
  match localStorage w !! "access_token" with
  | Some t => if String.eqb t "" then None else Some ("Bearer " +:+ t)
  | None => None
  end.

(** The request interceptor: attach the bearer token when one is stored. *)
Definition request_interceptor (m : Method) (path contentType : string) (b : Body)
    : M World Request :=
  w ← get;
  console_log "发送请求:";;
  mret {| method := m; baseURL := "/api"; url := path; contentType := contentType;
          authorization := bearer w; body := b |}.

(** The response interceptor, error branch. *)
Definition response_error {A} (status : option nat) (reason : string) : M World A :=
  console_error "响应错误:";;
  (if bool_decide (status = Some 401) then force_login else mret tt);;
  throw (AxiosError status reason).

(** One call through the instance [api]: interceptors around the
    transport.  [server] is the external service. *)
Definition request {A} (server : Request -> Reply A) (m : Method)
    (path contentType : string) (b : Body) : M World A :=
  config ← request_interceptor m path contentType b;
  dispatch config;;
  match server config with
  | HttpReply status data =>
      if validateStatus status
      then console_log "收到响应:";; mret data
      else response_error (Some status) "Request failed"
  | NoReply reason => response_error None reason
  end.

Record UploadFileData : Type := mkUploadFileData {
  file : File;
  relatedPersonInfo : RelatedPersonInfo
}.

Record UploadResponse : Type := mkUploadResponse {
  up_success : bool;
  up_message : string;
  excelUrl : option string;
  fileName : option string
}.

(** The response returned from the [catch] branch of
    [uploadFileAndGetExcel]. *)
Definition exampleResponse : UploadResponse :=
  {| up_success := true;
     up_message := "文件上传成功，已生成Excel文件";
     excelUrl := Some "/example.xlsx";
     fileName := Some "example.xlsx" |}.

Definition uploadFileAndGetExcel (server : Request -> Reply UploadResponse)
    (data : UploadFileData) : M World UploadResponse :=
  try_catch
    (let formData := FormData (file data) (relatedPersonInfo data) in
     request server POST "/v1/upload" "multipart/form-data" formData)
    (fun error =>
       console_error "上传文件失败:";;
       mret exampleResponse).

Record QuarterlyReportData : Type := mkQuarterlyReportData {
  investorId : Z;
  quarter : string;
  year : Z;
  portfolioData : Sheet
}.

Record SaveQuarterlyReportResponse : Type := mkSaveResponse {
  success : bool;
  message : string;
  portfolioId : option Z
}.

Definition save_url (data : QuarterlyReportData) : string :=
  "/v1/excel/quarterly-report/save?investor_id=" +:+ pretty (investorId data)
    +:+ "&quarter=" +:+ quarter data +:+ "&year=" +:+ pretty (year data).

Definition update_url (portfolioId : Z) : string :=
  "/v1/excel/quarterly-report/update?portfolio_id=" +:+ pretty portfolioId.

Definition saveQuarterlyReport (server : Request -> Reply SaveQuarterlyReportResponse)
    (data : QuarterlyReportData) : M World SaveQuarterlyReportResponse :=
  try_catch
    (let saveData := SaveBody (portfolioData data) "quarterly_report.xlsx" in
     request server POST (save_url data) "application/json" saveData)
    (fun error =>
       console_error "保存季度投资报告失败:";;
       throw error).

Definition updateQuarterlyReport (server : Request -> Reply SaveQuarterlyReportResponse)
    (portfolioId : Z) (data : QuarterlyReportData) : M World SaveQuarterlyReportResponse :=
  try_catch
    (let updateData := SaveBody (portfolioData data) "quarterly_report.xlsx" in
     request server PUT (update_url portfolioId) "application/json" updateData)
    (fun error =>
       console_error "更新季度投资报告失败:";;
       throw error).

(** The world after the request interceptor and the dispatch. *)
Definition sent (w : World) (config : Request) : World :=
  {| localStorage := localStorage w; location_href := location_href w;
     console := (console w ++ [(LogLevel, "发送请求:")])%list; notices := notices w;
     network := (network w ++ [config])%list; callbacks := callbacks w |}.

(** The configurations the three calls hand to the transport. *)
Definition upload_request (w : World) (data : UploadFileData) : Request :=
  {| method := POST; baseURL := "/api"; url := "/v1/upload";
     contentType := "multipart/form-data"; authorization := bearer w;
     body := FormData (file data) (relatedPersonInfo data) |}.

Definition create_request (w : World) (data : QuarterlyReportData) : Request :=
  {| method := POST; baseURL := "/api"; url := save_url data;
     contentType := "application/json"; authorization := bearer w;
     body := SaveBody (portfolioData data) "quarterly_report.xlsx" |}.

Definition update_request (w : World) (portfolioId : Z) (data : QuarterlyReportData) : Request :=
  {| method := PUT; baseURL := "/api"; url := update_url portfolioId;
     contentType := "application/json"; authorization := bearer w;
     body := SaveBody (portfolioData data) "quarterly_report.xlsx" |}.

(** A transport failure: no response, or a status outside 2xx. *)
Definition transport_failed {A} (r : Reply A) : Prop :=
  match r with
  | HttpReply status _ => validateStatus status = false
  | NoReply _ => True
  end.

End Api.

(** Running a [World] action inside a component that also owns local
    state. *)
Definition liftW {C A} (m : M World A) : M (World * C) A :=
  fun st =>
    let '(r, w') := m (fst st) in (r, (w', snd st)).

Definition modifyC {C} (f : C -> C) : M (World * C) unit :=
  modify (fun st => (fst st, f (snd st))).

Definition getC {C} : M (World * C) C := fun st => (Return (snd st), st).

(** ** [beforeUpload] and [handleSubmit] of [FileUpload.tsx]

    [beforeUpload] has the same text in
    [frontend-app/src/components/FileUpload.tsx] and
    [src/components/FileUpload.tsx]; [handleSubmit] is the one of the
    former. *)

Module FileUpload.

(** [str.startsWith(prefix)] *)
Fixpoint startsWith (str prefix : string) : bool :=
  match prefix, str with
  | EmptyString, _ => true
  | String p prefix', String c str' => if Ascii.eqb c p then startsWith str' prefix' else false
  | String _ _, EmptyString => false
  end.

(** [file.type.startsWith('image/') || file.type === 'application/pdf'] *)
Definition isValidType (file : File) : bool :=
  startsWith (file_type file) "image/" || String.eqb (file_type file) "application/pdf".

(** [file.size / 1024 / 1024 < 10]: the two divisions by a power of two
    are exact, so the quotient is the rational number. *)
Definition isLt10M (file : File) : bool :=
  negb (Qle_bool 10 (inject_Z (Z.of_N (file_size file)) / 1024 / 1024)).

Definition beforeUpload (file : File) : M World bool :=
  if negb (isValidType file) then
    message_error "只能上传图片或PDF文件！";;
    mret false
  else if negb (isLt10M file) then
    message_error "文件大小不能超过10MB！";;
    mret false
  else
    mret false.

(** The validation verdict seen by the user: a file passes when
    [beforeUpload] raises no error notice. *)
Definition accepts (file : File) : bool :=
  match beforeUpload file
          {| localStorage := ∅; location_href := ""; console := []; notices := [];
             network := []; callbacks := [] |} with
  | (_, w) => bool_decide (notices w = [])
  end.

Record UploadFile : Type := mkUploadFile {
  uf_name : string;
  originFileObj : option File
}.

Record State : Type := mkState {
  fileList : list UploadFile;
  uploading : bool
}.

Definition setUploading (b : bool) : M (World * State) unit :=
  modifyC (fun s => {| fileList := fileList s; uploading := b |}).

Definition setFileList (l : list UploadFile) : M (World * State) unit :=
  modifyC (fun s => {| fileList := l; uploading := uploading s |}).

(** [message || fallback] on strings *)
Definition str_or (a b : string) : string := if String.eqb a "" then b else a.

Definition handleSubmit (server : Request -> Reply Api.UploadResponse) : M (World * State) unit :=
  s ← getC;
  match fileList s with
  | [] => liftW (message_error "请选择要上传的文件")
  | first :: _ =>
      match originFileObj first with
      | None => liftW (message_error "文件获取失败")
      | Some file =>
          setUploading true;;
          try_finally
            (try_catch
               (let uploadData :=
                  {| Api.file := file;
                     Api.relatedPersonInfo :=
                       {| info_name := ""; relationship := ""; idNumber := "";
                          phone := ""; description := Some "" |} |} in
                response ← liftW (Api.uploadFileAndGetExcel server uploadData);
                match Api.up_success response, Api.excelUrl response with
                | true, Some excelUrl =>
                    if String.eqb excelUrl "" then
                      liftW (message_error (str_or (Api.up_message response) "上传失败"))
                    else
                      liftW (message_success (str_or (Api.up_message response) "文件上传成功"));;
                      liftW (call_back (OnUploadSuccess excelUrl
                                          (str_or (default "" (Api.fileName response)) "result.xlsx")));;
                      setFileList []
                | _, _ =>
                    liftW (message_error (str_or (Api.up_message response) "上传失败"))
                end)
               (fun error =>
                  liftW (console_error "上传失败:");;
                  liftW (message_error "上传失败，请重试")))
            (setUploading false)
      end
  end.

End FileUpload.

(** ** The save handlers of [frontend-app/src/components/ExcelEditor.tsx] *)

Module ExcelEditor.

Record Props : Type := mkProps {
  excelUrl : option string;
  fileName : option string;
  onSave : bool;                  (* whether the callback prop is given *)
  investorId : option Z;
  quarter : option string;
  year : option Z;
  portfolioId : option Z;
  showDatabaseSave : option bool
}.

(** Defaults of the destructured props. *)
Definition investorId_of (p : Props) : Z := default 1%Z (investorId p).
Definition quarter_of (p : Props) : string := default "2024Q1" (quarter p).
Definition year_of (p : Props) : Z := default 2024%Z (year p).

Record State : Type := mkState {
  loading : bool;
  saving : bool;
  excelData : Sheet;
  currentSheet : string;
  isModalVisible : bool;
  (** [gridRef.current?.api]: the [data] of the row nodes of the mounted
      grid, edited in place by the widget *)
  gridApi : option (list (option (gmap string Cell)))
}.

Definition setSaving (b : bool) : M (World * State) unit :=
  modifyC (fun s => {| loading := loading s; saving := b; excelData := excelData s;
                       currentSheet := currentSheet s; isModalVisible := isModalVisible s;
                       gridApi := gridApi s |}).

Definition setIsModalVisible (b : bool) : M (World * State) unit :=
  modifyC (fun s => {| loading := loading s; saving := saving s; excelData := excelData s;
                       currentSheet := currentSheet s; isModalVisible := b;
                       gridApi := gridApi s |}).

(** [getGridData()] inside the component: [columnDefs] is the memoised
    projection of [excelData]. *)
Definition currentGridData (s : State) : Sheet :=
  getGridData (gridApi s) (columnDefs (toGrid (excelData s))).

(** [onSave?.(currentData)] *)
Definition call_onSave (p : Props) (currentData : Sheet) : M (World * State) unit :=
  if onSave p then liftW (call_back (OnSave currentData)) else mret tt.

(** [if (portfolioId)] on an optional number *)
Definition id_truthy (portfolioId : option Z) : option Z :=
  match portfolioId with
  | Some z => if (z =? 0)%Z then None else Some z
  | None => None
  end.

Definition handleSaveToDatabase (p : Props)
    (server : Request -> Reply Api.SaveQuarterlyReportResponse) : M (World * State) unit :=
  try_finally
    (try_catch
       (setSaving true;;
        s ← getC;
        let currentData := currentGridData s in
        let saveData :=
          {| Api.investorId := investorId_of p; Api.quarter := quarter_of p;
             Api.year := year_of p; Api.portfolioData := currentData |} in
        response ←
          match id_truthy (portfolioId p) with
          | Some id => liftW (Api.updateQuarterlyReport server id saveData)
          | None => liftW (Api.saveQuarterlyReport server saveData)
          end;
        if Api.success response then
          liftW (message_success (Api.message response));;
          call_onSave p currentData
        else mret tt)
       (fun error =>
          liftW (console_error "保存到数据库失败:");;
          liftW (message_error "保存到数据库失败")))
    (setSaving false).

(** The values collected by the modal form. *)
Record FormValues : Type := mkFormValues {
  form_investorId : Z;
  form_quarter : string;
  form_year : Z
}.

(** [form.validateFields()] resolves with the values or rejects; [form]
    is [None] when validation rejects. *)
Definition validateFields (form : option FormValues) : M (World * State) FormValues :=
  match form with
  | Some values => mret values
  | None => throw (OtherError "validation failed")
  end.

Definition handleModalOk (p : Props) (form : option FormValues)
    (server : Request -> Reply Api.SaveQuarterlyReportResponse) : M (World * State) unit :=
  try_finally
    (try_catch
       (values ← validateFields form;
        setSaving true;;
        s ← getC;
        let currentData := currentGridData s in
        let saveData :=
          {| Api.investorId := form_investorId values; Api.quarter := form_quarter values;
             Api.year := form_year values; Api.portfolioData := currentData |} in
        response ← liftW (Api.saveQuarterlyReport server saveData);
        if Api.success response then
          liftW (message_success (Api.message response));;
          setIsModalVisible false;;
          call_onSave p currentData
        else mret tt)
       (fun error =>
          liftW (console_error "保存失败:");;
          liftW (message_error "保存失败")))
    (setSaving false).

(** [showSaveModal] (the form fields are preset by the widget). *)
Definition showSaveModal : M (World * State) unit := setIsModalVisible true.

(** The [saveData] object of [handleSaveToDatabase]. *)
Definition saveData_of (p : Props) (s : State) : Api.QuarterlyReportData :=
  {| Api.investorId := investorId_of p; Api.quarter := quarter_of p;
     Api.year := year_of p; Api.portfolioData := currentGridData s |}.

(** The database button:
    [onClick={portfolioId ? handleSaveToDatabase : showSaveModal}]. *)
Definition onClickDatabase (p : Props)
    (server : Request -> Reply Api.SaveQuarterlyReportResponse) : M (World * State) unit :=
  match id_truthy (portfolioId p) with
  | Some _ => handleSaveToDatabase p server
  | None => showSaveModal
  end.

(** The persistence call [handleSaveToDatabase] makes. *)
Definition save_call (p : Props)
    (server : Request -> Reply Api.SaveQuarterlyReportResponse) (s : State)
    : M World Api.SaveQuarterlyReportResponse :=
  match id_truthy (portfolioId p) with
  | Some id => Api.updateQuarterlyReport server id (saveData_of p s)
  | None => Api.saveQuarterlyReport server (saveData_of p s)
  end.

(** What a handler shows once its persistence call has settled;
    [failure] is the text of its [catch] branch. *)
Definition shown (failure : string) (r : Result Api.SaveQuarterlyReportResponse) : list Notice :=
  match r with
  | Return response =>
      if Api.success response then [NoticeSuccess (Api.message response)] else []
  | Throw _ => [NoticeError failure]
  end.

(** The calls of [onSave] once the persistence call has settled. *)
Definition reported (p : Props) (data : Sheet) (r : Result Api.SaveQuarterlyReportResponse)
    : list Callback :=
  match r with
  | Return response => if Api.success response && onSave p then [OnSave data] else []
  | Throw _ => []
  end.

End ExcelEditor.

(** ** [handleCellEdit] of [src/components/ExcelEditor.tsx]

    [[...excelData]] copies the outer array only: the row arrays are
    shared with the previous state and written in place.  Rows are
    therefore references into a store of arrays. *)

Module Legacy.

Record State : Type := mkState {
  heap : gmap nat (list Cell);
  excelData : list (option nat)     (* [None]: a hole or [undefined] *)
}.

(** [arr[i] = v]: overwrite in range; past the end the array grows and
    the skipped slots are holes, which read as [hole]. *)
Definition array_set {A} (hole : A) (arr : list A) (i : nat) (v : A) : list A :=
  if decide (i < length arr) then <[i := v]> arr
  else (arr ++ replicate (i - length arr) hole ++ [v])%list.

(** [arr[i]] on the outer array *)
Definition row_ref (data : list (option nat)) (i : nat) : option nat :=
  default None (data !! i).

(** a fresh array object *)
Definition alloc (h : gmap nat (list Cell)) : nat := fresh (dom h).

Definition handleCellEdit (st : State) (rowIndex colIndex : nat) (value : string) : State :=
  let newData := excelData st in
  let '(row, newData, h) :=
    match row_ref newData rowIndex with
    | Some l => (l, newData, heap st)
    | None =>
        let l := alloc (heap st) in
        (l, array_set None newData rowIndex (Some l), <[l := []]> (heap st))
    end in
  {| heap := alter (fun arr => array_set CUndefined arr colIndex (CString value)) row h;
     excelData := newData |}.

(** [excelData[r]?.[c]], the read used by [renderTable] *)
Definition read (st : State) (r c : nat) : Cell :=
  match row_ref (excelData st) r with
  | Some l =>
      match heap st !! l with
      | Some arr => default CUndefined (arr !! c)
      | None => CUndefined
      end
  | None => CUndefined
  end.

(** [setExcelData(jsonData)]: the rows produced by the workbook reader
    are distinct arrays. *)
Definition load (rows : list (list Cell)) : State :=
  {| heap := map_seq 0 rows;
     excelData := Some <$> seq 0 (length rows) |}.

(** No two rows are the same array, and every row reference is
    allocated. *)
Definition wf (st : State) : Prop :=
  (forall r r' l, row_ref (excelData st) r = Some l ->
                  row_ref (excelData st) r' = Some l -> r = r') /\
  (forall r l, row_ref (excelData st) r = Some l -> is_Some (heap st !! l)).

End Legacy.

(** ** Auxiliary views of the loops *)

(** The inner loop of the row builder as a fold of inserts, for any list
    of indexes. *)
Definition fill (v : nat -> Cell) (l : list nat) (obj : gmap string Cell) : gmap string Cell :=
  foldl (fun (rowObj : gmap string Cell) i => <[col_key i := v i]> rowObj) obj l.

(** The cells [getGridData] reads from one row object. *)
Definition cells_of (cols : list ColDef) (row : gmap string Cell) : list Cell :=
  (fun col => js_or (default CUndefined (row !! default "" (field col))) (CString "")) <$> cols.

(** The header row [getGridData] writes. *)
Definition header_cells (cols : list ColDef) : list Cell :=
  (fun col => CString (default "" (headerName col))) <$> cols.

(** ** The projection as the specification words it

    The algorithm of the specification, as a relation between a sheet and
    a grid.  It is parameterised by the synthetic label of a column and by
    what a tabular row keeps for a cell ([None] when the row is too short
    to have one). *)

(** Row 0 of the sheet. *)
Definition row0 (S : Sheet) : list Cell :=
  match S !! 0 with
  | Some (Some r) => r
  | _ => []
  end.

(** The cell at row [r], column [i], when the sheet has one. *)
Definition sheet_cell (S : Sheet) (r i : nat) : option Cell :=
  match S !! r with
  | Some (Some row) => row !! i
  | _ => None
  end.

(** "every cell in row 0 is a non-empty string after trimming" *)
Definition header_flag (cells : list Cell) : Prop :=
  Forall (fun c => exists s, c = CString s /\ Trim.trim s <> "") cells.

(** "maxCols is the maximum row length over all rows" *)
Definition is_max_row_length (S : Sheet) (n : nat) : Prop :=
  (forall row, row ∈ S -> row_length row <= n) /\
  (exists row, row ∈ S /\ row_length row = n).

(** "row0[i] is non-empty" *)
Definition nonempty_text (c : option Cell) : option string :=
  match c with
  | Some (CString s) => if String.eqb s "" then None else Some s
  | _ => None
  end.

Section Algorithm.

Variable label : nat -> string.
Variable keep : option Cell -> Cell.

Definition spec_header (flag : bool) (cells : list Cell) (i : nat) : string :=
  match (if flag then nonempty_text (cells !! i) else None) with
  | Some s => s
  | None => label i
  end.

Definition toGrid_algorithm (S : Sheet) (g : Grid) : Prop :=
  (S = [] -> g = emptyGrid) /\
  (S <> [] ->
   exists (n : nat) (flag : bool),
     is_max_row_length S n /\
     (flag = true <-> header_flag (row0 S)) /\
     length (columnDefs g) = n /\
     (forall i, i < n ->
        exists col, columnDefs g !! i = Some col /\
                    field col = Some (col_key i) /\
                    headerName col = Some (spec_header flag (row0 S) i) /\
                    editable col = true) /\
     length (rowData g) = length S - (if flag then 1 else 0) /\
     (forall r i, r < length (rowData g) -> i < n ->
        exists obj, rowData g !! r = Some obj /\
                    obj !! col_key i = Some (keep (sheet_cell S ((if flag then 1 else 0) + r) i)))).

End Algorithm.

(** The claim as the specification states it: labels ["Column {i+1}"],
    cells kept as they are, missing cells as [""]. *)
Definition toGrid_as_specified : Sheet -> Grid -> Prop :=
  toGrid_algorithm (fun i => "Column " +:+ pretty (i + 1))
                   (fun c => default (CString "") c).

(** The algorithm with the label of the source and with [|| ''] applied to
    every stored cell. *)
Definition toGrid_as_built : Sheet -> Grid -> Prop :=
  toGrid_algorithm (fun i => "列" +:+ pretty (i + 1))
                   (fun c => js_or (default CUndefined c) (CString "")).

(** ** Sheets of the worked examples *)

Definition sheet_ragged : Sheet :=
  [Some [CString "a"]; Some [CString "b"; CString "c"; CString "d"]].

Definition sheet_digits_text : Sheet :=
  [Some [CString "5"; CString "6"]; Some [CString "7"; CString "8"]].

Definition sheet_digits_number : Sheet :=
  [Some [CNumber 5; CNumber 6]; Some [CNumber 7; CNumber 8]].

Definition sheet_zero : Sheet := [Some [CNumber 0]].

(** An empty browser state, an unmounted editor and sample files. *)
Definition world0 : World :=
  {| localStorage := ∅; location_href := "/"; console := []; notices := [];
     network := []; callbacks := [] |}.

Definition editor0 : ExcelEditor.State :=
  {| ExcelEditor.loading := false; ExcelEditor.saving := false;
     ExcelEditor.excelData := sheet_digits_number; ExcelEditor.currentSheet := "Sheet1";
     ExcelEditor.isModalVisible := false;
     ExcelEditor.gridApi := Some (Some <$> rowData (toGrid sheet_digits_number)) |}.

Definition props0 (portfolioId : option Z) : ExcelEditor.Props :=
  {| ExcelEditor.excelUrl := None; ExcelEditor.fileName := None; ExcelEditor.onSave := true;
     ExcelEditor.investorId := Some 1%Z; ExcelEditor.quarter := Some "2024Q1";
     ExcelEditor.year := Some 2024%Z; ExcelEditor.portfolioId := portfolioId;
     ExcelEditor.showDatabaseSave := Some true |}.

Definition MiB : N := 1048576.

Definition jpeg_12MiB : File :=
  {| file_name := "scan.jpg"; file_type := "image/jpeg"; file_size := 12 * MiB |}.
Definition png_2MiB : File :=
  {| file_name := "scan.png"; file_type := "image/png"; file_size := 2 * MiB |}.
Definition pdf_2MiB : File :=
  {| file_name := "scan.pdf"; file_type := "application/pdf"; file_size := 2 * MiB |}.
Definition docx_2MiB : File :=
  {| file_name := "notes.docx";
     file_type := "application/vnd.openxmlformats-officedocument.wordprocessingml.document";
     file_size := 2 * MiB |}.
Definition png_10MiB : File :=
  {| file_name := "scan.png"; file_type := "image/png"; file_size := 10 * MiB |}.

(** A store that is unreachable, one that answers 500, and one that
    answers 200 with a given payload. *)
Definition server_down {A} : Request -> Reply A := fun _ => NoReply "Network Error".
Definition server_500 {A} (payload : A) : Request -> Reply A := fun _ => HttpReply 500 payload.
Definition server_200 {A} (payload : A) : Request -> Reply A := fun _ => HttpReply 200 payload.

(** The validation rule as the specification states it: an image or PDF
    that is not larger than 10 MiB. *)
Definition upload_allowed (f : File) : bool :=
  FileUpload.isValidType f && (file_size f <=? 10 * MiB)%N.

(** The display headers of a grid, in order. *)
Definition headers_of (g : Grid) : list string :=
  (fun col => default "" (headerName col)) <$> columnDefs g.

(** The values of one tabular row in the order of the first [n] column
    keys; [None] where the key is absent. *)
Definition row_values (n : nat) (obj : gmap string Cell) : list (option Cell) :=
  (fun i => obj !! col_key i) <$> seq 0 n.

(** The ragged example as the specification states it. *)
Definition ragged_as_specified : Prop :=
  maxCols sheet_ragged = 3 /\
  hasHeaders (first_row sheet_ragged) = false /\
  length (rowData (toGrid sheet_ragged)) = 2 /\
  Forall (fun obj => Forall (fun v => is_Some v) (row_values 3 obj)) (rowData (toGrid sheet_ragged)).

(** The negative header example as the specification states it. *)
Definition digits_as_specified : Prop :=
  headers_of (toGrid sheet_digits_text) = ["Column 1"; "Column 2"] /\
  length (rowData (toGrid sheet_digits_text)) = 2 /\
  exists obj, obj ∈ rowData (toGrid sheet_digits_text) /\
              row_values 2 obj = [Some (CString "5"); Some (CString "6")].

(** ** Shapes of sheets and grids *)

(** A row of the sheet as the row builder stores it: one value per column,
    [""] where the row has no cell or a falsy one. *)
Definition padded (n : nat) (row : option (list Cell)) : list Cell :=
  (fun i => js_or (row_get row i) (CString "")) <$> seq 0 n.

(** A value the projection can store: a truthy cell or [""]. *)
Definition stored (c : Cell) : Prop := truthy c = true \/ c = CString "".

(** A sheet the round trip gives back unchanged: row 0 is a header row,
    every row is an array as long as row 0, and no data cell is falsy
    unless it is [""]. *)
Definition exact_sheet (S : Sheet) : Prop :=
  exists (headers : list Cell) (rows : list (list Cell)),
    S = Some headers :: (Some <$> rows) /\
    hasHeaders headers = true /\
    Forall (fun r => length r = length headers /\ Forall stored r) rows.

(** ** The rendered table of [src/components/ExcelEditor.tsx] *)

Module LegacyView.

(** [row?.length || 0] for the row at index [r] *)
Definition row_len (st : Legacy.State) (r : nat) : nat :=
  match Legacy.row_ref (Legacy.excelData st) r with
  | Some l =>
      match Legacy.heap st !! l with
      | Some arr => length arr
      | None => 0
      end
  | None => 0
  end.

(** Every row of the sheet is an array: the outer array has no hole and no
    [undefined] entry.  This is the case after loading a workbook. *)
Definition dense (st : Legacy.State) : Prop :=
  Forall is_Some (Legacy.excelData st).

(** [Math.max(...excelData.map(row => row?.length || 0))] of [renderTable],
    computed when the sheet has rows.  It is the largest row length on a
    dense sheet (a hole in the outer array would be spread as [undefined]
    and make [Math.max] return [NaN]). *)
Definition table_width (st : Legacy.State) : nat :=
  foldr Nat.max 0 (row_len st <$> seq 0 (length (Legacy.excelData st))).

(** The cells [renderTable] draws an input for: one per row of the sheet
    and per column below the width. *)
Definition rendered (st : Legacy.State) (r c : nat) : Prop :=
  r < length (Legacy.excelData st) /\ c < table_width st.

(** The array of rows a component still holds from before an edit, looked
    at after the edit: the outer array is the old one, the row arrays are
    the shared ones. *)
Definition stale (before after : Legacy.State) : Legacy.State :=
  {| Legacy.heap := Legacy.heap after; Legacy.excelData := Legacy.excelData before |}.

(** A sequence of committed edits, oldest first. *)
Definition apply_edits (st : Legacy.State) (edits : list (nat * nat * string)) : Legacy.State :=
  foldl (fun st e => Legacy.handleCellEdit st e.1.1 e.1.2 e.2) st edits.

(** The value of the last edit made to cell [(r, c)], if any. *)
Fixpoint last_write (edits : list (nat * nat * string)) (r c : nat) : option string :=
  match edits with
  | [] => None
  | e :: rest =>
      match last_write rest r c with
      | Some v => Some v
      | None => if decide (e.1.1 = r /\ e.1.2 = c) then Some e.2 else None
      end
  end.

End LegacyView.

(** ** More of [frontend-app/src/components/FileUpload.tsx] *)

Module FileUploadMore.

(** [list.slice(-1)] *)
Definition slice_last {A} (l : list A) : list A := drop (length l - 1) l.

(** [handleFileChange]: [setFileList(info.fileList.slice(-1))] *)
Definition handleFileChange (info_fileList : list FileUpload.UploadFile)
    : M (World * FileUpload.State) unit :=
  FileUpload.setFileList (slice_last info_fileList).

(** The [relatedPersonInfo] [handleSubmit] sends: all fields empty. *)
Definition blank_info : RelatedPersonInfo :=
  {| info_name := ""; relationship := ""; idNumber := ""; phone := "";
     description := Some "" |}.

(** [response.success && response.excelUrl] *)
Definition usable (response : Api.UploadResponse) : bool :=
  Api.up_success response &&
  match Api.excelUrl response with
  | Some u => negb (String.eqb u "")
  | None => false
  end.

End FileUploadMore.

(** ** [pages/FileUploadPage.tsx] *)

Module UploadPage.

Record State : Type := mkState {
  currentStep : nat;
  excelUrl : string;
  fileName : string
}.

Definition initial : State := {| currentStep := 0; excelUrl := ""; fileName := "" |}.

(** [handleUploadSuccess] *)
Definition handleUploadSuccess (url name : string) : M (World * State) unit :=
  modifyC (fun _ => {| currentStep := 1; excelUrl := url; fileName := name |}).

(** [handleExcelSave] *)
Definition handleExcelSave (data : Sheet) : M (World * State) unit :=
  liftW (console_log "Excel数据已保存:");;
  modifyC (fun s => {| currentStep := 2; excelUrl := excelUrl s; fileName := fileName s |}).

(** [handleRestart] *)
Definition handleRestart : M (World * State) unit :=
  modifyC (fun _ => {| currentStep := 0; excelUrl := ""; fileName := "" |}).

(** The link [onClick={() => setCurrentStep(1)}] of the last step. *)
Definition continueEditing : M (World * State) unit :=
  modifyC (fun s => {| currentStep := 1; excelUrl := excelUrl s; fileName := fileName s |}).

(** What the page mounts. *)
Inductive View : Type :=
  | ShowUpload
  | ShowEditor (excelUrl fileName : string)
  | ShowDone
  | ShowNothing.

Definition view (s : State) : View :=
  match currentStep s with
  | 0 => ShowUpload
  | 1 => ShowEditor (excelUrl s) (fileName s)
  | 2 => ShowDone
  | _ => ShowNothing
  end.

(** What can happen on the page.  The upload form reports a spreadsheet
    through [onUploadSuccess] and the editor reports a save through
    [onSave]; both are called after an awaited request, so a report can
    arrive when the page has already moved to another step.  The two links
    call [handleRestart] and [setCurrentStep(1)]. *)
Inductive Event : Type :=
  | Uploaded (url name : string)
  | Saved (data : Sheet)
  | Restart
  | Continue.

Definition handle (e : Event) : M (World * State) unit :=
  match e with
  | Uploaded url name => handleUploadSuccess url name
  | Saved data => handleExcelSave data
  | Restart => handleRestart
  | Continue => continueEditing
  end.

(** The handlers run in the order the events arrive.  None of them tests
    the step the page is at, so every event takes effect. *)
Fixpoint run (events : list Event) (st : World * State) : World * State :=
  match events with
  | [] => st
  | e :: rest => run rest (snd (handle e st))
  end.

(** The events that leave [excelUrl] and [fileName] as they are. *)
Definition keeps_file (e : Event) : bool :=
  match e with
  | Saved _ | Continue => true
  | Uploaded _ _ | Restart => false
  end.

(** The step each handler sets. *)
Definition step_of (e : Event) : nat :=
  match e with
  | Uploaded _ _ => 1
  | Saved _ => 2
  | Restart => 0
  | Continue => 1
  end.

(** The callbacks of the upload form delivered to the page. *)
Definition event_of (c : Callback) : Event :=
  match c with
  | OnUploadSuccess url name => Uploaded url name
  | OnSave data => Saved data
  end.

(** [useEffect] of the editor: a truthy [excelUrl] selects
    [loadExcelFile], anything else the quarterly report. *)
Definition editor_loads_file (v : View) : bool :=
  match v with
  | ShowEditor url _ => negb (String.eqb url "")
  | _ => false
  end.

End UploadPage.

(** ** Sessions and the page around the upload form *)

(** The reply that makes the response interceptor end the session. *)
Definition unauthorized {A} (r : Reply A) : bool :=
  match r with
  | HttpReply status _ => bool_decide (status = 401)
  | NoReply _ => false
  end.

(** The callbacks a handler added to the ones recorded before it ran. *)
Definition new_callbacks (before after : World) : list Callback :=
  drop (length (callbacks before)) (callbacks after).

(** The editor state after a handler ran, busy flag aside. *)
Definition settled (s : ExcelEditor.State) (modal : bool) : ExcelEditor.State :=
  {| ExcelEditor.loading := ExcelEditor.loading s; ExcelEditor.saving := false;
     ExcelEditor.excelData := ExcelEditor.excelData s;
     ExcelEditor.currentSheet := ExcelEditor.currentSheet s;
     ExcelEditor.isModalVisible := modal;
     ExcelEditor.gridApi := ExcelEditor.gridApi s |}.

(** The [saveData] object of [handleModalOk]. *)
Definition modal_saveData (values : ExcelEditor.FormValues) (s : ExcelEditor.State)
    : Api.QuarterlyReportData :=
  {| Api.investorId := ExcelEditor.form_investorId values;
     Api.quarter := ExcelEditor.form_quarter values;
     Api.year := ExcelEditor.form_year values;
     Api.portfolioData := ExcelEditor.currentGridData s |}.

(** Whether a settled persistence call reported success. *)
Definition succeeded (r : Result Api.SaveQuarterlyReportResponse) : bool :=
  match r with
  | Return response => Api.success response
  | Throw _ => false
  end.

(** ** Calls with other payloads

    [saveExcelData], [getQuarterlyReport] and [downloadExcel] of
    [frontend-app/src/services/api.ts] send payloads the three calls above
    do not; their requests are logged next to the ambient state. *)

Module Wire.

Inductive Payload : Type :=
  | NoPayload
  | ExcelPayload (fileName : string) (data : Sheet) (sheets : option (list string)).

Record Call : Type := mkCall {
  call_method : Method;
  call_baseURL : string;
  call_url : string;
  call_responseType : option string;
  call_authorization : option string;
  call_payload : Payload
}.

(** The bytes of a downloaded file. *)
Abbreviation Blob := string.

Definition log_call (c : Call) : M (World * list Call) unit :=
  modifyC (fun calls => (calls ++ [c])%list).

(** One call through the instance [api], as [Api.request] but for these
    payloads. *)
Definition request {A} (server : Call -> Reply A) (m : Method) (path : string)
    (responseType : option string) (payload : Payload) : M (World * list Call) A :=
  st ← get;
  liftW (console_log "发送请求:");;
  let config := {| call_method := m; call_baseURL := "/api"; call_url := path;
                   call_responseType := responseType;
                   call_authorization := Api.bearer (fst st);
                   call_payload := payload |} in
  log_call config;;
  match server config with
  | HttpReply status data =>
      if Api.validateStatus status
      then liftW (console_log "收到响应:");; mret data
      else liftW (Api.response_error (Some status) "Request failed")
  | NoReply reason => liftW (Api.response_error None reason)
  end.

Record SaveExcelData : Type := mkSaveExcelData {
  fileName : string;
  data : Sheet;
  sheets : option (list string)
}.

Record SaveExcelResponse : Type := mkSaveExcelResponse {
  success : bool;
  message : string
}.

Definition saveExcelData (server : Call -> Reply SaveExcelResponse) (d : SaveExcelData)
    : M (World * list Call) SaveExcelResponse :=
  try_catch
    (request server POST "/v1/excel/save" None
       (ExcelPayload (fileName d) (data d) (sheets d)))
    (fun error =>
       liftW (console_error "保存Excel数据失败:");;
       throw error).

(** The payload of the quarterly report: [{ data }], where [data] may be
    missing; the whole payload may be [null]. *)
Abbreviation ReportResponse := (option (option Sheet)).

Definition getQuarterlyReport (server : Call -> Reply (option (option Sheet)))
    : M (World * list Call) (option (option Sheet)) :=
  try_catch
    (request server GET "/v1/excel/quarterly-report" None NoPayload)
    (fun error =>
       liftW (console_error "读取季度投资报告失败:");;
       throw error).

(** [fetch(path)] outside the axios instance: it resolves with the body
    whatever the status is and rejects only when there is no response. *)
Definition fetch (web : string -> option string) (path : string)
    : M (World * list Call) string :=
  log_call {| call_method := GET; call_baseURL := ""; call_url := path;
              call_responseType := None; call_authorization := None;
              call_payload := NoPayload |};;
  match web path with
  | Some blob => mret blob
  | None => throw (OtherError "Failed to fetch")
  end.

Definition downloadExcel (server : Call -> Reply string) (web : string -> option string)
    (fileName : string) : M (World * list Call) string :=
  try_catch
    (request server GET ("/v1/excel/download/" +:+ fileName) (Some "blob") NoPayload)
    (fun error =>
       liftW (console_error "下载文件失败:");;
       fetch web "/example.xlsx").

End Wire.

(** ** The earlier [services/api.ts]

    The table editor of [src/components/ExcelEditor.tsx] imports
    [saveExcelData] from the earlier service module, whose instance has no
    token handling and whose [saveExcelData] answers for the store when the
    call fails. *)

Module LegacyApi.

Definition request {A} (server : Wire.Call -> Reply A) (m : Method) (path : string)
    (responseType : option string) (payload : Wire.Payload) : M (World * list Wire.Call) A :=
  liftW (console_log "发送请求:");;
  let config := {| Wire.call_method := m; Wire.call_baseURL := "/api"; Wire.call_url := path;
                   Wire.call_responseType := responseType;
                   Wire.call_authorization := None;
                   Wire.call_payload := payload |} in
  Wire.log_call config;;
  match server config with
  | HttpReply status data =>
      if Api.validateStatus status
      then liftW (console_log "收到响应:");; mret data
      else liftW (console_error "响应错误:");; throw (AxiosError (Some status) "Request failed")
  | NoReply reason =>
      liftW (console_error "响应错误:");; throw (AxiosError None reason)
  end.

(** The response returned from the [catch] branch of [saveExcelData]. *)
Definition assumedSaved : Wire.SaveExcelResponse :=
  {| Wire.success := true; Wire.message := "Excel数据保存成功" |}.

Definition saveExcelData (server : Wire.Call -> Reply Wire.SaveExcelResponse)
    (d : Wire.SaveExcelData) : M (World * list Wire.Call) Wire.SaveExcelResponse :=
  try_catch
    (request server POST "/save-excel" None
       (Wire.ExcelPayload (Wire.fileName d) (Wire.data d) (Wire.sheets d)))
    (fun error =>
       liftW (console_error "保存Excel失败:");;
       mret assumedSaved).

End LegacyApi.

(** ** [handleSave] and [loadQuarterlyReport] of the grid editor,
    [handleSave] of the table editor *)

Module EditorIO.

(** The editor with what these handlers also use: the [SheetNames] of the
    loaded workbook ([None] while [workbook] is [null]) and the log of
    calls. *)
Record Env : Type := mkEnv {
  editor : ExcelEditor.State;
  workbook_sheets : option (list string);
  wire : list Wire.Call
}.

(** Running a call of the service module inside the component. *)
Definition liftNet {A} (m : M (World * list Wire.Call) A) : M (World * Env) A :=
  fun st =>
    let '(r, (w', calls')) := m (fst st, wire (snd st)) in
    (r, (w', {| editor := editor (snd st); workbook_sheets := workbook_sheets (snd st);
                wire := calls' |})).

Definition modifyEditor (f : ExcelEditor.State -> ExcelEditor.State) : M (World * Env) unit :=
  modifyC (fun e => {| editor := f (editor e); workbook_sheets := workbook_sheets e;
                       wire := wire e |}).

Definition setLoading (b : bool) : M (World * Env) unit :=
  modifyEditor (fun s =>
    {| ExcelEditor.loading := b; ExcelEditor.saving := ExcelEditor.saving s;
       ExcelEditor.excelData := ExcelEditor.excelData s;
       ExcelEditor.currentSheet := ExcelEditor.currentSheet s;
       ExcelEditor.isModalVisible := ExcelEditor.isModalVisible s;
       ExcelEditor.gridApi := ExcelEditor.gridApi s |}).

(** [setExcelData]; the widget takes the new rows on the next render. *)
Definition setExcelData (d : Sheet) : M (World * Env) unit :=
  modifyEditor (fun s =>
    {| ExcelEditor.loading := ExcelEditor.loading s; ExcelEditor.saving := ExcelEditor.saving s;
       ExcelEditor.excelData := d;
       ExcelEditor.currentSheet := ExcelEditor.currentSheet s;
       ExcelEditor.isModalVisible := ExcelEditor.isModalVisible s;
       ExcelEditor.gridApi := ExcelEditor.gridApi s |}).

(** [fileName || 'edited_excel.xlsx'] *)
Definition save_name (p : ExcelEditor.Props) : string :=
  FileUpload.str_or (default "" (ExcelEditor.fileName p)) "edited_excel.xlsx".

Definition handleSave (p : ExcelEditor.Props)
    (server : Wire.Call -> Reply Wire.SaveExcelResponse) : M (World * Env) unit :=
  try_finally
    (try_catch
       (setLoading true;;
        e ← getC;
        let currentData := ExcelEditor.currentGridData (editor e) in
        _ ← liftNet (Wire.saveExcelData server
                       {| Wire.fileName := save_name p; Wire.data := currentData;
                          Wire.sheets := workbook_sheets e |});
        liftW (message_success "Excel数据保存成功");;
        (if ExcelEditor.onSave p then liftW (call_back (OnSave currentData)) else mret tt))
       (fun error =>
          liftW (console_error "保存失败:");;
          liftW (message_error "保存失败")))
    (setLoading false).

(** [setFileName] is not declared anywhere in the module ([fileName] is a
    prop and there is no such state), so evaluating the call throws a
    [ReferenceError]. *)
Definition setFileName (name : string) : M (World * Env) unit :=
  throw (OtherError "ReferenceError: setFileName is not defined").

Definition loadQuarterlyReport (server : Wire.Call -> Reply (option (option Sheet)))
    : M (World * Env) unit :=
  setLoading true;;
  try_finally
    (try_catch
       (response ← liftNet (Wire.getQuarterlyReport server);
        match response with
        | Some (Some d) =>
            setExcelData d;;
            setFileName "季度投资报告";;
            liftW (message_success "季度投资报告加载成功")
        | _ => mret tt
        end)
       (fun error =>
          liftW (console_error "加载季度投资报告失败:");;
          liftW (message_error "加载季度投资报告失败")))
    (setLoading false).

(** The table editor: its sheet, busy flag, workbook and log of calls. *)
Record LegacyEnv : Type := mkLegacyEnv {
  table : Legacy.State;
  l_loading : bool;
  l_sheets : option (list string);
  l_wire : list Wire.Call
}.

(** The rows of the table editor as the values sent to the store. *)
Definition snapshot (st : Legacy.State) : Sheet :=
  (fun ref : option nat => ref ≫= (fun l => Legacy.heap st !! l)) <$> Legacy.excelData st.

Definition liftLegacy {A} (m : M (World * list Wire.Call) A) : M (World * LegacyEnv) A :=
  fun st =>
    let '(r, (w', calls')) := m (fst st, l_wire (snd st)) in
    (r, (w', {| table := table (snd st); l_loading := l_loading (snd st);
                l_sheets := l_sheets (snd st); l_wire := calls' |})).

Definition setLegacyLoading (b : bool) : M (World * LegacyEnv) unit :=
  modifyC (fun e => {| table := table e; l_loading := b; l_sheets := l_sheets e;
                       l_wire := l_wire e |}).

(** [handleSave] of [src/components/ExcelEditor.tsx]; [fileName] and
    [onSave] are its props. *)
Definition legacy_handleSave (fileName : option string) (onSave : bool)
    (server : Wire.Call -> Reply Wire.SaveExcelResponse) : M (World * LegacyEnv) unit :=
  try_finally
    (try_catch
       (setLegacyLoading true;;
        e ← getC;
        _ ← liftLegacy (LegacyApi.saveExcelData server
                          {| Wire.fileName := FileUpload.str_or (default "" fileName)
                                                "edited_excel.xlsx";
                             Wire.data := snapshot (table e);
                             Wire.sheets := l_sheets e |});
        liftW (message_success "Excel数据保存成功");;
        (if onSave then liftW (call_back (OnSave (snapshot (table e)))) else mret tt))
       (fun error =>
          liftW (console_error "保存失败:");;
          liftW (message_error "保存失败")))
    (setLegacyLoading false).

End EditorIO.

(** The outcome axios gives a reply: the payload of a 2xx response, an
    error otherwise. *)
Definition settle {A} (r : Reply A) : Result A :=
  match r with
  | HttpReply status data =>
      if Api.validateStatus status then Return data
      else Throw (AxiosError (Some status) "Request failed")
  | NoReply reason => Throw (AxiosError None reason)
  end.

(** The calls of the service modules as they reach the transport. *)
Definition save_excel_call (w : World) (d : Wire.SaveExcelData) : Wire.Call :=
  {| Wire.call_method := POST; Wire.call_baseURL := "/api"; Wire.call_url := "/v1/excel/save";
     Wire.call_responseType := None; Wire.call_authorization := Api.bearer w;
     Wire.call_payload := Wire.ExcelPayload (Wire.fileName d) (Wire.data d) (Wire.sheets d) |}.

Definition legacy_save_call (d : Wire.SaveExcelData) : Wire.Call :=
  {| Wire.call_method := POST; Wire.call_baseURL := "/api"; Wire.call_url := "/save-excel";
     Wire.call_responseType := None; Wire.call_authorization := None;
     Wire.call_payload := Wire.ExcelPayload (Wire.fileName d) (Wire.data d) (Wire.sheets d) |}.

Definition report_call (w : World) : Wire.Call :=
  {| Wire.call_method := GET; Wire.call_baseURL := "/api";
     Wire.call_url := "/v1/excel/quarterly-report";
     Wire.call_responseType := None; Wire.call_authorization := Api.bearer w;
     Wire.call_payload := Wire.NoPayload |}.

Definition download_call (w : World) (fileName : string) : Wire.Call :=
  {| Wire.call_method := GET; Wire.call_baseURL := "/api";
     Wire.call_url := "/v1/excel/download/" +:+ fileName;
     Wire.call_responseType := Some "blob"; Wire.call_authorization := Api.bearer w;
     Wire.call_payload := Wire.NoPayload |}.

Definition example_fetch : Wire.Call :=
  {| Wire.call_method := GET; Wire.call_baseURL := ""; Wire.call_url := "/example.xlsx";
     Wire.call_responseType := None; Wire.call_authorization := None;
     Wire.call_payload := Wire.NoPayload |}.

(** The editor state with another busy flag or another sheet. *)
Definition with_loading (s : ExcelEditor.State) (b : bool) : ExcelEditor.State :=
  {| ExcelEditor.loading := b; ExcelEditor.saving := ExcelEditor.saving s;
     ExcelEditor.excelData := ExcelEditor.excelData s;
     ExcelEditor.currentSheet := ExcelEditor.currentSheet s;
     ExcelEditor.isModalVisible := ExcelEditor.isModalVisible s;
     ExcelEditor.gridApi := ExcelEditor.gridApi s |}.

Definition with_sheet (s : ExcelEditor.State) (d : Sheet) : ExcelEditor.State :=
  {| ExcelEditor.loading := ExcelEditor.loading s; ExcelEditor.saving := ExcelEditor.saving s;
     ExcelEditor.excelData := d;
     ExcelEditor.currentSheet := ExcelEditor.currentSheet s;
     ExcelEditor.isModalVisible := ExcelEditor.isModalVisible s;
     ExcelEditor.gridApi := ExcelEditor.gridApi s |}.

(** The [SaveExcelData] object of [handleSave]. *)
Definition save_data (p : ExcelEditor.Props) (e : EditorIO.Env) : Wire.SaveExcelData :=
  {| Wire.fileName := EditorIO.save_name p;
     Wire.data := ExcelEditor.currentGridData (EditorIO.editor e);
     Wire.sheets := EditorIO.workbook_sheets e |}.

(** The [SaveExcelData] object of the table editor's [handleSave]. *)
Definition legacy_save_data (fileName : option string) (e : EditorIO.LegacyEnv)
    : Wire.SaveExcelData :=
  {| Wire.fileName := FileUpload.str_or (default "" fileName) "edited_excel.xlsx";
     Wire.data := EditorIO.snapshot (EditorIO.table e);
     Wire.sheets := EditorIO.l_sheets e |}.

(** The sheet a report response carries, if any. *)
Definition report_sheet (r : Result (option (option Sheet))) : option Sheet :=
  match r with
  | Return (Some (Some d)) => Some d
  | _ => None
  end.

(** ** Regular expressions of the form rules

    The patterns of [src/components/FileUpload.tsx] are anchored at both
    ends and use character classes, concatenation, alternation and counted
    repetition only.  [test] is [RegExp.prototype.test] for such a pattern.
    The classes are ASCII ranges: a character outside ASCII is several bytes
    here, none of which is in a class, and is rejected as it is by the
    engine. *)

Module Regex.

Inductive re : Type :=
  | Fail                        (* matches nothing *)
  | Eps                         (* the empty string *)
  | Class (lo hi : ascii)       (* [lo-hi] *)
  | Seq (r1 r2 : re)
  | Alt (r1 r2 : re).

Definition in_range (lo hi a : ascii) : bool :=
  ((N_of_ascii lo <=? N_of_ascii a) && (N_of_ascii a <=? N_of_ascii hi))%N.

(** a literal character *)
Definition chr (c : ascii) : re := Class c c.

(** [r{n}] *)
Fixpoint rep (n : nat) (r : re) : re :=
  match n with
  | 0 => Eps
  | S n => Seq r (rep n r)
  end.

Fixpoint nullable (r : re) : bool :=
  match r with
  | Fail => false
  | Eps => true
  | Class _ _ => false
  | Seq r1 r2 => nullable r1 && nullable r2
  | Alt r1 r2 => nullable r1 || nullable r2
  end.

(** The pattern left after reading [a]. *)
Fixpoint deriv (a : ascii) (r : re) : re :=
  match r with
  | Fail => Fail
  | Eps => Fail
  | Class lo hi => if in_range lo hi a then Eps else Fail
  | Seq r1 r2 =>
      Alt (Seq (deriv a r1) r2) (if nullable r1 then deriv a r2 else Fail)
  | Alt r1 r2 => Alt (deriv a r1) (deriv a r2)
  end.

Fixpoint matches (r : re) (l : list ascii) : bool :=
  match l with
  | [] => nullable r
  | a :: l => matches (deriv a r) l
  end.

(** [/^r$/.test(s)] *)
Definition test (r : re) (s : string) : bool := matches r (list_ascii_of_string s).

(** The strings a pattern denotes. *)
Fixpoint lang (r : re) (l : list ascii) : Prop :=
  match r with
  | Fail => False
  | Eps => l = []
  | Class lo hi => exists a, l = [a] /\ in_range lo hi a = true
  | Seq r1 r2 => exists l1 l2, l = (l1 ++ l2)%list /\ lang r1 l1 /\ lang r2 l2
  | Alt r1 r2 => lang r1 l \/ lang r2 l
  end.

(** The common length of the strings of a pattern, when they have one. *)
Fixpoint width (r : re) : option nat :=
  match r with
  | Fail => None
  | Eps => Some 0
  | Class _ _ => Some 1
  | Seq r1 r2 =>
      match width r1, width r2 with
      | Some n1, Some n2 => Some (n1 + n2)
      | _, _ => None
      end
  | Alt r1 r2 =>
      match width r1, width r2 with
      | Some n1, Some n2 => if decide (n1 = n2) then Some n1 else None
      | _, _ => None
      end
  end.

End Regex.

(** ** The form rules of [src/components/FileUpload.tsx] *)

Module LegacyForm.
Import Regex.

(** [\d] *)
Definition digit : re := Class "0" "9".

(** [/^1[3-9]\d{9}$/] *)
Definition phonePattern : re :=
  Seq (chr "1") (Seq (Class "3" "9") (rep 9 digit)).

(** [(18|19|20)] *)
Definition century : re :=
  Alt (Seq (chr "1") (chr "8")) (Alt (Seq (chr "1") (chr "9")) (Seq (chr "2") (chr "0"))).

(** [((0[1-9])|(1[0-2]))] *)
Definition month : re :=
  Alt (Seq (chr "0") (Class "1" "9")) (Seq (chr "1") (Class "0" "2")).

(** [(([0-2][1-9])|10|20|30|31)] *)
Definition day : re :=
  Alt (Seq (Class "0" "2") (Class "1" "9"))
      (Alt (Seq (chr "1") (chr "0"))
           (Alt (Seq (chr "2") (chr "0"))
                (Alt (Seq (chr "3") (chr "0")) (Seq (chr "3") (chr "1"))))).

(** [[0-9Xx]] *)
Definition check : re := Alt digit (Alt (chr "X") (chr "x")).

(** [/^[1-9]\d{5}(18|19|20)\d{2}((0[1-9])|(1[0-2]))(([0-2][1-9])|10|20|30|31)\d{3}[0-9Xx]$/] *)
Definition idNumberPattern : re :=
  Seq (Class "1" "9")
      (Seq (rep 5 digit)
           (Seq century
                (Seq (rep 2 digit)
                     (Seq month
                          (Seq day
                               (Seq (rep 3 digit) check)))))).

Definition is_digit (a : ascii) : bool := in_range "0" "9" a.

(** The number a string of digits writes. *)
Definition num (l : list ascii) : N :=
  foldl (fun acc a => (10 * acc + (N_of_ascii a - 48))%N) 0%N l.

(** The mobile numbers: eleven digits, the first a 1 and the second from 3
    to 9. *)
Definition phone_shape (l : list ascii) : Prop :=
  length l = 11 /\
  Forall (fun a => is_digit a = true) l /\
  l !! 0 = Some "1"%char /\
  exists b, l !! 1 = Some b /\ in_range "3" "9" b = true.

(** The identity numbers: eighteen characters; seventeen digits, the first
    not 0, then a digit or the letter X in either case; the digits 7 to 10
    write a year from 1800 to 2099, the digits 11 and 12 a month from 1 to
    12, the digits 13 and 14 a day from 1 to 31. *)
Definition id_shape (l : list ascii) : Prop :=
  length l = 18 /\
  Forall (fun a => is_digit a = true) (take 17 l) /\
  l !! 0 <> Some "0"%char /\
  (exists c, l !! 17 = Some c /\ (is_digit c = true \/ c = "X"%char \/ c = "x"%char)) /\
  (1800 <= num (take 4 (drop 6 l)) <= 2099)%N /\
  (1 <= num (take 2 (drop 10 l)) <= 12)%N /\
  (1 <= num (take 2 (drop 12 l)) <= 31)%N.

(** Every character, for checking a property of characters by running
    through them. *)
Definition all_ascii : list ascii := ascii_of_nat <$> seq 0 256.

(** The boolean forms of the date conditions, on two characters. *)
Definition two_digits (lo hi : N) (a b : ascii) : bool :=
  (is_digit a && is_digit b && (lo <=? num [a; b]) && (num [a; b] <=? hi))%N.

End LegacyForm.

(** ** A save to the database as the user makes it

    The database button is
    [onClick={portfolioId ? handleSaveToDatabase : showSaveModal}]; when it
    opens the dialog, the save is made by the dialog's confirmation,
    [onOk={handleModalOk}], with [form] the state of the dialog's form.
    The button is rendered under [{showDatabaseSave && ...}], where the
    prop defaults to [true]. *)
Definition database_button (p : ExcelEditor.Props) : bool :=
  default true (ExcelEditor.showDatabaseSave p).

Definition save_to_database (p : ExcelEditor.Props) (form : option ExcelEditor.FormValues)
    (server : Request -> Reply Api.SaveQuarterlyReportResponse)
    : M (World * ExcelEditor.State) unit :=
  ExcelEditor.onClickDatabase p server;;
  match ExcelEditor.id_truthy (ExcelEditor.portfolioId p) with
  | Some _ => mret tt
  | None => ExcelEditor.handleModalOk p form server
  end.

(** The request such a save hands to the transport. *)
Definition save_request (p : ExcelEditor.Props) (values : ExcelEditor.FormValues)
    (w : World) (s : ExcelEditor.State) : Request :=
  match ExcelEditor.id_truthy (ExcelEditor.portfolioId p) with
  | Some id => Api.update_request w id (ExcelEditor.saveData_of p s)
  | None => Api.create_request w (modal_saveData values s)
  end.

(** The text of the [catch] branch of the handler that makes the save. *)
Definition save_failure_text (p : ExcelEditor.Props) : string :=
  match ExcelEditor.id_truthy (ExcelEditor.portfolioId p) with
  | Some _ => "保存到数据库失败"
  | None => "保存失败"
  end.

(** The create-versus-update rule as the specification states it: a save
    without a [portfolioId] issues the create, and a save with a
    [portfolioId] issues the update against that id. *)
Definition save_paths_as_specified : Prop :=
  forall (p : ExcelEditor.Props) (values : ExcelEditor.FormValues)
         (server : Request -> Reply Api.SaveQuarterlyReportResponse)
         (w : World) (s : ExcelEditor.State),
    database_button p = true ->
    let w' := fst (snd (save_to_database p (Some values) server (w, s))) in
    (ExcelEditor.portfolioId p = None ->
     network w' = (network w ++ [Api.create_request w (modal_saveData values s)])%list) /\
    (forall id, ExcelEditor.portfolioId p = Some id ->
     network w' = (network w ++ [Api.update_request w id (ExcelEditor.saveData_of p s)])%list).

(** The other half of the rule as the specification states it: a create
    that the store accepted returns a record id. *)
Definition create_returns_id_as_specified : Prop :=
  forall (server : Request -> Reply Api.SaveQuarterlyReportResponse)
         (data : Api.QuarterlyReportData) (w : World)
         (response : Api.SaveQuarterlyReportResponse),
    fst (Api.saveQuarterlyReport server data w) = Return response ->
    Api.success response = true ->
    is_Some (Api.portfolioId response).

(** Sample values of the dialog's form, and a store that accepts a save
    and sends no record id. *)
Definition form0 : ExcelEditor.FormValues :=
  {| ExcelEditor.form_investorId := 1; ExcelEditor.form_quarter := "2024Q2";
     ExcelEditor.form_year := 2024 |}.

Definition saved_without_id : Api.SaveQuarterlyReportResponse :=
  {| Api.success := true; Api.message := "saved"; Api.portfolioId := None |}.

(** ** Facts about [trim] *)

Module TrimFacts.
Import Trim.

Lemma trimStart_fix_aux (n : nat) :
  forall s, String.length s <= n -> trimStart (trimStart s) = trimStart s.
Proof.
  induction n as [|n IH]; intros s Hlen.
  - destruct s; [reflexivity | simpl in Hlen; lia].
  - destruct s as [|a r]; [reflexivity|].
    simpl in Hlen.
    cbn [trimStart].
    destruct (ws1 a) eqn:Ha.
    { apply IH. lia. }
    destruct r as [|b r2].
    { cbn [trimStart]. rewrite Ha. reflexivity. }
    destruct (ws2 a b) eqn:Hab.
    { apply IH. simpl in Hlen. lia. }
    destruct r2 as [|c r3].
    { cbn [trimStart]. rewrite Ha, Hab. reflexivity. }
    destruct (ws3 a b c) eqn:Habc.
    { apply IH. simpl in Hlen. lia. }
    cbn [trimStart]. rewrite Ha, Hab, Habc. reflexivity.
Qed.

Lemma trimStart_idem (s : string) : trimStart (trimStart s) = trimStart s.
Proof. apply (trimStart_fix_aux (String.length s)). lia. Qed.

(** [s.trim()] is empty exactly when [s] is white space only. *)
Lemma trim_empty_iff (s : string) : trim s = "" <-> trimStart s = "".
Proof.
  unfold trim. split.
  - intros H. destruct (trimStart s) as [|a r] eqn:E; [reflexivity|].
    exfalso. cbn [trimEnd] in H. rewrite <- E in H.
    rewrite trimStart_idem, E in H. cbn in H. discriminate.
  - intros ->. reflexivity.
Qed.

Lemma trim_default_header (x : string) : trim ("列" +:+ x) <> "".
Proof.
  rewrite trim_empty_iff. cbn. discriminate.
Qed.

(** [trim] on ASCII blanks, on the ideographic space U+3000 and on the
    no-break space U+00A0. *)
Example trim_ascii : trim "  a b  " = "a b".
Proof. reflexivity. Qed.

Example trim_tab_newline :
  trim (String (ascii_of_nat 9) ("x" +:+ String (ascii_of_nat 10) "")) = "x".
Proof. reflexivity. Qed.

Example trim_ideographic : trim "　列1　" = "列1".
Proof. reflexivity. Qed.

Example trim_no_break :
  trim (String (ascii_of_nat 194) (String (ascii_of_nat 160) "")) = "".
Proof. reflexivity. Qed.

Example trim_keeps_inner : trim "é à" = "é à".
Proof. reflexivity. Qed.

End TrimFacts.

(** ** Facts about the projection *)

Section GridFacts.

Lemma col_key_inj (i j : nat) : col_key i = col_key j -> i = j.
Proof.
  unfold col_key. intros H.
  change ("col" +:+ pretty i) with (String "c" (String "o" (String "l" (pretty i)))) in H.
  change ("col" +:+ pretty j) with (String "c" (String "o" (String "l" (pretty j)))) in H.
  injection H as H. by apply (inj (pretty (A:=nat))) in H.
Qed.

Lemma col_key_not_id (i : nat) : col_key i <> "id".
Proof. unfold col_key. cbn. discriminate. Qed.

Lemma build_cols_map (hasH : bool) (headers : list Cell) (n : nat) :
  build_cols hasH headers n = make_col hasH headers <$> seq 0 n.
Proof.
  unfold build_cols.
  enough (forall l acc,
    foldl (fun cols i => (cols ++ [make_col hasH headers i])%list) acc l
    = (acc ++ (make_col hasH headers <$> l))%list) as H by apply (H _ []).
  induction l as [|x l IH]; intros acc; cbn.
  - by rewrite app_nil_r.
  - rewrite IH. by rewrite <- app_assoc.
Qed.

Lemma fill_cons (v : nat -> Cell) (x : nat) (l : list nat) (obj : gmap string Cell) :
  fill v (x :: l) obj = fill v l (<[col_key x := v x]> obj).
Proof. reflexivity. Qed.

Lemma fill_lookup_other (v : nat -> Cell) (l : list nat) (obj : gmap string Cell) (k : string) :
  (forall i, i ∈ l -> col_key i <> k) -> fill v l obj !! k = obj !! k.
Proof.
  revert obj. induction l as [|x l IH]; intros obj Hk; [done|].
  rewrite fill_cons, IH.
  - apply lookup_insert_ne. apply Hk. by left.
  - intros i Hi. apply Hk. by right.
Qed.

Lemma fill_lookup_in (v : nat -> Cell) (l : list nat) (obj : gmap string Cell) (i : nat) :
  i ∈ l -> fill v l obj !! col_key i = Some (v i).
Proof.
  revert obj. induction l as [|x l IH]; intros obj Hi; [by apply elem_of_nil in Hi|].
  rewrite fill_cons. destruct (decide (i ∈ l)) as [Hin|Hnin]; [by apply IH|].
  apply elem_of_cons in Hi as [->|Hi]; [|done].
  rewrite fill_lookup_other.
  - apply lookup_insert_eq.
  - intros j Hj Heq. apply col_key_inj in Heq. by subst.
Qed.

Lemma fill_ext (v v' : nat -> Cell) (l : list nat) (obj : gmap string Cell) :
  (forall i, i ∈ l -> v i = v' i) -> fill v l obj = fill v' l obj.
Proof.
  revert obj. induction l as [|x l IH]; intros obj Hv; [done|].
  rewrite !fill_cons. rewrite (Hv x) by by left. apply IH. intros i Hi. apply Hv. by right.
Qed.

Lemma make_row_fill (n index : nat) (row : option (list Cell)) :
  make_row n index row
  = fill (fun i => js_or (row_get row i) (CString "")) (seq 0 n)
      {["id" := CNumber (Z.of_nat index)]}.
Proof. reflexivity. Qed.

Lemma make_row_lookup_col (n index : nat) (row : option (list Cell)) (i : nat) :
  i < n -> make_row n index row !! col_key i = Some (js_or (row_get row i) (CString "")).
Proof.
  intros Hi. rewrite make_row_fill.
  apply (fill_lookup_in (fun i => js_or (row_get row i) (CString ""))).
  apply elem_of_seq. lia.
Qed.

Lemma make_row_lookup_id (n index : nat) (row : option (list Cell)) :
  make_row n index row !! "id" = Some (CNumber (Z.of_nat index)).
Proof.
  rewrite make_row_fill, fill_lookup_other.
  - apply lookup_singleton_eq.
  - intros i _. apply col_key_not_id.
Qed.

Lemma js_or_idem (c d : Cell) : js_or (js_or c d) d = js_or c d.
Proof.
  unfold js_or. destruct (truthy c) eqn:E.
  - by rewrite E.
  - by destruct (truthy d).
Qed.

Lemma maxCols_ge (excelData : Sheet) (row : option (list Cell)) :
  row ∈ excelData -> row_length row <= maxCols excelData.
Proof.
  unfold maxCols. induction excelData as [|r rs IH]; intros Hin.
  - by apply elem_of_nil in Hin.
  - cbn. apply elem_of_cons in Hin as [->|Hin]; [lia|].
    specialize (IH Hin). lia.
Qed.

Lemma maxCols_attained (excelData : Sheet) :
  excelData <> [] -> exists row, row ∈ excelData /\ row_length row = maxCols excelData.
Proof.
  unfold maxCols. induction excelData as [|r rs IH]; intros Hne; [done|].
  cbn. destruct rs as [|r' rs'].
  - exists r. split; [by left|]. cbn. lia.
  - destruct IH as (row & Hin & Hlen); [done|].
    destruct (decide (row_length r <= foldr Nat.max 0 (row_length <$> r' :: rs'))).
    + exists row. split; [by right|]. rewrite Hlen. lia.
    + exists r. split; [by left|]. lia.
Qed.

Lemma maxCols_const (n : nat) (excelData : Sheet) :
  excelData <> [] -> (forall row, row ∈ excelData -> row_length row = n) ->
  maxCols excelData = n.
Proof.
  intros Hne Hall. destruct (maxCols_attained excelData Hne) as (row & Hin & <-).
  by apply Hall.
Qed.

Lemma is_header_text_nonempty (c : Cell) : is_header_text c = true -> truthy c = true.
Proof.
  destruct c as [s| | | | |]; try discriminate. cbn.
  destruct s; [|done]. cbn. discriminate.
Qed.

Lemma is_header_text_String (c : Cell) :
  is_header_text c = true -> CString (js_String c) = c.
Proof. by destruct c. Qed.

Lemma hasHeaders_lookup (headers : list Cell) (i : nat) (c : Cell) :
  hasHeaders headers = true -> headers !! i = Some c -> is_header_text c = true.
Proof.
  unfold hasHeaders. rewrite forallb_forall. intros H Hi.
  apply H. apply list_elem_of_In. by eapply list_elem_of_lookup_2.
Qed.

(** Every header produced by the column loop is itself header text. *)
Lemma header_name_is_header_text (hasH : bool) (headers : list Cell) (i : nat) :
  hasH = hasHeaders headers ->
  is_header_text (CString (header_name hasH headers i)) = true.
Proof.
  intros ->. unfold header_name, arr_get.
  destruct (hasHeaders headers) eqn:Hh; cbn [andb].
  - destruct (headers !! i) as [c|] eqn:Hi; cbn [default from_option id].
    + pose proof (hasHeaders_lookup _ _ _ Hh Hi) as Hc.
      rewrite (is_header_text_nonempty _ Hc).
      by rewrite (is_header_text_String _ Hc).
    + cbn [truthy]. unfold is_header_text, default_header.
      apply negb_true_iff, String.eqb_neq. apply TrimFacts.trim_default_header.
  - unfold is_header_text, default_header.
    apply negb_true_iff, String.eqb_neq. apply TrimFacts.trim_default_header.
Qed.

Lemma toGrid_nonempty (excelData : Sheet) :
  excelData <> [] ->
  toGrid excelData =
    {| rowData := imap (make_row (maxCols excelData))
                    (drop (if hasHeaders (first_row excelData) then 1 else 0) excelData);
       columnDefs := make_col (hasHeaders (first_row excelData)) (first_row excelData)
                       <$> seq 0 (maxCols excelData) |}.
Proof.
  intros Hne. destruct excelData as [|r rs]; [done|].
  unfold toGrid. by rewrite build_cols_map.
Qed.

Lemma omap_id_Some {A} (l : list A) : omap id (Some <$> l) = l.
Proof. induction l as [|x l IH]; [done|]. cbn. by rewrite IH. Qed.

Lemma fromGrid_unfold (g : Grid) :
  fromGrid g
  = Some (header_cells (columnDefs g)) :: (Some <$> (cells_of (columnDefs g) <$> rowData g)).
Proof. unfold fromGrid, getGridData. by rewrite omap_id_Some. Qed.

Lemma header_cells_make_col (hasH : bool) (headers : list Cell) (n : nat) :
  header_cells (make_col hasH headers <$> seq 0 n)
  = (fun i => CString (header_name hasH headers i)) <$> seq 0 n.
Proof. unfold header_cells. by rewrite <- list_fmap_compose. Qed.

Lemma cells_of_make_row (hasH : bool) (headers : list Cell) (n index : nat)
    (row : option (list Cell)) :
  cells_of (make_col hasH headers <$> seq 0 n) (make_row n index row)
  = (fun i => js_or (row_get row i) (CString "")) <$> seq 0 n.
Proof.
  unfold cells_of. rewrite <- list_fmap_compose.
  apply list_fmap_ext. intros k i Hk. cbn.
  apply lookup_seq in Hk as [-> Hlt]. cbn.
  rewrite make_row_lookup_col by done. cbn. apply js_or_idem.
Qed.

Lemma seq_fmap_lookup {A} (f : nat -> A) (n i : nat) :
  i < n -> (f <$> seq 0 n) !! i = Some (f i).
Proof. intros Hi. rewrite list_lookup_fmap, lookup_seq_lt by done. done. Qed.

(** Projecting a reconciled grid gives the grid back. *)
Lemma toGrid_fromGrid_toGrid (excelData : Sheet) :
  toGrid (fromGrid (toGrid excelData)) = toGrid excelData.
Proof.
  destruct (decide (excelData = [])) as [->|Hne]; [reflexivity|].
  rewrite (toGrid_nonempty excelData Hne).
  set (n := maxCols excelData).
  set (headers := first_row excelData).
  set (hasH := hasHeaders headers).
  set (data := drop (if hasH then 1 else 0) excelData).
  rewrite fromGrid_unfold. cbn [rowData columnDefs].
  rewrite header_cells_make_col.
  set (headers' := (fun i => CString (header_name hasH headers i)) <$> seq 0 n).
  set (rows' := cells_of (make_col hasH headers <$> seq 0 n) <$> imap (make_row n) data).
  assert (Hh : hasHeaders headers' = true).
  { unfold hasHeaders. apply forallb_forall. intros c Hc.
    apply list_elem_of_In, list_elem_of_fmap in Hc as (i & -> & _).
    by apply header_name_is_header_text. }
  assert (Hn : maxCols (Some headers' :: (Some <$> rows')) = n).
  { apply maxCols_const; [done|]. intros row Hrow.
    apply elem_of_cons in Hrow as [->|Hrow].
    - cbn. unfold headers'. by rewrite length_fmap, length_seq.
    - apply list_elem_of_fmap in Hrow as (cells & -> & Hcells).
      unfold rows' in Hcells.
      apply list_elem_of_fmap in Hcells as (obj & -> & _).
      cbn. unfold cells_of. by rewrite !length_fmap, length_seq. }
  rewrite toGrid_nonempty by done.
  cbn [first_row]. rewrite Hh, Hn. cbn [drop].
  f_equal.
  - (* the row objects *)
    apply list_eq. intros r.
    rewrite !list_lookup_imap, drop_0. unfold rows'.
    rewrite !list_lookup_fmap, list_lookup_imap.
    destruct (data !! r) as [row|]; [|done]. cbn.
    f_equal. rewrite cells_of_make_row, !make_row_fill.
    apply fill_ext. intros i Hi. apply elem_of_seq in Hi.
    cbn. rewrite seq_fmap_lookup by lia. cbn. apply js_or_idem.
  - (* the column definitions *)
    apply list_fmap_ext. intros k i Hk.
    apply lookup_seq in Hk as [-> Hlt]. cbn.
    unfold make_col. do 2 f_equal.
    unfold header_name at 1, arr_get. cbn [andb].
    unfold headers'. rewrite seq_fmap_lookup by done. cbn [default from_option id].
    pose proof (header_name_is_header_text hasH headers k eq_refl) as Ht.
    by rewrite (is_header_text_nonempty _ Ht).
Qed.

End GridFacts.


(** ** The projection follows the algorithm *)

Section AlgorithmFacts.

Lemma first_row_row0 (S : Sheet) : first_row S = row0 S.
Proof. by destruct S as [|[r|] rs]. Qed.

Lemma is_header_text_spec (c : Cell) :
  is_header_text c = true <-> exists s, c = CString s /\ Trim.trim s <> "".
Proof.
  split.
  - destruct c as [s| | | | |]; try discriminate. cbn.
    intros H. exists s. split; [done|]. by apply String.eqb_neq, negb_true_iff.
  - intros (s & -> & Hs). cbn. by apply negb_true_iff, String.eqb_neq.
Qed.

Lemma hasHeaders_spec (cells : list Cell) :
  hasHeaders cells = true <-> header_flag cells.
Proof.
  unfold hasHeaders, header_flag. rewrite forallb_forall, Forall_forall.
  split; intros H c Hc.
  - apply is_header_text_spec, H. by apply list_elem_of_In.
  - apply is_header_text_spec, H. by apply list_elem_of_In.
Qed.

Lemma header_name_spec (cells : list Cell) (i : nat) :
  header_name (hasHeaders cells) cells i
  = spec_header (fun i => "列" +:+ pretty (i + 1)) (hasHeaders cells) cells i.
Proof.
  unfold header_name, spec_header, arr_get.
  destruct (hasHeaders cells) eqn:Hh; cbn [andb]; [|done].
  destruct (cells !! i) as [c|] eqn:Hi; cbn [default from_option id nonempty_text]; [|done].
  pose proof (hasHeaders_lookup _ _ _ Hh Hi) as Hc.
  rewrite (is_header_text_nonempty _ Hc).
  destruct c as [s| | | | |]; try discriminate.
  apply is_header_text_nonempty in Hc. cbn in Hc.
  apply negb_true_iff in Hc. by rewrite Hc.
Qed.

Lemma row_get_sheet_cell (S : Sheet) (k r i : nat) (row : option (list Cell)) :
  drop k S !! r = Some row ->
  row_get row i = default CUndefined (sheet_cell S (k + r) i).
Proof.
  rewrite lookup_drop. unfold sheet_cell. intros ->. by destruct row.
Qed.

End AlgorithmFacts.

(** C1 (as amended).  For every sheet, the grid computed by the editor
    follows the algorithm: an empty sheet gives the empty grid; otherwise
    the width is the maximum row length, the header flag holds exactly when
    every cell of row 0 is a string that is not blank, column [i] is keyed
    [col{i}] and headed by row 0's text when the flag holds and the text
    is there, else by the label "列{i+1}"; data rows start after row 0
    when the flag holds; and every data row maps [col{i}] to the cell,
    with [""] in place of a missing or falsy cell. *)
Theorem toGrid_follows_algorithm (S : Sheet) : toGrid_as_built S (toGrid S).
Proof.
  split; [by intros ->|]. intros Hne.
  exists (maxCols S), (hasHeaders (first_row S)).
  rewrite (toGrid_nonempty S Hne). cbn [rowData columnDefs].
  rewrite <- first_row_row0.
  split; [|split; [|split; [|split; [|split]]]].
  - split; [apply maxCols_ge | by apply maxCols_attained].
  - apply hasHeaders_spec.
  - by rewrite length_fmap, length_seq.
  - intros i Hi. exists (make_col (hasHeaders (first_row S)) (first_row S) i).
    split; [by apply seq_fmap_lookup|].
    split; [done|]. split; [|done].
    cbn. f_equal. apply header_name_spec.
  - by rewrite length_imap, length_drop.
  - intros r i Hr Hi. rewrite length_imap in Hr.
    apply lookup_lt_is_Some_2 in Hr as [row Hrow].
    exists (make_row (maxCols S) r row). split.
    + by rewrite list_lookup_imap, Hrow.
    + rewrite make_row_lookup_col by done.
      by rewrite (row_get_sheet_cell _ _ _ _ _ Hrow).
Qed.

(** C1 (counterexample).  On the one-cell sheet [[0]] the grid is not the
    one the specification describes: the column is headed "列1", not
    "Column 1", and the data row keeps [""], not the number 0. *)
Lemma toGrid_as_specified_fails :
  ~ toGrid_as_specified sheet_zero (toGrid sheet_zero) /\
  headers_of (toGrid sheet_zero) = ["列1"] /\
  row_values 1 <$> rowData (toGrid sheet_zero) = [[Some (CString "")]].
Proof.
  split; [|split; vm_compute; reflexivity].
  intros [_ H]. destruct H as (n & flag & _ & _ & Hn & _ & Hrows & Hcells); [done|].
  assert (n = 1) as -> by (symmetry; exact Hn).
  assert (flag = false) as ->.
  { destruct flag; [|done]. vm_compute in Hrows. discriminate. }
  destruct (Hcells 0 0) as (obj & Hobj & Hcell); [vm_compute; lia | lia |].
  assert (obj !! col_key 0 = Some (CString "")) as Hreal.
  { apply (inj Some) in Hobj. rewrite <- Hobj. vm_compute. reflexivity. }
  rewrite Hreal in Hcell. vm_compute in Hcell. discriminate.
Qed.

(** ** The round trip *)

Lemma roundTrip_idem (S : Sheet) : roundTrip (roundTrip S) = roundTrip S.
Proof. unfold roundTrip. by rewrite toGrid_fromGrid_toGrid. Qed.

Lemma roundTrip_iter (S : Sheet) (k : nat) :
  Nat.iter (Datatypes.S k) roundTrip S = roundTrip S.
Proof.
  induction k as [|k IH]; [done|].
  change (Nat.iter (Datatypes.S (Datatypes.S k)) roundTrip S)
    with (roundTrip (Nat.iter (Datatypes.S k) roundTrip S)).
  rewrite IH. apply roundTrip_idem.
Qed.

(** C2.  Reconciling a projected grid and projecting again gives the same
    grid, so the round trip [fromGrid ∘ toGrid] is idempotent from the
    second application onward: the grid of a reconciled sheet is the grid
    of the sheet, one round trip followed by any number of further ones is
    one round trip, and projecting after two round trips equals projecting
    after one.  The first round trip itself may change the sheet: a sheet
    whose first row is not a header gets a synthesized header row. *)
Theorem roundTrip_idempotent :
  (forall S : Sheet, toGrid (fromGrid (toGrid S)) = toGrid S) /\
  (forall S : Sheet, roundTrip (roundTrip S) = roundTrip S) /\
  (forall (S : Sheet) (k : nat), Nat.iter (Datatypes.S k) roundTrip S = roundTrip S) /\
  (forall S : Sheet, toGrid (fromGrid (toGrid (roundTrip S))) = toGrid (fromGrid (toGrid S))) /\
  (exists S : Sheet, hasHeaders (first_row S) = false /\ fromGrid (toGrid S) <> S).
Proof.
  split; [apply toGrid_fromGrid_toGrid|].
  split; [apply roundTrip_idem|].
  split; [apply roundTrip_iter|].
  split.
  - intros S. change (fromGrid (toGrid (roundTrip S))) with (roundTrip (roundTrip S)).
    by rewrite roundTrip_idem.
  - exists sheet_digits_number. split; [reflexivity|].
    vm_compute. discriminate.
Qed.

(** ** The worked examples *)

(** The positive header example of the specification:
    [[["Name","Age"],["A","30"]]] gives the headers "Name", "Age" and one
    data row. *)
Example name_age_sheet_grid :
  let S := [Some [CString "Name"; CString "Age"]; Some [CString "A"; CString "30"]] in
  headers_of (toGrid S) = ["Name"; "Age"] /\
  row_values 2 <$> rowData (toGrid S) = [[Some (CString "A"); Some (CString "30")]] /\
  fromGrid (toGrid S) = S.
Proof. repeat split; vm_compute; reflexivity. Qed.

(** A sheet with exactly one row that is a header row yields no data
    rows. *)
Example header_only_sheet_grid :
  rowData (toGrid [Some [CString "Name"; CString "Age"]]) = [] /\
  headers_of (toGrid [Some [CString "Name"; CString "Age"]]) = ["Name"; "Age"].
Proof. split; vm_compute; reflexivity. Qed.

(** C3 (counterexample).  The ragged sheet is not projected the way the
    specification says: row 0 passes header inference and only one data
    row is left. *)
Lemma ragged_as_specified_fails :
  ~ ragged_as_specified /\
  hasHeaders (first_row sheet_ragged) = true /\
  length (rowData (toGrid sheet_ragged)) = 1.
Proof.
  split; [|split; vm_compute; reflexivity].
  intros (_ & Hflag & _). vm_compute in Hflag. discriminate.
Qed.

(** C3 (as amended).  For [[["a"],["b","c","d"]]] the width is 3; header
    inference looks at the cells of row 0 only, whatever the other rows
    are, so [["a"]] passes and row 0 is the header row; the columns are
    headed "a", "列2", "列3" and the grid has exactly one data row, which
    holds "b", "c", "d" under [col0], [col1], [col2]. *)
Theorem ragged_sheet_grid :
  maxCols sheet_ragged = 3 /\
  (forall rest : Sheet, hasHeaders (first_row (Some [CString "a"] :: rest)) = true) /\
  headers_of (toGrid sheet_ragged) = ["a"; "列2"; "列3"] /\
  row_values 3 <$> rowData (toGrid sheet_ragged)
  = [[Some (CString "b"); Some (CString "c"); Some (CString "d")]].
Proof.
  split; [reflexivity|]. split; [intros rest; reflexivity|].
  split; vm_compute; reflexivity.
Qed.

(** C4 (counterexample).  For [[["5","6"],["7","8"]]] the grid has neither
    the synthetic headers nor two data rows: row 0 passes header inference,
    the headers are "5" and "6" and one data row is left. *)
Lemma digits_as_specified_fails :
  ~ digits_as_specified /\
  hasHeaders (first_row sheet_digits_text) = true /\
  headers_of (toGrid sheet_digits_text) = ["5"; "6"] /\
  length (rowData (toGrid sheet_digits_text)) = 1.
Proof.
  split; [|split; [|split]; vm_compute; reflexivity].
  intros (_ & Hrows & _). vm_compute in Hrows. discriminate.
Qed.

(** C4 (as amended).  The cells "5" and "6" are non-blank strings, so row 0
    of [[["5","6"],["7","8"]]] is taken as the header row: the columns are
    headed "5" and "6" and the only data row holds "7", "8".  The
    synthetic headers appear when row 0 holds numbers: [[[5,6],[7,8]]]
    gives the headers "列1", "列2" and two data rows, the first holding 5
    and 6. *)
Theorem digits_sheet_grid :
  headers_of (toGrid sheet_digits_text) = ["5"; "6"] /\
  row_values 2 <$> rowData (toGrid sheet_digits_text)
  = [[Some (CString "7"); Some (CString "8")]] /\
  headers_of (toGrid sheet_digits_number) = ["列1"; "列2"] /\
  row_values 2 <$> rowData (toGrid sheet_digits_number)
  = [[Some (CNumber 5); Some (CNumber 6)]; [Some (CNumber 7); Some (CNumber 8)]].
Proof. repeat split; vm_compute; reflexivity. Qed.

(** ** Falsy cells *)

Lemma falsy_cases (c : Cell) :
  truthy c = false <->
  c = CNumber 0 \/ c = CString "" \/ c = CNull \/ c = CUndefined \/ c = CBool false \/ c = CNaN.
Proof.
  split.
  - destruct c as [s|z| |b| |]; cbn; intros H; auto 10.
    + apply negb_false_iff, String.eqb_eq in H. subst. auto.
    + apply negb_false_iff, Z.eqb_eq in H. subst. auto.
    + subst. auto 10.
  - intros [->|[->|[->|[->|[->| ->]]]]]; reflexivity.
Qed.

(** C10.  A falsy cell (the number 0, the empty string, [null],
    [undefined], [false]) is replaced by [""] in both directions: the
    tabular row built by the projection holds [""] under the cell's column
    key, and the reconciliation writes [""] for a falsy value of a row
    object.  A sheet cell holding the number 0 therefore comes back from the
    round trip as [""]. *)
Theorem falsy_cells_become_empty :
  (forall c : Cell,
     c = CNumber 0 \/ c = CString "" \/ c = CNull \/ c = CUndefined \/ c = CBool false ->
     truthy c = false) /\
  (forall (S : Sheet) (r i : nat) (row : option (list Cell)),
     drop (if hasHeaders (first_row S) then 1 else 0) S !! r = Some row ->
     i < maxCols S ->
     truthy (row_get row i) = false ->
     exists obj, rowData (toGrid S) !! r = Some obj /\ obj !! col_key i = Some (CString "")) /\
  (forall (nodes : list (option (gmap string Cell))) (cols : list ColDef)
          (r c : nat) (obj : gmap string Cell) (col : ColDef),
     omap id nodes !! r = Some obj ->
     cols !! c = Some col ->
     truthy (default CUndefined (obj !! default "" (field col))) = false ->
     exists cells, getGridData (Some nodes) cols !! (Datatypes.S r) = Some (Some cells) /\
                   cells !! c = Some (CString "")) /\
  roundTrip sheet_zero = [Some [CString "列1"]; Some [CString ""]].
Proof.
  split; [|split; [|split]].
  - intros c Hc. apply falsy_cases. tauto.
  - intros S r i row Hrow Hi Hfalsy.
    assert (S <> []) as Hne.
    { intros ->. by rewrite drop_nil in Hrow. }
    rewrite (toGrid_nonempty S Hne). cbn [rowData].
    exists (make_row (maxCols S) r row). split.
    + by rewrite list_lookup_imap, Hrow.
    + rewrite make_row_lookup_col by done. unfold js_or. by rewrite Hfalsy.
  - intros nodes cols r c obj col Hobj Hcol Hfalsy.
    exists (cells_of cols obj). split.
    + unfold getGridData. rewrite lookup_cons.
      by rewrite !list_lookup_fmap, Hobj.
    + unfold cells_of. rewrite list_lookup_fmap, Hcol. cbn.
      unfold js_or. by rewrite Hfalsy.
  - vm_compute. reflexivity.
Qed.

(** The statement above at the sheet [[0]] and its grid. *)
Lemma falsy_cells_become_empty_witness :
  truthy (CNumber 0) = false /\
  (exists obj, rowData (toGrid sheet_zero) !! 0 = Some obj /\
               obj !! col_key 0 = Some (CString "")) /\
  (exists cells, getGridData (Some [Some {["col0" := CNumber 0]}])
                   (columnDefs (toGrid sheet_zero)) !! 1 = Some (Some cells) /\
                 cells !! 0 = Some (CString "")).
Proof.
  destruct falsy_cells_become_empty as (H1 & H2 & H3 & _).
  split; [apply H1; by left|]. split.
  - apply (H2 sheet_zero 0 0 (Some [CNumber 0])); [reflexivity | vm_compute; lia | reflexivity].
  - apply (H3 [Some {["col0" := CNumber 0]}] (columnDefs (toGrid sheet_zero)) 0 0
              {["col0" := CNumber 0]}
              (make_col false [CNumber 0] 0)); reflexivity.
Defined.

(** ** Cell edits of the table editor *)

Module LegacyFacts.
Import Legacy.

(** Reading a slot after [arr[i] = v]; a slot outside the array reads as the
    hole. *)
Lemma array_set_read {A} (hole : A) (arr : list A) (i j : nat) (v : A) :
  default hole (array_set hole arr i v !! j)
  = if decide (j = i) then v else default hole (arr !! j).
Proof.
  unfold array_set. destruct (decide (i < length arr)) as [Hin|Hout].
  - destruct (decide (j = i)) as [->|Hne].
    + by rewrite list_lookup_insert_eq.
    + by rewrite list_lookup_insert_ne.
  - destruct (decide (j < length arr)) as [Hj|Hj].
    + rewrite lookup_app_l by done. destruct (decide (j = i)); [lia|done].
    + rewrite lookup_app_r by lia.
      rewrite (lookup_ge_None_2 arr j) by lia. cbn [default from_option id].
      destruct (decide (j = i)) as [->|Hne].
      * rewrite lookup_app_r by (rewrite length_replicate; lia).
        rewrite length_replicate. by rewrite Nat.sub_diag.
      * destruct (decide (j < i)) as [Hlt|Hge].
        -- rewrite lookup_app_l by (rewrite length_replicate; lia).
           by rewrite lookup_replicate_2 by lia.
        -- rewrite lookup_app_r by (rewrite length_replicate; lia).
           rewrite length_replicate.
           rewrite lookup_ge_None_2; [done|]. cbn. lia.
Qed.

Lemma row_ref_array_set (data : list (option nat)) (r r' l : nat) :
  row_ref (array_set None data r (Some l)) r'
  = if decide (r' = r) then Some l else row_ref data r'.
Proof. unfold row_ref. apply (array_set_read None). Qed.

Lemma alloc_fresh (h : gmap nat (list Cell)) : h !! alloc h = None.
Proof. apply not_elem_of_dom. unfold alloc. apply is_fresh. Qed.

(** The two shapes of the state after an edit. *)
Lemma handleCellEdit_existing (st : State) (r c l : nat) (v : string) :
  row_ref (excelData st) r = Some l ->
  handleCellEdit st r c v
  = {| heap := alter (fun arr => array_set CUndefined arr c (CString v)) l (heap st);
       excelData := excelData st |}.
Proof. intros H. unfold handleCellEdit. by rewrite H. Qed.

Lemma handleCellEdit_new (st : State) (r c : nat) (v : string) :
  row_ref (excelData st) r = None ->
  handleCellEdit st r c v
  = {| heap := alter (fun arr => array_set CUndefined arr c (CString v)) (alloc (heap st))
                 (<[alloc (heap st) := []]> (heap st));
       excelData := array_set None (excelData st) r (Some (alloc (heap st))) |}.
Proof. intros H. unfold handleCellEdit. by rewrite H. Qed.

(** The invariant holds after loading a workbook and is kept by edits. *)
Lemma wf_load (rows : list (list Cell)) : wf (load rows).
Proof.
  assert (forall r l, row_ref (Some <$> seq 0 (length rows)) r = Some l ->
                      l = r /\ r < length rows) as Href.
  { intros r l. unfold row_ref. rewrite list_lookup_fmap.
    destruct (seq 0 (length rows) !! r) as [k|] eqn:Hk; [|done].
    apply lookup_seq in Hk as [-> Hlt]. cbn. intros [= <-]. done. }
  split; cbn [load heap excelData].
  - intros r r' l H1 H2. apply Href in H1 as [-> _]. by apply Href in H2 as [-> _].
  - intros r l H. apply Href in H as [-> Hlt].
    rewrite lookup_map_seq_0. by apply lookup_lt_is_Some_2.
Qed.

Lemma wf_handleCellEdit (st : State) (r c : nat) (v : string) :
  wf st -> wf (handleCellEdit st r c v).
Proof.
  intros [Hinj Halloc].
  destruct (row_ref (excelData st) r) as [l|] eqn:Hr.
  - rewrite (handleCellEdit_existing _ _ _ _ _ Hr).
    split; cbn [heap excelData]; [done|].
    intros r0 l0 H0. destruct (decide (l = l0)) as [<-|Hl].
    + rewrite lookup_alter_eq. apply fmap_is_Some. by eauto.
    + rewrite lookup_alter_ne by done. by eauto.
  - rewrite (handleCellEdit_new _ _ _ _ Hr).
    assert (forall r0, row_ref (excelData st) r0 <> Some (alloc (heap st))) as Hfresh.
    { intros r0 H0. destruct (Halloc _ _ H0) as [arr Harr].
      by rewrite alloc_fresh in Harr. }
    split; cbn [heap excelData].
    + intros r1 r2 l0. rewrite !row_ref_array_set.
      destruct (decide (r1 = r)) as [->|H1], (decide (r2 = r)) as [->|H2]; try done.
      * intros [= <-] H. by apply Hfresh in H.
      * intros H [= <-]. by apply Hfresh in H.
      * apply Hinj.
    + intros r0 l0. rewrite row_ref_array_set.
      destruct (decide (alloc (heap st) = l0)) as [<-|Hl].
      * intros _. rewrite lookup_alter_eq, lookup_insert_eq. by eexists.
      * rewrite lookup_alter_ne, lookup_insert_ne by done.
        destruct (decide (r0 = r)) as [->|H0]; [by intros [= <-]|].
        by eauto.
Qed.

(** Every state reached from a loaded workbook by edits satisfies the
    invariant. *)
Lemma wf_after_edits (rows : list (list Cell)) (edits : list (nat * nat * string)) :
  wf (foldl (fun st e => handleCellEdit st e.1.1 e.1.2 e.2) (load rows) edits).
Proof.
  generalize (wf_load rows). generalize (load rows).
  induction edits as [|e edits IH]; intros st Hwf; [done|].
  cbn. apply IH. by apply wf_handleCellEdit.
Qed.

End LegacyFacts.

Section CellEdit.
Import Legacy LegacyFacts.

(** C9.  In every state of the table editor in which the rows are distinct
    allocated arrays (as after loading a workbook, and after every edit),
    committing an edit of cell [(r, c)] makes that cell read the new value
    and leaves the reading of every other cell, in the edited row and in
    every other row, as it was. *)
Theorem cell_edit_updates_one_cell (st : Legacy.State) (r c : nat) (v : string) :
  Legacy.wf st ->
  forall r' c' : nat,
    Legacy.read (Legacy.handleCellEdit st r c v) r' c'
    = if decide (r' = r /\ c' = c) then CString v else Legacy.read st r' c'.
Proof.
  intros [Hinj Halloc] r' c'.
  destruct (row_ref (excelData st) r) as [l|] eqn:Hr.
  - rewrite (handleCellEdit_existing _ _ _ _ _ Hr). unfold read. cbn [heap excelData].
    destruct (row_ref (excelData st) r') as [l'|] eqn:Hr'.
    + destruct (decide (l' = l)) as [->|Hl].
      * assert (r' = r) as -> by by eapply Hinj.
        rewrite lookup_alter_eq.
        destruct (Halloc _ _ Hr) as [arr ->]. cbn.
        rewrite array_set_read.
        destruct (decide (c' = c)) as [->|Hc].
        -- by rewrite decide_True.
        -- by rewrite decide_False by tauto.
      * rewrite lookup_alter_ne by done.
        rewrite decide_False; [done|]. intros [-> _]. congruence.
    + rewrite decide_False; [done|]. intros [-> _]. congruence.
  - rewrite (handleCellEdit_new _ _ _ _ Hr). unfold read. cbn [heap excelData].
    rewrite row_ref_array_set.
    destruct (decide (r' = r)) as [->|Hne].
    + rewrite lookup_alter_eq, lookup_insert_eq. cbn.
      rewrite array_set_read, Hr. cbn.
      destruct (decide (c' = c)) as [->|Hc].
      * by rewrite decide_True.
      * by rewrite decide_False by tauto.
    + rewrite decide_False by tauto.
      destruct (row_ref (excelData st) r') as [l'|] eqn:Hr'; [|done].
      assert (l' <> alloc (heap st)) as Hl.
      { intros ->. destruct (Halloc _ _ Hr') as [arr Harr].
        by rewrite alloc_fresh in Harr. }
      by rewrite lookup_alter_ne, lookup_insert_ne.
Qed.

(** The statement above for a two-row sheet, editing a cell past the end
    of the short second row. *)
Lemma cell_edit_updates_one_cell_witness :
  let st := Legacy.load [[CString "a"; CString "b"]; [CString "c"]] in
  Legacy.wf st /\
  forall r' c' : nat,
    Legacy.read (Legacy.handleCellEdit st 1 2 "z") r' c'
    = if decide (r' = 1 /\ c' = 2) then CString "z" else Legacy.read st r' c'.
Proof.
  intros st. split.
  - apply LegacyFacts.wf_load.
  - apply (cell_edit_updates_one_cell st 1 2 "z"), LegacyFacts.wf_load.
Defined.

End CellEdit.

(** ** The axios instance *)

Module ApiFacts.
Import Api.

(** One call through the instance, unfolded. *)
Lemma request_unfold {A} (server : Request -> Reply A) (m : Method)
    (path contentType : string) (b : Body) (w : World) :
  let config := {| method := m; baseURL := "/api"; url := path; contentType := contentType;
                   authorization := bearer w; body := b |} in
  request server m path contentType b w
  = match server config with
    | HttpReply status data =>
        if validateStatus status
        then (Return data,
              {| localStorage := localStorage w; location_href := location_href w;
                 console := ((console w ++ [(LogLevel, "发送请求:")]) ++ [(LogLevel, "收到响应:")])%list;
                 notices := notices w;
                 network := (network w ++ [config])%list; callbacks := callbacks w |})
        else response_error (Some status) "Request failed" (sent w config)
    | NoReply reason => response_error None reason (sent w config)
    end.
Proof.
  intros config. unfold request, request_interceptor.
  unfold mbind, M_bind, mret, M_ret, get, console_log, dispatch, modify.
  cbn -[bearer validateStatus response_error]. fold config.
  destruct (server config) as [status data|reason]; [|reflexivity].
  destruct (validateStatus status); reflexivity.
Qed.

Lemma response_error_throws {A} (status : option nat) (reason : string) (w : World) :
  exists w', response_error (A := A) status reason w = (Throw (AxiosError status reason), w') /\
             network w' = network w /\ notices w' = notices w /\ callbacks w' = callbacks w.
Proof.
  unfold response_error. case_bool_decide; cbn; eexists; (split; [reflexivity|done]).
Qed.

(** Whatever the transport does, one call dispatches exactly one request
    and shows nothing to the user. *)
Lemma request_frame {A} (server : Request -> Reply A) (m : Method)
    (path contentType : string) (b : Body) (w : World) :
  let config := {| method := m; baseURL := "/api"; url := path; contentType := contentType;
                   authorization := bearer w; body := b |} in
  let w' := snd (request server m path contentType b w) in
  network w' = (network w ++ [config])%list /\
  notices w' = notices w /\ callbacks w' = callbacks w.
Proof.
  intros config. cbn zeta. rewrite request_unfold. fold config.
  destruct (server config) as [status data|reason].
  - destruct (validateStatus status); [done|].
    destruct (response_error_throws (A := A) (Some status) "Request failed" (sent w config))
      as (w' & -> & Hn & Hm & Hc). cbn [snd]. by rewrite Hn, Hm, Hc.
  - destruct (response_error_throws (A := A) None reason (sent w config))
      as (w' & -> & Hn & Hm & Hc). cbn [snd]. by rewrite Hn, Hm, Hc.
Qed.

(** The outcome of a call is decided by the transport's reply. *)
Lemma request_outcome {A} (server : Request -> Reply A) (m : Method)
    (path contentType : string) (b : Body) (w : World) :
  let config := {| method := m; baseURL := "/api"; url := path; contentType := contentType;
                   authorization := bearer w; body := b |} in
  fst (request server m path contentType b w)
  = match server config with
    | HttpReply status data =>
        if validateStatus status then Return data
        else Throw (AxiosError (Some status) "Request failed")
    | NoReply reason => Throw (AxiosError None reason)
    end.
Proof.
  intros config. rewrite request_unfold. fold config.
  destruct (server config) as [status data|reason].
  - destruct (validateStatus status); [done|].
    by destruct (response_error_throws (A := A) (Some status) "Request failed" (sent w config))
      as (w' & -> & _).
  - by destruct (response_error_throws (A := A) None reason (sent w config))
      as (w' & -> & _).
Qed.

(** [try { ... } catch (error) { console.error(...); throw error }] keeps
    the outcome and the observable effects of the call. *)
Lemma rethrow_fst {A} (body : M World A) (label : string) (w : World) :
  fst (try_catch body (fun error => console_error label;; throw error) w) = fst (body w).
Proof. unfold try_catch. by destruct (body w) as [[a|e] w']. Qed.

Lemma rethrow_snd {A} (body : M World A) (label : string) (w : World) :
  let w1 := snd (body w) in
  let w' := snd (try_catch body (fun error => console_error label;; throw error) w) in
  network w' = network w1 /\ notices w' = notices w1 /\ callbacks w' = callbacks w1.
Proof. unfold try_catch. by destruct (body w) as [[a|e] w']. Qed.

Lemma saveQuarterlyReport_outcome (server : Request -> Reply SaveQuarterlyReportResponse)
    (data : QuarterlyReportData) (w : World) :
  fst (saveQuarterlyReport server data w)
  = match server (create_request w data) with
    | HttpReply status response =>
        if validateStatus status then Return response
        else Throw (AxiosError (Some status) "Request failed")
    | NoReply reason => Throw (AxiosError None reason)
    end.
Proof. unfold saveQuarterlyReport. rewrite rethrow_fst. apply request_outcome. Qed.

Lemma saveQuarterlyReport_frame (server : Request -> Reply SaveQuarterlyReportResponse)
    (data : QuarterlyReportData) (w : World) :
  let w' := snd (saveQuarterlyReport server data w) in
  network w' = (network w ++ [create_request w data])%list /\
  notices w' = notices w /\ callbacks w' = callbacks w.
Proof.
  cbn zeta. unfold saveQuarterlyReport.
  destruct (rethrow_snd
              (request server POST (save_url data) "application/json"
                 (SaveBody (portfolioData data) "quarterly_report.xlsx"))
              "保存季度投资报告失败:" w) as (-> & -> & ->).
  apply request_frame.
Qed.

Lemma updateQuarterlyReport_outcome (server : Request -> Reply SaveQuarterlyReportResponse)
    (id : Z) (data : QuarterlyReportData) (w : World) :
  fst (updateQuarterlyReport server id data w)
  = match server (update_request w id data) with
    | HttpReply status response =>
        if validateStatus status then Return response
        else Throw (AxiosError (Some status) "Request failed")
    | NoReply reason => Throw (AxiosError None reason)
    end.
Proof. unfold updateQuarterlyReport. rewrite rethrow_fst. apply request_outcome. Qed.

Lemma updateQuarterlyReport_frame (server : Request -> Reply SaveQuarterlyReportResponse)
    (id : Z) (data : QuarterlyReportData) (w : World) :
  let w' := snd (updateQuarterlyReport server id data w) in
  network w' = (network w ++ [update_request w id data])%list /\
  notices w' = notices w /\ callbacks w' = callbacks w.
Proof.
  cbn zeta. unfold updateQuarterlyReport.
  destruct (rethrow_snd
              (request server PUT (update_url id) "application/json"
                 (SaveBody (portfolioData data) "quarterly_report.xlsx"))
              "更新季度投资报告失败:" w) as (-> & -> & ->).
  apply request_frame.
Qed.

Lemma uploadFileAndGetExcel_outcome (server : Request -> Reply UploadResponse)
    (data : UploadFileData) (w : World) :
  fst (uploadFileAndGetExcel server data w)
  = match server (upload_request w data) with
    | HttpReply status response =>
        if validateStatus status then Return response else Return exampleResponse
    | NoReply reason => Return exampleResponse
    end.
Proof.
  unfold uploadFileAndGetExcel, try_catch.
  pose proof (request_outcome server POST "/v1/upload" "multipart/form-data"
                (FormData (file data) (relatedPersonInfo data)) w) as Ho.
  cbn zeta in Ho. fold (upload_request w data) in Ho.
  destruct (request server POST "/v1/upload" "multipart/form-data"
              (FormData (file data) (relatedPersonInfo data)) w) as [[a|e] w'];
    cbn [fst] in Ho |- *.
  - destruct (server (upload_request w data)) as [status response|reason]; [|done].
    by destruct (validateStatus status).
  - destruct (server (upload_request w data)) as [status response|reason]; [|done].
    by destruct (validateStatus status).
Qed.

Lemma uploadFileAndGetExcel_failure (server : Request -> Reply UploadResponse)
    (data : UploadFileData) (w : World) :
  transport_failed (server (upload_request w data)) ->
  fst (uploadFileAndGetExcel server data w) = Return exampleResponse.
Proof.
  intros Hfail. rewrite uploadFileAndGetExcel_outcome.
  destruct (server _) as [status response|reason]; cbn in Hfail; [|done].
  by rewrite Hfail.
Qed.

Lemma uploadFileAndGetExcel_frame (server : Request -> Reply UploadResponse)
    (data : UploadFileData) (w : World) :
  let w' := snd (uploadFileAndGetExcel server data w) in
  network w' = (network w ++ [upload_request w data])%list /\
  notices w' = notices w /\ callbacks w' = callbacks w.
Proof.
  cbn zeta. unfold uploadFileAndGetExcel, try_catch.
  pose proof (request_frame server POST "/v1/upload" "multipart/form-data"
                (FormData (file data) (relatedPersonInfo data)) w) as Hf.
  cbn zeta in Hf. fold (upload_request w data) in Hf.
  by destruct (request server POST "/v1/upload" "multipart/form-data"
                 (FormData (file data) (relatedPersonInfo data)) w) as [[a|e] w'].
Qed.

End ApiFacts.

(** ** The save handlers *)

Module EditorFacts.
Import ExcelEditor.

Lemma handleSaveToDatabase_run (p : Props)
    (server : Request -> Reply Api.SaveQuarterlyReportResponse) (w : World) (s : State) :
  let r := fst (save_call p server s w) in
  let w1 := snd (save_call p server s w) in
  let out := handleSaveToDatabase p server (w, s) in
  fst out = Return tt /\
  network (fst (snd out)) = network w1 /\
  notices (fst (snd out)) = (notices w1 ++ shown "保存到数据库失败" r)%list /\
  callbacks (fst (snd out)) = (callbacks w1 ++ reported p (currentGridData s) r)%list /\
  excelData (snd (snd out)) = excelData s /\
  gridApi (snd (snd out)) = gridApi s /\
  saving (snd (snd out)) = false.
Proof.
  unfold handleSaveToDatabase, save_call, try_finally, try_catch, setSaving,
    modifyC, modify, getC, liftW, call_onSave, mbind, M_bind, mret, M_ret.
  cbn -[Api.saveQuarterlyReport Api.updateQuarterlyReport currentGridData saveData_of].
  change (currentGridData _) with (currentGridData s).
  fold (saveData_of p s).
  destruct (id_truthy (portfolioId p)) as [id|]; cbn [fst snd].
  - destruct (Api.updateQuarterlyReport server id (saveData_of p s) w) as [[response|e] w1]; cbn.
    + destruct (Api.success response), (onSave p); cbn; rewrite ?app_nil_r; done.
    + by rewrite app_nil_r.
  - destruct (Api.saveQuarterlyReport server (saveData_of p s) w) as [[response|e] w1]; cbn.
    + destruct (Api.success response), (onSave p); cbn; rewrite ?app_nil_r; done.
    + by rewrite app_nil_r.
Qed.

Lemma save_call_frame (p : Props)
    (server : Request -> Reply Api.SaveQuarterlyReportResponse) (w : World) (s : State) :
  let w1 := snd (save_call p server s w) in
  network w1
  = (network w ++ [match id_truthy (portfolioId p) with
                   | Some id => Api.update_request w id (saveData_of p s)
                   | None => Api.create_request w (saveData_of p s)
                   end])%list /\
  notices w1 = notices w /\ callbacks w1 = callbacks w.
Proof.
  unfold save_call. destruct (id_truthy (portfolioId p)) as [id|].
  - apply ApiFacts.updateQuarterlyReport_frame.
  - apply ApiFacts.saveQuarterlyReport_frame.
Qed.

End EditorFacts.

(** ** More on the save handlers *)

Module EditorMoreFacts.
Import ExcelEditor.

Lemma handleSaveToDatabase_state (p : Props)
    (server : Request -> Reply Api.SaveQuarterlyReportResponse) (w : World) (s : State) :
  snd (snd (handleSaveToDatabase p server (w, s))) = settled s (isModalVisible s).
Proof.
  unfold handleSaveToDatabase, try_finally, try_catch, setSaving,
    modifyC, modify, getC, liftW, call_onSave, mbind, M_bind, mret, M_ret.
  cbn -[Api.saveQuarterlyReport Api.updateQuarterlyReport currentGridData].
  destruct (id_truthy (portfolioId p)) as [id|]; cbn [fst snd].
  - destruct (Api.updateQuarterlyReport server id _ w) as [[response|e] w1]; cbn.
    + by destruct (Api.success response), (onSave p).
    + done.
  - destruct (Api.saveQuarterlyReport server _ w) as [[response|e] w1]; cbn.
    + by destruct (Api.success response), (onSave p).
    + done.
Qed.

Lemma handleModalOk_rejected (p : Props)
    (server : Request -> Reply Api.SaveQuarterlyReportResponse) (w : World) (s : State) :
  let out := handleModalOk p None server (w, s) in
  fst out = Return tt /\
  network (fst (snd out)) = network w /\
  notices (fst (snd out)) = (notices w ++ [NoticeError "保存失败"])%list /\
  callbacks (fst (snd out)) = callbacks w /\
  snd (snd out) = settled s (isModalVisible s).
Proof. done. Qed.

Lemma handleModalOk_run (p : Props) (values : FormValues)
    (server : Request -> Reply Api.SaveQuarterlyReportResponse) (w : World) (s : State) :
  let r := fst (Api.saveQuarterlyReport server (modal_saveData values s) w) in
  let w1 := snd (Api.saveQuarterlyReport server (modal_saveData values s) w) in
  let out := handleModalOk p (Some values) server (w, s) in
  fst out = Return tt /\
  network (fst (snd out)) = network w1 /\
  notices (fst (snd out)) = (notices w1 ++ shown "保存失败" r)%list /\
  callbacks (fst (snd out)) = (callbacks w1 ++ reported p (currentGridData s) r)%list /\
  snd (snd out) = settled s (if succeeded r then false else isModalVisible s).
Proof.
  unfold handleModalOk, validateFields, try_finally, try_catch, setSaving, setIsModalVisible,
    modifyC, modify, getC, liftW, call_onSave, mbind, M_bind, mret, M_ret.
  cbn -[Api.saveQuarterlyReport currentGridData].
  change (currentGridData _) with (currentGridData s).
  fold (modal_saveData values s). cbn [fst snd].
  destruct (Api.saveQuarterlyReport server (modal_saveData values s) w) as [[response|e] w1];
    cbn.
  - destruct (Api.success response), (onSave p); cbn; rewrite ?app_nil_r; done.
  - by rewrite app_nil_r.
Qed.

(** A save as the user makes it sends one request, the update when the
    button runs [handleSaveToDatabase] and the create when it goes through
    the dialog, and reports by the outcome of that request. *)
Lemma save_to_database_run (p : Props) (values : FormValues)
    (server : Request -> Reply Api.SaveQuarterlyReportResponse) (w : World) (s : State) :
  let r := settle (server (save_request p values w s)) in
  let out := save_to_database p (Some values) server (w, s) in
  fst out = Return tt /\
  network (fst (snd out)) = (network w ++ [save_request p values w s])%list /\
  notices (fst (snd out)) = (notices w ++ shown (save_failure_text p) r)%list /\
  callbacks (fst (snd out)) = (callbacks w ++ reported p (currentGridData s) r)%list.
Proof.
  cbn zeta. unfold save_to_database, onClickDatabase, save_request, save_failure_text.
  destruct (id_truthy (portfolioId p)) as [id|] eqn:Hid.
  - destruct (EditorFacts.handleSaveToDatabase_run p server w s)
      as (Hret & Hnet & Hnote & Hcb & _).
    destruct (EditorFacts.save_call_frame p server w s) as (Hsent & Hquiet & Hcalls).
    cbn zeta in *. rewrite Hquiet in Hnote. rewrite Hcalls in Hcb. rewrite Hsent in Hnet.
    rewrite Hid in Hnet.
    assert (fst (save_call p server s w)
            = settle (server (Api.update_request w id (saveData_of p s)))) as Hr.
    { unfold save_call. rewrite Hid. apply ApiFacts.updateQuarterlyReport_outcome. }
    rewrite Hr in Hnote, Hcb.
    unfold mbind, M_bind, mret, M_ret.
    destruct (handleSaveToDatabase p server (w, s)) as [[[]|e] st]; cbn in *; [done|done].
  - unfold showSaveModal, setIsModalVisible, modifyC, modify, mbind, M_bind. cbn [fst snd].
    match goal with
    | |- context [handleModalOk p (Some values) server (w, ?s')] =>
        destruct (handleModalOk_run p values server w s') as (Hret & Hnet & Hnote & Hcb & _);
        change (modal_saveData values s') with (modal_saveData values s) in *;
        change (currentGridData s') with (currentGridData s) in *
    end.
    destruct (ApiFacts.saveQuarterlyReport_frame server (modal_saveData values s) w)
      as (Hsent & Hquiet & Hcalls).
    pose proof (ApiFacts.saveQuarterlyReport_outcome server (modal_saveData values s) w) as Hr.
    fold (settle (server (Api.create_request w (modal_saveData values s)))) in Hr.
    cbn zeta in *.
    rewrite Hsent in Hnet. rewrite Hquiet in Hnote. rewrite Hcalls in Hcb.
    rewrite Hr in Hnote, Hcb.
    done.
Qed.

End EditorMoreFacts.

(** C5 (counterexample).  A [portfolioId] of 0 is supplied: the button
    opens the dialog and the save issues the create, not the update.  And a
    create that the store accepts with a response that has no [portfolioId]
    returns no record id. *)
Lemma save_paths_as_specified_fails :
  ~ save_paths_as_specified /\ ~ create_returns_id_as_specified.
Proof.
  split.
  - intros H.
    destruct (H (props0 (Some 0%Z)) form0 server_down world0 editor0 eq_refl) as [_ Hupdate].
    specialize (Hupdate 0%Z eq_refl).
    destruct (EditorMoreFacts.save_to_database_run
                (props0 (Some 0%Z)) form0 server_down world0 editor0) as (_ & Hnet & _).
    cbn zeta in Hupdate, Hnet. rewrite Hnet in Hupdate.
    apply app_inv_head in Hupdate. cbn in Hupdate. discriminate.
  - intros H.
    destruct (H (server_200 saved_without_id) (modal_saveData form0 editor0) world0
                saved_without_id) as [id Hid]; [|reflexivity|discriminate].
    by rewrite ApiFacts.saveQuarterlyReport_outcome.
Qed.

(** C5 (as amended).  Where the database button is shown, a save from it
    sends exactly one request.  When [portfolioId] is absent or 0 the button opens the dialog
    and the confirmed save is the create: a POST keyed by the investor,
    quarter and year of the dialog's form.  When a non-zero [portfolioId] is
    supplied the button saves at once and the request is the update: a PUT
    against that id, at another address than the create.  The create
    returns the store's response as it came, so it carries a record id only
    when the store sent one; the save reports by the [success] field alone
    and hands its caller nothing but the sheet. *)
Theorem save_issues_create_or_update (p : ExcelEditor.Props)
    (values : ExcelEditor.FormValues)
    (server : Request -> Reply Api.SaveQuarterlyReportResponse)
    (w : World) (s : ExcelEditor.State) :
  database_button p = true ->
  let out := save_to_database p (Some values) server (w, s) in
  let created := modal_saveData values s in
  let updated := ExcelEditor.saveData_of p s in
  let r := settle (server (save_request p values w s)) in
  (ExcelEditor.portfolioId p = None \/ ExcelEditor.portfolioId p = Some 0%Z ->
   network (fst (snd out)) = (network w ++ [Api.create_request w created])%list /\
   method (Api.create_request w created) = POST /\
   url (Api.create_request w created) = Api.save_url created) /\
  (forall id : Z, ExcelEditor.portfolioId p = Some id -> id <> 0%Z ->
   network (fst (snd out)) = (network w ++ [Api.update_request w id updated])%list /\
   method (Api.update_request w id updated) = PUT /\
   url (Api.update_request w id updated) = Api.update_url id /\
   Api.update_url id <> Api.save_url created) /\
  (forall data : Api.QuarterlyReportData,
     fst (Api.saveQuarterlyReport server data w)
     = settle (server (Api.create_request w data))) /\
  notices (fst (snd out)) = (notices w ++ ExcelEditor.shown (save_failure_text p) r)%list /\
  callbacks (fst (snd out))
  = (callbacks w ++ ExcelEditor.reported p (ExcelEditor.currentGridData s) r)%list.
Proof.
  intros _. cbn zeta.
  destruct (EditorMoreFacts.save_to_database_run p values server w s)
    as (_ & Hnet & Hnote & Hcb).
  cbn zeta in Hnet, Hnote, Hcb.
  split; [|split; [|split; [|split; [exact Hnote|exact Hcb]]]].
  - intros Hid. split; [|done]. rewrite Hnet. unfold save_request.
    by destruct Hid as [-> | ->].
  - intros id Hid Hnz. split; [|split; [done|split; [done|]]].
    + rewrite Hnet. unfold save_request. rewrite Hid. cbn.
      by destruct (Z.eqb_spec id 0).
    + unfold Api.update_url, Api.save_url. intros Heq.
      cbv [String.append] in Heq. congruence.
  - intros data. apply ApiFacts.saveQuarterlyReport_outcome.
Qed.

(** The statement above with no id, with id 0 and with id 7, against a
    store that accepts the save and sends no record id. *)
Lemma save_issues_create_or_update_witness :
  let ok := server_200 saved_without_id in
  let sent p := network (fst (snd (save_to_database p (Some form0) ok (world0, editor0)))) in
  database_button (props0 None) = true /\
  sent (props0 None) = [Api.create_request world0 (modal_saveData form0 editor0)] /\
  sent (props0 (Some 0%Z)) = [Api.create_request world0 (modal_saveData form0 editor0)] /\
  sent (props0 (Some 7%Z))
  = [Api.update_request world0 7 (ExcelEditor.saveData_of (props0 (Some 7%Z)) editor0)] /\
  fst (Api.saveQuarterlyReport ok (modal_saveData form0 editor0) world0)
  = Return saved_without_id /\
  notices (fst (snd (save_to_database (props0 None) (Some form0) ok (world0, editor0))))
  = [NoticeSuccess "saved"].
Proof.
  intros ok sent.
  destruct (save_issues_create_or_update (props0 None) form0 ok world0 editor0 eq_refl)
    as (Hnone & _ & Hreturned & Hshown & _).
  destruct (save_issues_create_or_update (props0 (Some 0%Z)) form0 ok world0 editor0 eq_refl)
    as (Hzero & _).
  destruct (save_issues_create_or_update (props0 (Some 7%Z)) form0 ok world0 editor0 eq_refl)
    as (_ & Hseven & _).
  split; [reflexivity|]. split; [|split; [|split; [|split]]].
  - apply Hnone. by left.
  - apply Hzero. by right.
  - by apply (Hseven 7%Z).
  - apply Hreturned.
  - exact Hshown.
Defined.

(** When the persistence call is rejected by the transport, the handler
    shows its fixed error text; the sheet and the grid rows stay as they
    were and the busy flag is cleared. *)
Lemma save_transport_failure_is_shown (p : ExcelEditor.Props)
    (server : Request -> Reply Api.SaveQuarterlyReportResponse)
    (w : World) (s : ExcelEditor.State) :
  Api.transport_failed
    (server (match ExcelEditor.id_truthy (ExcelEditor.portfolioId p) with
             | Some id => Api.update_request w id (ExcelEditor.saveData_of p s)
             | None => Api.create_request w (ExcelEditor.saveData_of p s)
             end)) ->
  let out := ExcelEditor.handleSaveToDatabase p server (w, s) in
  fst out = Return tt /\
  notices (fst (snd out)) = (notices w ++ [NoticeError "保存到数据库失败"])%list /\
  callbacks (fst (snd out)) = callbacks w /\
  ExcelEditor.excelData (snd (snd out)) = ExcelEditor.excelData s /\
  ExcelEditor.gridApi (snd (snd out)) = ExcelEditor.gridApi s /\
  ExcelEditor.saving (snd (snd out)) = false.
Proof.
  intros Hfail. cbn zeta.
  destruct (EditorFacts.handleSaveToDatabase_run p server w s)
    as (Hret & _ & Hnote & Hcb & Hdata & Hgrid & Hbusy).
  destruct (EditorFacts.save_call_frame p server w s) as (_ & Hquiet & Hcalls).
  cbn zeta in *.
  assert (exists e, fst (ExcelEditor.save_call p server s w) = Throw e) as [e He].
  { unfold ExcelEditor.save_call.
    destruct (ExcelEditor.id_truthy (ExcelEditor.portfolioId p)) as [id|].
    - rewrite ApiFacts.updateQuarterlyReport_outcome.
      destruct (server _) as [status response|reason]; cbn in Hfail; [|by eexists].
      rewrite Hfail. by eexists.
    - rewrite ApiFacts.saveQuarterlyReport_outcome.
      destruct (server _) as [status response|reason]; cbn in Hfail; [|by eexists].
      rewrite Hfail. by eexists. }
  rewrite He in Hnote, Hcb. cbn in Hnote, Hcb.
  rewrite Hquiet in Hnote. rewrite Hcalls, app_nil_r in Hcb. done.
Qed.

(** C6 (the code at the failing input).  When the store answers 200 with
    [success: false], the handler completes normally and shows nothing:
    no error notice is raised and [onSave] is not called; the sheet and the
    grid rows are unchanged and the busy flag is cleared.  Against an
    unreachable store, or one answering 500, the fixed error text is
    shown. *)
Theorem save_refusal_is_silent (p : ExcelEditor.Props) (w : World) (s : ExcelEditor.State)
    (text : string) (id : option Z) :
  let refusal := {| Api.success := false; Api.message := text; Api.portfolioId := id |} in
  let out := ExcelEditor.handleSaveToDatabase p (server_200 refusal) (w, s) in
  let down := ExcelEditor.handleSaveToDatabase p server_down (w, s) in
  let broken := ExcelEditor.handleSaveToDatabase p (server_500 refusal) (w, s) in
  (fst out = Return tt /\
   notices (fst (snd out)) = notices w /\
   callbacks (fst (snd out)) = callbacks w /\
   ExcelEditor.excelData (snd (snd out)) = ExcelEditor.excelData s /\
   ExcelEditor.gridApi (snd (snd out)) = ExcelEditor.gridApi s /\
   ExcelEditor.saving (snd (snd out)) = false) /\
  notices (fst (snd down)) = (notices w ++ [NoticeError "保存到数据库失败"])%list /\
  ExcelEditor.excelData (snd (snd down)) = ExcelEditor.excelData s /\
  notices (fst (snd broken)) = (notices w ++ [NoticeError "保存到数据库失败"])%list /\
  ExcelEditor.excelData (snd (snd broken)) = ExcelEditor.excelData s.
Proof.
  cbn zeta. split; [|split; [|split; [|split]]].
  - set (refusal := {| Api.success := false; Api.message := text; Api.portfolioId := id |}).
    destruct (EditorFacts.handleSaveToDatabase_run p (server_200 refusal) w s)
      as (Hret & _ & Hnote & Hcb & Hdata & Hgrid & Hbusy).
    destruct (EditorFacts.save_call_frame p (server_200 refusal) w s) as (_ & Hquiet & Hcalls).
    cbn zeta in *.
    assert (fst (ExcelEditor.save_call p (server_200 refusal) s w) = Return refusal) as Hr.
    { unfold ExcelEditor.save_call.
      destruct (ExcelEditor.id_truthy (ExcelEditor.portfolioId p)).
      - by rewrite ApiFacts.updateQuarterlyReport_outcome.
      - by rewrite ApiFacts.saveQuarterlyReport_outcome. }
    rewrite Hr in Hnote, Hcb. cbn in Hnote, Hcb.
    rewrite Hquiet, app_nil_r in Hnote. rewrite Hcalls, app_nil_r in Hcb. done.
  - by apply (save_transport_failure_is_shown p server_down w s).
  - by apply (save_transport_failure_is_shown p server_down w s).
  - by apply (save_transport_failure_is_shown p (server_500 _) w s).
  - by apply (save_transport_failure_is_shown p (server_500 _) w s).
Qed.

(** ** Upload validation *)

Module UploadFacts.
Import FileUpload.

Lemma isLt10M_spec (f : File) : isLt10M f = true <-> (file_size f < 10 * MiB)%N.
Proof.
  unfold isLt10M. rewrite negb_true_iff, <- not_true_iff_false, Qle_bool_iff.
  unfold Qle, Qdiv, Qmult, Qinv, inject_Z. cbn. unfold MiB. lia.
Qed.

Lemma beforeUpload_result (f : File) (w : World) :
  fst (beforeUpload f w) = Return false /\
  network (snd (beforeUpload f w)) = network w /\
  notices (snd (beforeUpload f w))
  = (notices w ++
     (if negb (isValidType f) then [NoticeError "只能上传图片或PDF文件！"]
      else if negb (isLt10M f) then [NoticeError "文件大小不能超过10MB！"]
      else []))%list.
Proof.
  unfold beforeUpload.
  destruct (isValidType f), (isLt10M f); cbn; rewrite ?app_nil_r; done.
Qed.

(** A file passes exactly when it is an image or a PDF and is smaller
    than 10 MiB. *)
Lemma accepts_spec (f : File) :
  accepts f = true <-> isValidType f = true /\ (file_size f < 10 * MiB)%N.
Proof.
  rewrite <- isLt10M_spec. unfold accepts.
  destruct (beforeUpload_result f
              {| localStorage := ∅; location_href := ""; console := []; notices := [];
                 network := []; callbacks := [] |}) as (_ & _ & Hn).
  destruct (beforeUpload f _) as [r w']. cbn [snd] in Hn. rewrite Hn. cbn.
  destruct (isValidType f), (isLt10M f); cbn; rewrite ?bool_decide_eq_true; split;
    try done; try (intros [? ?]; done).
Qed.

End UploadFacts.

(** C7 (the code at the failing input).  A PNG of exactly 10 MiB is not
    larger than 10 MiB, yet [beforeUpload] raises the size error for it: a
    file passes only when it is an image or a PDF and strictly smaller than
    10 MiB.  The four files of the specification are treated as it says,
    and [beforeUpload] never touches the network. *)
Theorem upload_limit_excludes_10MiB :
  upload_allowed png_10MiB = true /\
  FileUpload.accepts png_10MiB = false /\
  notices (snd (FileUpload.beforeUpload png_10MiB world0)) = [NoticeError "文件大小不能超过10MB！"] /\
  (forall f : File,
     FileUpload.accepts f = true <->
     FileUpload.isValidType f = true /\ (file_size f < 10 * MiB)%N) /\
  FileUpload.accepts jpeg_12MiB = false /\
  FileUpload.accepts png_2MiB = true /\
  FileUpload.accepts pdf_2MiB = true /\
  FileUpload.accepts docx_2MiB = false /\
  (forall (f : File) (w : World), network (snd (FileUpload.beforeUpload f w)) = network w).
Proof.
  split; [vm_compute; reflexivity|].
  split; [vm_compute; reflexivity|].
  split; [vm_compute; reflexivity|].
  split; [apply UploadFacts.accepts_spec|].
  split; [vm_compute; reflexivity|].
  split; [vm_compute; reflexivity|].
  split; [vm_compute; reflexivity|].
  split; [vm_compute; reflexivity|].
  intros f w. apply UploadFacts.beforeUpload_result.
Qed.

(** ** What the upload form does with the substituted response *)

Module SubmitFacts.
Import FileUpload.

(** After a transport failure the form reports success and hands the
    example spreadsheet to its parent. *)
Lemma handleSubmit_after_failure (server : Request -> Reply Api.UploadResponse)
    (w : World) (first : UploadFile) (rest : list UploadFile) (busy : bool) (f : File) :
  originFileObj first = Some f ->
  Api.transport_failed
    (server (Api.upload_request w
               {| Api.file := f;
                  Api.relatedPersonInfo :=
                    {| info_name := ""; relationship := ""; idNumber := ""; phone := "";
                       description := Some "" |} |})) ->
  let out := handleSubmit server (w, {| fileList := first :: rest; uploading := busy |}) in
  fst out = Return tt /\
  notices (fst (snd out)) = (notices w ++ [NoticeSuccess "文件上传成功，已生成Excel文件"])%list /\
  callbacks (fst (snd out))
  = (callbacks w ++ [OnUploadSuccess "/example.xlsx" "example.xlsx"])%list /\
  snd (snd out) = {| fileList := []; uploading := false |}.
Proof.
  intros Hfile Hfail. cbn zeta.
  set (data := {| Api.file := f; Api.relatedPersonInfo := _ |}) in *.
  pose proof (ApiFacts.uploadFileAndGetExcel_failure server data w Hfail) as Hret.
  destruct (ApiFacts.uploadFileAndGetExcel_frame server data w) as (_ & Hquiet & Hcalls).
  cbn zeta in Hquiet, Hcalls.
  unfold handleSubmit, try_finally, try_catch, setUploading, setFileList,
    modifyC, modify, getC, liftW, mbind, M_bind, mret, M_ret.
  cbn -[Api.uploadFileAndGetExcel]. rewrite Hfile.
  cbn -[Api.uploadFileAndGetExcel]. fold data.
  destruct (Api.uploadFileAndGetExcel server data w) as [r w1].
  cbn [fst snd] in Hret, Hquiet, Hcalls. subst r. cbn.
  by rewrite Hquiet, Hcalls.
Qed.

End SubmitFacts.

(** ** The upload call *)

(** C8.  Whenever the transport fails for the upload request (no response,
    or a status outside 2xx), [uploadFileAndGetExcel] does not throw: it
    returns the fixed success response that points at "/example.xlsx" under
    the name "example.xlsx", and shows nothing to the user. *)
Theorem upload_failure_returns_example (server : Request -> Reply Api.UploadResponse)
    (data : Api.UploadFileData) (w : World) :
  Api.transport_failed (server (Api.upload_request w data)) ->
  fst (Api.uploadFileAndGetExcel server data w) = Return Api.exampleResponse /\
  Api.up_success Api.exampleResponse = true /\
  Api.excelUrl Api.exampleResponse = Some "/example.xlsx" /\
  Api.fileName Api.exampleResponse = Some "example.xlsx" /\
  notices (snd (Api.uploadFileAndGetExcel server data w)) = notices w.
Proof.
  intros Hfail. split; [|split; [done|split; [done|split; [done|]]]].
  - by apply ApiFacts.uploadFileAndGetExcel_failure.
  - apply ApiFacts.uploadFileAndGetExcel_frame.
Qed.

(** The statement above against an unreachable service. *)
Lemma upload_failure_returns_example_witness :
  let data := {| Api.file := png_2MiB;
                 Api.relatedPersonInfo :=
                   {| info_name := ""; relationship := ""; idNumber := ""; phone := "";
                      description := Some "" |} |} in
  Api.transport_failed (server_down (A := Api.UploadResponse) (Api.upload_request world0 data)) /\
  fst (Api.uploadFileAndGetExcel server_down data world0) = Return Api.exampleResponse.
Proof.
  intros data. split; [exact I|].
  apply (upload_failure_returns_example server_down data world0). exact I.
Defined.

(** ** Shapes of the projected grid and of the reconciled sheet *)

Section ShapeFacts.

Lemma stored_js_or (c : Cell) : stored (js_or c (CString "")).
Proof.
  unfold stored, js_or. destruct (truthy c) eqn:E; [by left | by right].
Qed.

Lemma js_or_stored (c : Cell) : stored c -> js_or c (CString "") = c.
Proof. unfold js_or. intros [-> | ->]; reflexivity. Qed.

Lemma make_row_keys (n index : nat) (row : option (list Cell)) (k : string) :
  is_Some (make_row n index row !! k) -> k = "id" \/ exists i, i < n /\ k = col_key i.
Proof.
  rewrite make_row_fill.
  destruct (decide (k ∈ col_key <$> seq 0 n)) as [Hin|Hout].
  { intros _. right. apply list_elem_of_fmap in Hin as (i & -> & Hi).
    exists i. split; [|done]. apply elem_of_seq in Hi. lia. }
  rewrite fill_lookup_other.
  - intros [v Hv]. apply lookup_singleton_Some in Hv as [<- _]. by left.
  - intros i Hi <-. apply Hout. apply list_elem_of_fmap. by exists i.
Qed.

Lemma toGrid_rows_lookup (S : Sheet) (r : nat) (obj : gmap string Cell) :
  rowData (toGrid S) !! r = Some obj ->
  exists row, drop (if hasHeaders (first_row S) then 1 else 0) S !! r = Some row /\
              obj = make_row (maxCols S) r row.
Proof.
  destruct (decide (S = [])) as [->|Hne]; [done|].
  rewrite (toGrid_nonempty S Hne). cbn [rowData]. rewrite list_lookup_imap.
  destruct (drop _ S !! r) as [row|]; [|done].
  intros [= <-]. by exists row.
Qed.

End ShapeFacts.

(** X1.  Every tabular row of a projected grid carries its position among
    the data rows under [id], one value under each of [col0] ..
    [col{maxCols-1}], and no other key; none of the values is [null],
    [undefined], 0, [NaN] or [false]. *)
Theorem toGrid_row_shape (S : Sheet) (r : nat) (obj : gmap string Cell) :
  rowData (toGrid S) !! r = Some obj ->
  obj !! "id" = Some (CNumber (Z.of_nat r)) /\
  (forall i, i < maxCols S -> exists v, obj !! col_key i = Some v /\ stored v) /\
  (forall k, is_Some (obj !! k) -> k = "id" \/ exists i, i < maxCols S /\ k = col_key i).
Proof.
  intros Hobj. apply toGrid_rows_lookup in Hobj as (row & _ & ->).
  split; [apply make_row_lookup_id|]. split.
  - intros i Hi. eexists. split; [by apply make_row_lookup_col|]. apply stored_js_or.
  - apply make_row_keys.
Qed.

(** The statement above for the first data row of the ragged sheet. *)
Lemma toGrid_row_shape_witness :
  exists obj, rowData (toGrid sheet_ragged) !! 0 = Some obj /\
              obj !! "id" = Some (CNumber 0) /\
              (forall i, i < 3 -> exists v, obj !! col_key i = Some v /\ stored v).
Proof.
  exists (make_row 3 0 (Some [CString "b"; CString "c"; CString "d"])).
  assert (rowData (toGrid sheet_ragged) !! 0
          = Some (make_row 3 0 (Some [CString "b"; CString "c"; CString "d"]))) as H
    by reflexivity.
  split; [exact H|].
  destruct (toGrid_row_shape sheet_ragged 0 _ H) as (Hid & Hcols & _).
  split; [exact Hid | exact Hcols].
Defined.

(** X2.  A projected grid has one column per position up to the widest
    row; the column keys are pairwise distinct, every column is editable and
    every column has a header that is not blank. *)
Theorem toGrid_columns (S : Sheet) :
  length (columnDefs (toGrid S)) = maxCols S /\
  NoDup (field <$> columnDefs (toGrid S)) /\
  Forall (fun col => editable col = true /\
                     exists h, headerName col = Some h /\ Trim.trim h <> "")
         (columnDefs (toGrid S)).
Proof.
  destruct (decide (S = [])) as [->|Hne].
  { split; [done|]. split; [constructor | constructor]. }
  rewrite (toGrid_nonempty S Hne). cbn [columnDefs].
  split; [by rewrite length_fmap, length_seq|]. split.
  - rewrite <- list_fmap_compose. apply NoDup_fmap_2; [|apply NoDup_seq].
    intros i j Hij. cbv [compose make_col field] in Hij.
    apply (inj Some) in Hij. by apply col_key_inj.
  - apply Forall_fmap, Forall_forall. intros i _. cbn. split; [done|].
    eexists. split; [done|].
    pose proof (header_name_is_header_text (hasHeaders (first_row S)) (first_row S) i eq_refl)
      as Ht.
    apply is_header_text_spec in Ht as (s & [= <-] & Hs). done.
Qed.

(** X3.  Whatever rows and column definitions the grid holds, the
    reconciled sheet is rectangular: a header row of strings followed by one
    row per row node that has data, every row an array with one cell per
    column definition, and no data cell falsy unless it is [""]. *)
Theorem getGridData_rectangular (nodes : list (option (gmap string Cell)))
    (cols : list ColDef) :
  let out := getGridData (Some nodes) cols in
  length out = Datatypes.S (length (omap id nodes)) /\
  Forall (fun row => exists cells, row = Some cells /\ length cells = length cols) out /\
  (exists hs, out !! 0 = Some (Some hs) /\ Forall (fun c => exists s, c = CString s) hs) /\
  (forall r cells, out !! Datatypes.S r = Some (Some cells) -> Forall stored cells).
Proof.
  cbn zeta. unfold getGridData.
  split; [by rewrite length_cons, !length_fmap|]. split; [|split].
  - constructor.
    + eexists. split; [done|]. by rewrite length_fmap.
    + apply Forall_fmap, Forall_fmap, Forall_forall. intros obj _. cbn.
      eexists. split; [done|]. by rewrite length_fmap.
  - eexists. split; [done|]. apply Forall_fmap, Forall_forall. intros col _. cbn. by eexists.
  - intros r cells. rewrite lookup_cons, !list_lookup_fmap.
    destruct (omap id nodes !! r) as [obj|]; [|done]. cbn. intros [= <-].
    apply Forall_fmap, Forall_forall. intros col _. cbn. apply stored_js_or.
Qed.

(** X4.  The reconciliation of a projected sheet holds the grid's headers
    followed by every data row padded to the width of the sheet, [""]
    standing for a missing or falsy cell; a header row is added exactly when
    row 0 did not pass header inference. *)
Theorem roundTrip_pads_rows (S : Sheet) :
  S <> [] ->
  let start := if hasHeaders (first_row S) then 1 else 0 in
  roundTrip S
  = Some ((fun i => CString (header_name (hasHeaders (first_row S)) (first_row S) i))
            <$> seq 0 (maxCols S))
    :: ((fun row => Some (padded (maxCols S) row)) <$> drop start S) /\
  length (roundTrip S) = length S + 1 - start.
Proof.
  intros Hne start.
  assert (roundTrip S
          = Some ((fun i => CString (header_name (hasHeaders (first_row S)) (first_row S) i))
                    <$> seq 0 (maxCols S))
            :: ((fun row => Some (padded (maxCols S) row)) <$> drop start S)) as Heq.
  { unfold roundTrip. rewrite fromGrid_unfold, (toGrid_nonempty S Hne).
    cbn [rowData columnDefs]. rewrite header_cells_make_col. f_equal.
    fold start. apply list_eq. intros r.
    rewrite !list_lookup_fmap, list_lookup_imap.
    destruct (drop start S !! r) as [row|]; [|done]. cbn.
    by rewrite cells_of_make_row. }
  split; [exact Heq|].
  rewrite Heq, length_cons, length_fmap, length_drop.
  assert (start <= length S); [|lia].
  destruct S; [done|]. unfold start. destruct (hasHeaders _); cbn; lia.
Qed.

(** The statement above for the ragged sheet. *)
Lemma roundTrip_pads_rows_witness :
  roundTrip sheet_ragged
  = [Some [CString "a"; CString "列2"; CString "列3"];
     Some [CString "b"; CString "c"; CString "d"]] /\
  length (roundTrip sheet_ragged) = 2.
Proof.
  assert (sheet_ragged <> []) as Hne by done.
  destruct (roundTrip_pads_rows sheet_ragged Hne) as [Heq Hlen].
  split; [rewrite Heq; reflexivity | exact Hlen].
Defined.

(** X5.  A sheet whose row 0 is a header row, whose rows are all arrays as
    long as row 0 and whose data cells are truthy or [""] survives the
    round trip unchanged. *)
Theorem roundTrip_exact (S : Sheet) : exact_sheet S -> roundTrip S = S.
Proof.
  intros (headers & rows & -> & Hh & Hrows).
  assert (maxCols (Some headers :: (Some <$> rows)) = length headers) as Hn.
  { apply maxCols_const; [done|]. intros row Hrow.
    apply elem_of_cons in Hrow as [->|Hrow]; [done|].
    apply list_elem_of_fmap in Hrow as (r & -> & Hr).
    rewrite Forall_forall in Hrows. by apply Hrows. }
  destruct (roundTrip_pads_rows (Some headers :: (Some <$> rows))) as [Heq _]; [done|].
  rewrite Heq. cbn [first_row]. rewrite Hh, Hn. cbn [drop]. rewrite drop_0. f_equal.
  - f_equal. apply list_eq_same_length with (length headers);
      [done | by rewrite length_fmap, length_seq |].
    intros i x y Hi. rewrite seq_fmap_lookup by done. intros [= <-] Hy.
    unfold header_name, arr_get. rewrite Hy. cbn.
    pose proof (hasHeaders_lookup _ _ _ Hh Hy) as Ht.
    rewrite (is_header_text_nonempty _ Ht). by apply is_header_text_String.
  - rewrite <- list_fmap_compose. apply list_fmap_ext. intros k r Hk. cbn. f_equal.
    rewrite Forall_forall in Hrows.
    destruct (Hrows r) as [Hlen Hstored]; [by eapply list_elem_of_lookup_2|].
    unfold padded. apply list_eq_same_length with (length headers);
      [done | by rewrite length_fmap, length_seq |].
    intros i x y Hi. rewrite seq_fmap_lookup by done. intros [= <-] Hy.
    cbn. rewrite Hy. cbn. apply js_or_stored.
    rewrite Forall_forall in Hstored. apply Hstored. by eapply list_elem_of_lookup_2.
Qed.

(** The statement above for a header row and one data row. *)
Lemma roundTrip_exact_witness :
  let S := [Some [CString "Name"; CString "Age"]; Some [CString "A"; CNumber 30]] in
  exact_sheet S /\ roundTrip S = S.
Proof.
  intros S.
  assert (exact_sheet S) as Hexact.
  { exists [CString "Name"; CString "Age"], [[CString "A"; CNumber 30]].
    split; [reflexivity|]. split; [reflexivity|].
    repeat constructor. }
  split; [exact Hexact | exact (roundTrip_exact S Hexact)].
Defined.

(** ** More on the cell edits of the table editor *)

Module LegacyViewFacts.
Import Legacy LegacyFacts LegacyView.

Lemma read_after_edit (st : State) (r c : nat) (v : string) (r' c' : nat) :
  wf st ->
  read (handleCellEdit st r c v) r' c'
  = if decide (r' = r /\ c' = c) then CString v else read st r' c'.
Proof.
  intros [Hinj Halloc].
  destruct (decide (r' = r /\ c' = c)) as [[-> ->]|Hne].
  - destruct (row_ref (excelData st) r) as [l|] eqn:Hr.
    + rewrite (handleCellEdit_existing _ _ _ _ _ Hr). unfold read. cbn [heap excelData].
      rewrite Hr, lookup_alter_eq. destruct (Halloc _ _ Hr) as [arr ->]. cbn.
      rewrite array_set_read. by rewrite decide_True.
    + rewrite (handleCellEdit_new _ _ _ _ Hr). unfold read. cbn [heap excelData].
      rewrite row_ref_array_set, decide_True by done.
      rewrite lookup_alter_eq, lookup_insert_eq. cbn.
      rewrite array_set_read. by rewrite decide_True.
  - destruct (row_ref (excelData st) r) as [l|] eqn:Hr.
    + rewrite (handleCellEdit_existing _ _ _ _ _ Hr). unfold read. cbn [heap excelData].
      destruct (row_ref (excelData st) r') as [l'|] eqn:Hr'; [|done].
      destruct (decide (l' = l)) as [->|Hl].
      * assert (r' = r) as -> by by eapply Hinj.
        rewrite lookup_alter_eq. destruct (Halloc _ _ Hr) as [arr ->]. cbn.
        rewrite array_set_read. rewrite decide_False; [done|]. intros ->. by apply Hne.
      * by rewrite lookup_alter_ne.
    + rewrite (handleCellEdit_new _ _ _ _ Hr). unfold read. cbn [heap excelData].
      rewrite row_ref_array_set.
      destruct (decide (r' = r)) as [->|Hr'].
      * rewrite lookup_alter_eq, lookup_insert_eq. cbn.
        rewrite array_set_read, Hr. cbn.
        rewrite decide_False; [done|]. intros ->. by apply Hne.
      * destruct (row_ref (excelData st) r') as [l'|] eqn:Hl'; [|done].
        assert (l' <> alloc (heap st)) as Hl.
        { intros ->. destruct (Halloc _ _ Hl') as [arr Harr].
          by rewrite alloc_fresh in Harr. }
        by rewrite lookup_alter_ne, lookup_insert_ne.
Qed.

Lemma array_set_length {A} (hole : A) (arr : list A) (i : nat) (v : A) :
  length (array_set hole arr i v) = length arr `max` (i + 1).
Proof.
  unfold array_set. destruct (decide (i < length arr)).
  - rewrite length_insert. lia.
  - rewrite !length_app, length_replicate. cbn. lia.
Qed.

Lemma row_ref_beyond (data : list (option nat)) (r : nat) :
  length data <= r -> row_ref data r = None.
Proof. intros H. unfold row_ref. by rewrite lookup_ge_None_2. Qed.

Lemma row_len_beyond (st : State) (r : nat) :
  length (excelData st) <= r -> row_len st r = 0.
Proof. intros H. unfold row_len. by rewrite row_ref_beyond. Qed.

(** The width is the least upper bound of the row lengths. *)
Lemma list_max_bound (f : nat -> nat) (n m : nat) :
  foldr Nat.max 0 (f <$> seq 0 n) <= m <-> forall r, r < n -> f r <= m.
Proof.
  induction n as [|n IH].
  - split; [intros _ r Hr; lia | cbn; lia].
  - rewrite seq_S, fmap_app, foldr_app. cbn.
    assert (forall (l : list nat) (a : nat),
              foldr Nat.max a l = foldr Nat.max 0 l `max` a) as Hfold.
    { induction l as [|x l IHl]; intros a; cbn; [lia|]. rewrite IHl. lia. }
    rewrite Hfold. split.
    + intros H r Hr. destruct (decide (r = n)) as [->|]; [lia|].
      apply IH; lia.
    + intros H. assert (f n <= m) by (apply H; lia).
      assert (foldr Nat.max 0 (f <$> seq 0 n) <= m) by (apply IH; intros; apply H; lia).
      lia.
Qed.

Lemma table_width_bound (st : State) (m : nat) :
  table_width st <= m <-> forall r, row_len st r <= m.
Proof.
  unfold table_width. rewrite list_max_bound. split.
  - intros H r. destruct (decide (r < length (excelData st))); [by apply H|].
    rewrite row_len_beyond; lia.
  - intros H r _. apply H.
Qed.

Lemma row_len_after_edit (st : State) (r c : nat) (v : string) (r' : nat) :
  wf st ->
  row_len (handleCellEdit st r c v) r'
  = if decide (r' = r) then row_len st r `max` (c + 1) else row_len st r'.
Proof.
  intros [Hinj Halloc].
  destruct (row_ref (excelData st) r) as [l|] eqn:Hr.
  - rewrite (handleCellEdit_existing _ _ _ _ _ Hr). unfold row_len. cbn [heap excelData].
    destruct (decide (r' = r)) as [->|Hne].
    + rewrite Hr, lookup_alter_eq. destruct (Halloc _ _ Hr) as [arr ->]. cbn.
      apply array_set_length.
    + destruct (row_ref (excelData st) r') as [l'|] eqn:Hr'; [|done].
      rewrite lookup_alter_ne; [done|]. intros ->. apply Hne. by eapply Hinj.
  - rewrite (handleCellEdit_new _ _ _ _ Hr). unfold row_len. cbn [heap excelData].
    rewrite row_ref_array_set.
    destruct (decide (r' = r)) as [->|Hne].
    + rewrite lookup_alter_eq, lookup_insert_eq, Hr. cbn. apply array_set_length.
    + destruct (row_ref (excelData st) r') as [l'|] eqn:Hr'; [|done].
      assert (l' <> alloc (heap st)) as Hl.
      { intros ->. destruct (Halloc _ _ Hr') as [arr Harr].
        by rewrite alloc_fresh in Harr. }
      by rewrite lookup_alter_ne, lookup_insert_ne.
Qed.

Lemma rows_after_edit (st : State) (r c : nat) (v : string) :
  length (excelData (handleCellEdit st r c v)) = length (excelData st) `max` (r + 1).
Proof.
  destruct (row_ref (excelData st) r) as [l|] eqn:Hr.
  - rewrite (handleCellEdit_existing _ _ _ _ _ Hr). cbn [excelData].
    assert (r < length (excelData st)); [|lia].
    destruct (decide (r < length (excelData st))); [done|].
    rewrite row_ref_beyond in Hr by lia. done.
  - rewrite (handleCellEdit_new _ _ _ _ Hr). cbn [excelData]. apply array_set_length.
Qed.

Lemma wf_apply_edits (st : State) (edits : list (nat * nat * string)) :
  wf st -> wf (apply_edits st edits).
Proof.
  revert st. induction edits as [|e edits IH]; intros st Hwf; [done|].
  cbn. apply IH. by apply wf_handleCellEdit.
Qed.

Lemma dense_load (rows : list (list Cell)) : dense (load rows).
Proof.
  unfold dense, load. cbn. apply Forall_fmap, Forall_forall. intros l _. by eexists.
Qed.

Lemma dense_row_ref (st : State) (r : nat) :
  dense st -> r < length (excelData st) -> is_Some (row_ref (excelData st) r).
Proof.
  unfold dense, row_ref. intros Hd Hr.
  apply lookup_lt_is_Some_2 in Hr as [x Hx]. rewrite Hx. cbn.
  rewrite Forall_forall in Hd. apply Hd. by eapply list_elem_of_lookup_2.
Qed.

Lemma dense_after_edit (st : State) (r c : nat) (v : string) :
  dense st -> r <= length (excelData st) -> dense (handleCellEdit st r c v).
Proof.
  intros Hd Hr.
  destruct (row_ref (excelData st) r) as [l|] eqn:Href.
  - by rewrite (handleCellEdit_existing _ _ _ _ _ Href).
  - rewrite (handleCellEdit_new _ _ _ _ Href). unfold dense. cbn [excelData].
    assert (r = length (excelData st)) as Heq.
    { destruct (decide (r < length (excelData st))) as [Hlt|]; [|lia].
      destruct (dense_row_ref st r Hd Hlt) as [l Hl]. congruence. }
    unfold array_set. rewrite decide_False by lia.
    rewrite Heq, Nat.sub_diag. cbn.
    apply Forall_app. split; [done|]. constructor; [by eexists | constructor].
Qed.

End LegacyViewFacts.

Section LegacyViewTheorems.
Import Legacy LegacyFacts LegacyView LegacyViewFacts.

(** X6.  On a sheet whose rows are all arrays, an edit of a cell in an
    existing row or in the row right below the last one never shrinks the
    table: afterwards the sheet has as many rows as before or one more, the
    table is as wide as before or just wide enough to hold the edited
    column, and all rows are still arrays. *)
Theorem edit_table_size (st : Legacy.State) (r c : nat) (v : string) :
  Legacy.wf st ->
  LegacyView.dense st ->
  r <= length (Legacy.excelData st) ->
  length (Legacy.excelData (Legacy.handleCellEdit st r c v))
  = length (Legacy.excelData st) `max` (r + 1) /\
  LegacyView.table_width (Legacy.handleCellEdit st r c v)
  = LegacyView.table_width st `max` (c + 1) /\
  LegacyView.dense (Legacy.handleCellEdit st r c v).
Proof.
  intros Hwf Hdense Hr. split; [apply rows_after_edit|]. split.
  - apply Nat.le_antisymm.
    + apply table_width_bound. intros r'. rewrite row_len_after_edit by done.
      assert (row_len st r <= table_width st) by by apply table_width_bound.
      assert (row_len st r' <= table_width st) by by apply table_width_bound.
      destruct (decide (r' = r)); lia.
    + apply Nat.max_lub.
      * apply table_width_bound. intros r'.
        assert (row_len (handleCellEdit st r c v) r'
                <= table_width (handleCellEdit st r c v))
          as H by by apply table_width_bound.
        rewrite row_len_after_edit in H by done.
        destruct (decide (r' = r)) as [->|]; lia.
      * assert (row_len (handleCellEdit st r c v) r
                <= table_width (handleCellEdit st r c v))
          as H by by apply table_width_bound.
        rewrite row_len_after_edit, decide_True in H by done. lia.
  - by apply dense_after_edit.
Qed.

(** The statement above for an edit in the row below a one-row sheet. *)
Lemma edit_table_size_witness :
  let st := Legacy.load [[CString "a"]] in
  Legacy.wf st /\ LegacyView.dense st /\
  length (Legacy.excelData (Legacy.handleCellEdit st 1 3 "z")) = 2 /\
  LegacyView.table_width (Legacy.handleCellEdit st 1 3 "z") = 4.
Proof.
  intros st.
  assert (1 <= length (Legacy.excelData st)) as Hr by (vm_compute; lia).
  destruct (edit_table_size st 1 3 "z" (wf_load _) (dense_load _) Hr) as (Hrows & Hwidth & _).
  split; [apply wf_load|]. split; [apply dense_load|]. split; [exact Hrows | exact Hwidth].
Defined.

(** X7.  On a sheet whose rows are all arrays, typing into a cell the
    table draws never changes the size of the table: the number of rows and
    the width stay as they are, and all rows are still arrays. *)
Theorem edit_rendered_keeps_size (st : Legacy.State) (r c : nat) (v : string) :
  Legacy.wf st ->
  LegacyView.dense st ->
  LegacyView.rendered st r c ->
  length (Legacy.excelData (Legacy.handleCellEdit st r c v)) = length (Legacy.excelData st) /\
  LegacyView.table_width (Legacy.handleCellEdit st r c v) = LegacyView.table_width st /\
  LegacyView.dense (Legacy.handleCellEdit st r c v).
Proof.
  intros Hwf Hdense [Hr Hc]. split; [|split].
  - rewrite rows_after_edit. lia.
  - apply Nat.le_antisymm.
    + apply table_width_bound. intros r'. rewrite row_len_after_edit by done.
      assert (row_len st r <= table_width st) by by apply table_width_bound.
      assert (row_len st r' <= table_width st) by by apply table_width_bound.
      destruct (decide (r' = r)); lia.
    + apply table_width_bound. intros r'.
      assert (row_len (handleCellEdit st r c v) r' <= table_width (handleCellEdit st r c v))
        as H by by apply table_width_bound.
      rewrite row_len_after_edit in H by done.
      destruct (decide (r' = r)) as [->|]; lia.
  - apply dense_after_edit; [done|lia].
Qed.

(** The statement above for the blank cell the table pads the short second
    row with. *)
Lemma edit_rendered_keeps_size_witness :
  let st := Legacy.load [[CString "a"; CString "b"]; [CString "c"]] in
  Legacy.wf st /\ LegacyView.dense st /\ LegacyView.rendered st 1 1 /\
  length (Legacy.excelData (Legacy.handleCellEdit st 1 1 "z")) = 2 /\
  LegacyView.table_width (Legacy.handleCellEdit st 1 1 "z") = 2.
Proof.
  intros st.
  assert (LegacyView.rendered st 1 1) as Hshown by (split; vm_compute; lia).
  destruct (edit_rendered_keeps_size st 1 1 "z" (wf_load _) (dense_load _) Hshown)
    as (Hrows & Hwidth & _).
  split; [apply wf_load|]. split; [apply dense_load|]. split; [exact Hshown|].
  split; [exact Hrows | exact Hwidth].
Defined.

(** X8.  An edit of a row that exists writes into the array the previous
    state holds: read through the previous array of rows, the cell shows the
    new value as well.  Only a row created by the edit is unknown to the
    previous array of rows. *)
Theorem edit_writes_previous_rows (st : Legacy.State) (r c : nat) (v : string) :
  Legacy.wf st ->
  (is_Some (Legacy.row_ref (Legacy.excelData st) r) ->
   Legacy.read (LegacyView.stale st (Legacy.handleCellEdit st r c v)) r c = CString v) /\
  (Legacy.row_ref (Legacy.excelData st) r = None ->
   Legacy.read (LegacyView.stale st (Legacy.handleCellEdit st r c v)) r c = CUndefined).
Proof.
  intros [Hinj Halloc]. split.
  - intros [l Hr]. rewrite (handleCellEdit_existing _ _ _ _ _ Hr).
    unfold stale, read. cbn [heap excelData]. rewrite Hr, lookup_alter_eq.
    destruct (Halloc _ _ Hr) as [arr ->]. cbn.
    rewrite array_set_read. by rewrite decide_True.
  - intros Hr. unfold stale, read. cbn [heap excelData]. by rewrite Hr.
Qed.

(** The statement above for the first cell of a loaded one-row sheet. *)
Lemma edit_writes_previous_rows_witness :
  let st := Legacy.load [[CString "a"]] in
  Legacy.wf st /\
  Legacy.read st 0 0 = CString "a" /\
  Legacy.read (LegacyView.stale st (Legacy.handleCellEdit st 0 0 "z")) 0 0 = CString "z".
Proof.
  intros st. split; [apply wf_load|]. split; [reflexivity|].
  destruct (edit_writes_previous_rows st 0 0 "z" (wf_load _)) as [H _].
  apply H. by eexists.
Defined.

(** X9.  After any sequence of edits every cell reads the value of the
    last edit made to it, and a cell no edit touched reads as before. *)
Theorem edits_last_write_wins (st : Legacy.State) (edits : list (nat * nat * string))
    (r c : nat) :
  Legacy.wf st ->
  Legacy.read (LegacyView.apply_edits st edits) r c
  = match LegacyView.last_write edits r c with
    | Some v => CString v
    | None => Legacy.read st r c
    end.
Proof.
  revert st. induction edits as [|e edits IH]; intros st Hwf; [done|].
  change (apply_edits st (e :: edits))
    with (apply_edits (handleCellEdit st e.1.1 e.1.2 e.2) edits).
  rewrite IH by by apply wf_handleCellEdit.
  cbn [last_write]. destruct (last_write edits r c) as [v|]; [done|].
  rewrite read_after_edit by done.
  destruct (decide (r = e.1.1 /\ c = e.1.2)) as [[-> ->]|Hne].
  - by rewrite decide_True.
  - rewrite decide_False; [done|]. intros [<- <-]. by apply Hne.
Qed.

(** The statement above for two edits of one cell and one of another. *)
Lemma edits_last_write_wins_witness :
  let st := Legacy.load [[CString "a"; CString "b"]] in
  let edits := [(0, 0, "x"); (0, 1, "y"); (0, 0, "z")] in
  Legacy.wf st /\
  Legacy.read (LegacyView.apply_edits st edits) 0 0 = CString "z" /\
  Legacy.read (LegacyView.apply_edits st edits) 0 1 = CString "y".
Proof.
  intros st edits. split; [apply wf_load|]. split.
  - exact (edits_last_write_wins st edits 0 0 (wf_load _)).
  - exact (edits_last_write_wins st edits 0 1 (wf_load _)).
Defined.

End LegacyViewTheorems.

(** ** The upload form *)

Module UploadFormFacts.
Import FileUpload FileUploadMore.

Lemma slice_last_spec {A} (l : list A) :
  slice_last l = match last l with Some x => [x] | None => [] end.
Proof.
  unfold slice_last. induction l as [|x l IH] using rev_ind; [done|].
  rewrite last_snoc, length_app. cbn.
  replace (length l + 1 - 1) with (length l) by lia.
  by rewrite drop_app_length.
Qed.

(** What [handleSubmit] does once a file is at hand, in terms of the
    response the upload call returns. *)
Lemma handleSubmit_run (server : Request -> Reply Api.UploadResponse)
    (w : World) (first : UploadFile) (rest : list UploadFile) (busy : bool) (f : File) :
  originFileObj first = Some f ->
  let data := {| Api.file := f; Api.relatedPersonInfo := blank_info |} in
  let r := fst (Api.uploadFileAndGetExcel server data w) in
  let w1 := snd (Api.uploadFileAndGetExcel server data w) in
  let out := handleSubmit server (w, {| fileList := first :: rest; uploading := busy |}) in
  forall response, r = Return response ->
  fst out = Return tt /\
  network (fst (snd out)) = network w1 /\
  uploading (snd (snd out)) = false /\
  (if usable response
   then notices (fst (snd out))
        = (notices w1 ++ [NoticeSuccess (str_or (Api.up_message response) "文件上传成功")])%list /\
        callbacks (fst (snd out))
        = (callbacks w1 ++
           [OnUploadSuccess (default "" (Api.excelUrl response))
              (str_or (default "" (Api.fileName response)) "result.xlsx")])%list /\
        fileList (snd (snd out)) = []
   else notices (fst (snd out))
        = (notices w1 ++ [NoticeError (str_or (Api.up_message response) "上传失败")])%list /\
        callbacks (fst (snd out)) = callbacks w1 /\
        fileList (snd (snd out)) = first :: rest).
Proof.
  intros Hfile. cbn zeta. intros response Hr.
  unfold handleSubmit, try_finally, try_catch, setUploading, setFileList,
    modifyC, modify, getC, liftW, mbind, M_bind, mret, M_ret.
  cbn -[Api.uploadFileAndGetExcel]. rewrite Hfile.
  cbn -[Api.uploadFileAndGetExcel]. fold blank_info.
  destruct (Api.uploadFileAndGetExcel server _ w) as [r w1].
  cbn [fst snd] in Hr |- *. subst r. unfold usable.
  destruct (Api.up_success response); cbn.
  - destruct (Api.excelUrl response) as [u|]; cbn; [|done].
    destruct (String.eqb u ""); cbn; done.
  - destruct (Api.excelUrl response) as [u|]; cbn; done.
Qed.

Lemma uploadFileAndGetExcel_returns (server : Request -> Reply Api.UploadResponse)
    (data : Api.UploadFileData) (w : World) :
  exists response, fst (Api.uploadFileAndGetExcel server data w) = Return response.
Proof.
  rewrite ApiFacts.uploadFileAndGetExcel_outcome.
  destruct (server _) as [status response|reason]; [|by eexists].
  destruct (Api.validateStatus status); by eexists.
Qed.

Lemma str_or_nonempty (a b : string) : b <> "" -> str_or a b <> "".
Proof.
  unfold str_or. destruct (String.eqb_spec a ""); congruence.
Qed.

End UploadFormFacts.

(** X10.  Choosing files keeps only the most recent one: after
    [handleFileChange] the list holds the last file of the widget's list
    and nothing else, and it is empty when the widget's list is. *)
Theorem handleFileChange_keeps_latest (files : list FileUpload.UploadFile)
    (w : World) (s : FileUpload.State) :
  let out := FileUploadMore.handleFileChange files (w, s) in
  FileUpload.fileList (snd (snd out))
  = match last files with Some f => [f] | None => [] end /\
  length (FileUpload.fileList (snd (snd out))) <= 1 /\
  FileUpload.uploading (snd (snd out)) = FileUpload.uploading s /\
  fst (snd out) = w.
Proof.
  cbn zeta. unfold FileUploadMore.handleFileChange, FileUpload.setFileList, modifyC, modify.
  cbn. rewrite UploadFormFacts.slice_last_spec.
  split; [done|]. split; [|done]. destruct (last files); cbn; lia.
Qed.

(** X11.  Submitting without a usable file sends nothing: with no file
    chosen, or with a list entry that carries no file object, [handleSubmit]
    shows its error, leaves the network and the form untouched and does not
    enter the busy state. *)
Theorem handleSubmit_without_file (server : Request -> Reply Api.UploadResponse)
    (w : World) (s : FileUpload.State) :
  match FileUpload.fileList s with
  | [] => True
  | first :: _ => FileUpload.originFileObj first = None
  end ->
  let out := FileUpload.handleSubmit server (w, s) in
  fst out = Return tt /\
  network (fst (snd out)) = network w /\
  callbacks (fst (snd out)) = callbacks w /\
  snd (snd out) = s /\
  notices (fst (snd out))
  = (notices w ++ [NoticeError (match FileUpload.fileList s with
                                | [] => "请选择要上传的文件"
                                | _ => "文件获取失败"
                                end)])%list.
Proof.
  intros Hfile. cbn zeta.
  unfold FileUpload.handleSubmit, getC, liftW, mbind, M_bind.
  cbn. destruct (FileUpload.fileList s) as [|first rest]; cbn.
  - by destruct s.
  - rewrite Hfile. cbn. by destruct s.
Qed.

(** The statement above for a form with no file chosen. *)
Lemma handleSubmit_without_file_witness :
  let s := {| FileUpload.fileList := []; FileUpload.uploading := false |} in
  let out := FileUpload.handleSubmit server_down (world0, s) in
  network (fst (snd out)) = [] /\
  notices (fst (snd out)) = [NoticeError "请选择要上传的文件"].
Proof.
  intros s out.
  destruct (handleSubmit_without_file server_down world0 s I) as (_ & Hnet & _ & _ & Hnote).
  split; [exact Hnet | exact Hnote].
Defined.

(** X12.  With a file at hand [handleSubmit] always completes: it sends
    exactly one upload request, never throws, and leaves the busy flag
    cleared.  It reports success, hands a non-empty address and a non-empty
    name to its parent and empties the list exactly when the response it got
    says success and carries an address; otherwise it shows an error and
    keeps the list. *)
Theorem handleSubmit_completes (server : Request -> Reply Api.UploadResponse)
    (w : World) (first : FileUpload.UploadFile) (rest : list FileUpload.UploadFile)
    (busy : bool) (f : File) :
  FileUpload.originFileObj first = Some f ->
  let data := {| Api.file := f; Api.relatedPersonInfo := FileUploadMore.blank_info |} in
  let out := FileUpload.handleSubmit server
               (w, {| FileUpload.fileList := first :: rest; FileUpload.uploading := busy |}) in
  fst out = Return tt /\
  network (fst (snd out)) = (network w ++ [Api.upload_request w data])%list /\
  FileUpload.uploading (snd (snd out)) = false /\
  ((exists text url name,
      notices (fst (snd out)) = (notices w ++ [NoticeSuccess text])%list /\
      callbacks (fst (snd out)) = (callbacks w ++ [OnUploadSuccess url name])%list /\
      url <> "" /\ name <> "" /\
      FileUpload.fileList (snd (snd out)) = []) \/
   (exists text,
      notices (fst (snd out)) = (notices w ++ [NoticeError text])%list /\
      callbacks (fst (snd out)) = callbacks w /\
      FileUpload.fileList (snd (snd out)) = first :: rest)).
Proof.
  intros Hfile. cbn zeta.
  set (data := {| Api.file := f; Api.relatedPersonInfo := FileUploadMore.blank_info |}).
  destruct (UploadFormFacts.uploadFileAndGetExcel_returns server data w) as [response Hr].
  destruct (UploadFormFacts.handleSubmit_run server w first rest busy f Hfile response Hr)
    as (Hret & Hnet & Hbusy & Hcase).
  destruct (ApiFacts.uploadFileAndGetExcel_frame server data w) as (Hsent & Hquiet & Hcalls).
  cbn zeta in Hsent, Hquiet, Hcalls. fold data in Hnet, Hcase.
  rewrite Hsent in Hnet. rewrite Hquiet, Hcalls in Hcase.
  split; [done|]. split; [done|]. split; [done|].
  destruct (FileUploadMore.usable response) eqn:Hu.
  - left. destruct Hcase as (Hn & Hc & Hl).
    do 3 eexists. split; [exact Hn|]. split; [exact Hc|]. split; [|split; [|exact Hl]].
    + unfold FileUploadMore.usable in Hu. apply andb_true_iff in Hu as [_ Hu].
      destruct (Api.excelUrl response) as [u|]; [|done]. cbn.
      by apply negb_true_iff, String.eqb_neq in Hu.
    + by apply UploadFormFacts.str_or_nonempty.
  - right. destruct Hcase as (Hn & Hc & Hl). eexists. done.
Qed.

(** The statement above against a service that answers 200 with
    [success: false]. *)
Lemma handleSubmit_completes_witness :
  let refused := {| Api.up_success := false; Api.up_message := "unreadable";
                    Api.excelUrl := None; Api.fileName := None |} in
  let first := {| FileUpload.uf_name := "scan.png"; FileUpload.originFileObj := Some png_2MiB |} in
  let out := FileUpload.handleSubmit (server_200 refused)
               (world0, {| FileUpload.fileList := [first]; FileUpload.uploading := false |}) in
  fst out = Return tt /\
  FileUpload.uploading (snd (snd out)) = false /\
  length (network (fst (snd out))) = 1.
Proof.
  intros refused first out.
  destruct (handleSubmit_completes (server_200 refused) world0 first [] false png_2MiB eq_refl)
    as (Hret & Hnet & Hbusy & _).
  split; [exact Hret|]. split; [exact Hbusy|].
  unfold out. by rewrite Hnet.
Defined.

(** ** The page around the upload form *)

Module PageFacts.
Import UploadPage.

Lemma run_app (a b : list Event) (st : World * State) :
  run (a ++ b) st = run b (run a st).
Proof. revert st. induction a as [|e a IH]; intros st; [done|]. cbn. apply IH. Qed.

Lemma handle_step (e : Event) (st : World * State) :
  currentStep (snd (snd (handle e st))) = step_of e.
Proof. by destruct e, st. Qed.

Lemma handle_keeps (e : Event) (st : World * State) :
  keeps_file e = true ->
  excelUrl (snd (snd (handle e st))) = excelUrl (snd st) /\
  fileName (snd (snd (handle e st))) = fileName (snd st).
Proof. by destruct e, st. Qed.

(** The step is the one the last handler set. *)
Lemma run_step (events : list Event) (st : World * State) :
  currentStep (snd (run events st)) = from_option step_of (currentStep (snd st)) (last events).
Proof.
  revert st. induction events as [|e events IH]; intros st; [done|].
  cbn [run]. rewrite IH, handle_step.
  destruct events as [|e' events]; [done|]. rewrite last_cons_cons.
  destruct (last (e' :: events)) eqn:Hl; [done|]. by apply last_None in Hl.
Qed.

(** Save reports and returns to the editor leave the file as it is. *)
Lemma run_keeps (events : list Event) (st : World * State) :
  forallb keeps_file events = true ->
  excelUrl (snd (run events st)) = excelUrl (snd st) /\
  fileName (snd (run events st)) = fileName (snd st).
Proof.
  revert st. induction events as [|e events IH]; intros st Hk; [done|].
  cbn in Hk. apply andb_true_iff in Hk as [He Hk]. cbn [run].
  destruct (IH (snd (handle e st)) Hk) as [-> ->]. by apply handle_keeps.
Qed.

Lemma run_after_upload (pre post : list Event) (url name : string) (st : World * State) :
  forallb keeps_file post = true ->
  excelUrl (snd (run (pre ++ Uploaded url name :: post) st)) = url /\
  fileName (snd (run (pre ++ Uploaded url name :: post) st)) = name.
Proof.
  intros Hk. rewrite run_app. cbn [run].
  destruct (run_keeps post (snd (handle (Uploaded url name) (run pre st))) Hk) as [-> ->].
  by destruct (run pre st).
Qed.

Lemma run_after_restart (pre post : list Event) (st : World * State) :
  forallb keeps_file post = true ->
  excelUrl (snd (run (pre ++ Restart :: post) st)) = "" /\
  fileName (snd (run (pre ++ Restart :: post) st)) = "".
Proof.
  intros Hk. rewrite run_app. cbn [run].
  destruct (run_keeps post (snd (handle Restart (run pre st))) Hk) as [-> ->].
  by destruct (run pre st).
Qed.

End PageFacts.

(** X13.  The handlers of the page test nothing, so after any sequence of
    upload reports, save reports, restarts and returns to the editor the
    step is the one the last event set, and the file is that of the latest
    upload report that no restart followed, or none when there is no such
    report.  A save that reports after a restart therefore leads, through
    the final step and its link back to the editor, to an editor mounted
    with no file, which loads the quarterly report. *)
Theorem page_shows_latest_upload (events : list UploadPage.Event) (w : World) :
  let s := snd (UploadPage.run events (w, UploadPage.initial)) in
  UploadPage.currentStep s = from_option UploadPage.step_of 0 (last events) /\
  UploadPage.currentStep s <= 2 /\
  (forall pre post url name,
     events = (pre ++ UploadPage.Uploaded url name :: post)%list ->
     forallb UploadPage.keeps_file post = true ->
     UploadPage.excelUrl s = url /\ UploadPage.fileName s = name) /\
  (forall pre post,
     events = post \/ events = (pre ++ UploadPage.Restart :: post)%list ->
     forallb UploadPage.keeps_file post = true ->
     UploadPage.excelUrl s = "" /\ UploadPage.fileName s = "") /\
  (forall pre post,
     events = (pre ++ UploadPage.Restart :: post ++ [UploadPage.Continue])%list ->
     forallb UploadPage.keeps_file post = true ->
     UploadPage.view s = UploadPage.ShowEditor "" "" /\
     UploadPage.editor_loads_file (UploadPage.view s) = false).
Proof.
  cbn zeta.
  pose proof (PageFacts.run_step events (w, UploadPage.initial)) as Hstep. cbn [snd] in Hstep.
  assert (forall pre post,
            events = post \/ events = (pre ++ UploadPage.Restart :: post)%list ->
            forallb UploadPage.keeps_file post = true ->
            UploadPage.excelUrl (snd (UploadPage.run events (w, UploadPage.initial))) = "" /\
            UploadPage.fileName (snd (UploadPage.run events (w, UploadPage.initial))) = "")
    as Hnone.
  { intros pre post [-> | ->] Hk.
    - by destruct (PageFacts.run_keeps post (w, UploadPage.initial) Hk) as [-> ->].
    - by apply PageFacts.run_after_restart. }
  split; [exact Hstep|]. split; [|split; [|split; [exact Hnone|]]].
  - rewrite Hstep. destruct (last events) as [[]|]; cbn; lia.
  - intros pre post url name -> Hk. by apply PageFacts.run_after_upload.
  - intros pre post Hev Hk.
    assert (forallb UploadPage.keeps_file (post ++ [UploadPage.Continue]) = true) as Hk'.
    { rewrite forallb_app, Hk. done. }
    destruct (Hnone pre (post ++ [UploadPage.Continue])%list (or_intror Hev) Hk') as [Hurl Hname].
    assert (UploadPage.currentStep (snd (UploadPage.run events (w, UploadPage.initial))) = 1)
      as Hone.
    { rewrite Hstep, Hev.
      change (pre ++ UploadPage.Restart :: post ++ [UploadPage.Continue])%list
        with (pre ++ (UploadPage.Restart :: post) ++ [UploadPage.Continue])%list.
      by rewrite app_assoc, last_snoc. }
    unfold UploadPage.view. rewrite Hone, Hurl, Hname. done.
Qed.

(** The statement above for an upload, a restart while a save is under
    way, the report of that save and the return to the editor; and for an
    upload, a save, a return to the editor, a restart and a second
    upload. *)
Lemma page_shows_latest_upload_witness :
  let late := [UploadPage.Uploaded "/a.xlsx" "a.xlsx"; UploadPage.Restart;
               UploadPage.Saved sheet_zero; UploadPage.Continue] in
  let again := [UploadPage.Uploaded "/a.xlsx" "a.xlsx"; UploadPage.Saved sheet_zero;
                UploadPage.Continue; UploadPage.Restart;
                UploadPage.Uploaded "/b.xlsx" "b.xlsx"] in
  UploadPage.view (snd (UploadPage.run late (world0, UploadPage.initial)))
  = UploadPage.ShowEditor "" "" /\
  UploadPage.excelUrl (snd (UploadPage.run again (world0, UploadPage.initial))) = "/b.xlsx" /\
  UploadPage.currentStep (snd (UploadPage.run again (world0, UploadPage.initial))) = 1.
Proof.
  intros late again.
  destruct (page_shows_latest_upload late world0) as (_ & _ & _ & _ & Hlate).
  destruct (page_shows_latest_upload again world0) as (Hstep & _ & Hfile & _).
  split; [|split].
  - exact (proj1 (Hlate [UploadPage.Uploaded "/a.xlsx" "a.xlsx"] [UploadPage.Saved sheet_zero]
                    eq_refl eq_refl)).
  - exact (proj1 (Hfile [UploadPage.Uploaded "/a.xlsx" "a.xlsx"; UploadPage.Saved sheet_zero;
                         UploadPage.Continue; UploadPage.Restart] [] "/b.xlsx" "b.xlsx"
                    eq_refl eq_refl)).
  - exact Hstep.
Defined.

(** X14.  When the transport fails for the upload, the user of the upload
    page is told that the upload succeeded and the page moves on to the
    editor with the example spreadsheet. *)
Theorem failed_upload_opens_example (server : Request -> Reply Api.UploadResponse)
    (w : World) (first : FileUpload.UploadFile) (rest : list FileUpload.UploadFile)
    (busy : bool) (f : File) :
  FileUpload.originFileObj first = Some f ->
  Api.transport_failed
    (server (Api.upload_request w
               {| Api.file := f; Api.relatedPersonInfo := FileUploadMore.blank_info |})) ->
  let out := FileUpload.handleSubmit server
               (w, {| FileUpload.fileList := first :: rest; FileUpload.uploading := busy |}) in
  let page := UploadPage.run (UploadPage.event_of <$> new_callbacks w (fst (snd out)))
                (fst (snd out), UploadPage.initial) in
  notices (fst (snd out)) = (notices w ++ [NoticeSuccess "文件上传成功，已生成Excel文件"])%list /\
  UploadPage.view (snd page) = UploadPage.ShowEditor "/example.xlsx" "example.xlsx" /\
  UploadPage.editor_loads_file (UploadPage.view (snd page)) = true.
Proof.
  intros Hfile Hfail. cbn zeta.
  destruct (SubmitFacts.handleSubmit_after_failure server w first rest busy f Hfile Hfail)
    as (_ & Hnote & Hcb & _).
  cbn zeta in Hnote, Hcb. split; [exact Hnote|].
  unfold new_callbacks. rewrite Hcb, drop_app_length. cbn. done.
Qed.

(** The statement above against an unreachable service. *)
Lemma failed_upload_opens_example_witness :
  let first := {| FileUpload.uf_name := "scan.png"; FileUpload.originFileObj := Some png_2MiB |} in
  let out := FileUpload.handleSubmit server_down
               (world0, {| FileUpload.fileList := [first]; FileUpload.uploading := false |}) in
  let page := UploadPage.run (UploadPage.event_of <$> new_callbacks world0 (fst (snd out)))
                (fst (snd out), UploadPage.initial) in
  UploadPage.view (snd page) = UploadPage.ShowEditor "/example.xlsx" "example.xlsx".
Proof.
  intros first out page.
  destruct (failed_upload_opens_example server_down world0 first [] false png_2MiB eq_refl I)
    as (_ & Hview & _).
  exact Hview.
Defined.

(** ** Sessions *)

Module SessionFacts.
Import Api.

Lemma response_error_session {A} (status : option nat) (reason : string) (w : World) :
  let w' := snd (response_error (A := A) status reason w) in
  if bool_decide (status = Some 401)
  then localStorage w' = delete "user_info" (delete "access_token" (localStorage w)) /\
       location_href w' = "/login"
  else localStorage w' = localStorage w /\ location_href w' = location_href w.
Proof. cbn zeta. unfold response_error. by case_bool_decide. Qed.

Lemma request_session {A} (server : Request -> Reply A) (m : Method)
    (path contentType : string) (b : Body) (w : World) :
  let config := {| method := m; baseURL := "/api"; url := path; contentType := contentType;
                   authorization := bearer w; body := b |} in
  let w' := snd (request server m path contentType b w) in
  if unauthorized (server config)
  then localStorage w' = delete "user_info" (delete "access_token" (localStorage w)) /\
       location_href w' = "/login"
  else localStorage w' = localStorage w /\ location_href w' = location_href w.
Proof.
  intros config. cbn zeta. rewrite ApiFacts.request_unfold. fold config.
  destruct (server config) as [status data|reason]; cbn [unauthorized].
  - destruct (validateStatus status) eqn:Hv.
    + rewrite bool_decide_eq_false_2; [done|]. intros ->. done.
    + pose proof (response_error_session (A := A) (Some status) "Request failed"
                    (sent w config)) as H.
      cbn zeta in H. destruct (decide (status = 401)) as [->|Hne].
      * by rewrite bool_decide_eq_true_2 in H |- *.
      * rewrite (bool_decide_eq_false_2 (status = 401)) by done.
        rewrite bool_decide_eq_false_2 in H; [done|]. by intros [= ->].
  - pose proof (response_error_session (A := A) None reason (sent w config)) as H.
    cbn zeta in H. by rewrite bool_decide_eq_false_2 in H.
Qed.

Lemma catch_session {A} (body : M World A) (handler : Exn -> M World A) (w : World) :
  (forall e w1, localStorage (snd (handler e w1)) = localStorage w1 /\
                location_href (snd (handler e w1)) = location_href w1) ->
  localStorage (snd (try_catch body handler w)) = localStorage (snd (body w)) /\
  location_href (snd (try_catch body handler w)) = location_href (snd (body w)).
Proof.
  intros Hh. unfold try_catch. destruct (body w) as [[a|e] w1]; [done|]. apply Hh.
Qed.

End SessionFacts.

(** X15.  Every call through the axios instance carries the stored access
    token as a bearer credential when one is stored and not empty, and no
    credential otherwise.  A reply with status 401 removes the token and the
    user record from the local storage, sends the browser to the login page
    and makes the call throw; any other reply leaves the storage and the
    location as they were. *)
Theorem session_handling {A} (server : Request -> Reply A) (m : Method)
    (path contentType : string) (b : Body) (w : World) :
  let out := Api.request server m path contentType b w in
  (exists config,
     network (snd out) = (network w ++ [config])%list /\
     authorization config
     = match localStorage w !! "access_token" with
       | Some t => if String.eqb t "" then None else Some ("Bearer " +:+ t)
       | None => None
       end /\
     (if unauthorized (server config)
      then localStorage (snd out) !! "access_token" = None /\
           localStorage (snd out) !! "user_info" = None /\
           location_href (snd out) = "/login" /\
           fst out = Throw (AxiosError (Some 401) "Request failed")
      else localStorage (snd out) = localStorage w /\
           location_href (snd out) = location_href w)).
Proof.
  cbn zeta.
  destruct (ApiFacts.request_frame server m path contentType b w) as (Hnet & _).
  pose proof (SessionFacts.request_session server m path contentType b w) as Hs.
  pose proof (ApiFacts.request_outcome server m path contentType b w) as Ho.
  cbn zeta in Hnet, Hs, Ho.
  eexists. split; [exact Hnet|]. split; [done|].
  destruct (server _) as [status data|reason] eqn:Hr; cbn [unauthorized] in *; [|done].
  case_bool_decide as H401; [|done]. subst status.
  destruct Hs as [Hls Hhref]. rewrite Hls, Hhref, Ho.
  split; [|split; [|done]].
  - rewrite lookup_delete_ne by done. apply lookup_delete_eq.
  - apply lookup_delete_eq.
Qed.

(** X16.  When the recognition service answers the upload with 401, the
    upload call still returns the example spreadsheet as a success, while
    the session is ended: the token is removed and the browser is sent to
    the login page. *)
Theorem upload_unauthorized (server : Request -> Reply Api.UploadResponse)
    (data : Api.UploadFileData) (w : World) :
  unauthorized (server (Api.upload_request w data)) = true ->
  let out := Api.uploadFileAndGetExcel server data w in
  fst out = Return Api.exampleResponse /\
  localStorage (snd out) !! "access_token" = None /\
  location_href (snd out) = "/login".
Proof.
  intros H401. cbn zeta.
  assert (Api.transport_failed (server (Api.upload_request w data))) as Hfail.
  { destruct (server _) as [status r|]; [|done]. cbn in *.
    apply bool_decide_eq_true in H401. by subst. }
  split; [by apply ApiFacts.uploadFileAndGetExcel_failure|].
  unfold Api.uploadFileAndGetExcel.
  destruct (SessionFacts.catch_session
              (Api.request server POST "/v1/upload" "multipart/form-data"
                 (FormData (Api.file data) (Api.relatedPersonInfo data)))
              (fun error => console_error "上传文件失败:";; mret Api.exampleResponse) w)
    as [Hls Hhref]; [done|].
  cbn zeta. rewrite Hls, Hhref.
  pose proof (SessionFacts.request_session server POST "/v1/upload" "multipart/form-data"
                (FormData (Api.file data) (Api.relatedPersonInfo data)) w) as Hs.
  cbn zeta in Hs. fold (Api.upload_request w data) in Hs. rewrite H401 in Hs.
  destruct Hs as [-> ->]. split; [|done].
  rewrite lookup_delete_ne by done. apply lookup_delete_eq.
Qed.

(** The statement above against a service that answers 401, with a token
    stored. *)
Lemma upload_unauthorized_witness :
  let w := {| localStorage := {["access_token" := "t0"]}; location_href := "/upload";
              console := []; notices := []; network := []; callbacks := [] |} in
  let data := {| Api.file := png_2MiB; Api.relatedPersonInfo := FileUploadMore.blank_info |} in
  let server := fun _ : Request => HttpReply 401 Api.exampleResponse in
  fst (Api.uploadFileAndGetExcel server data w) = Return Api.exampleResponse /\
  localStorage (snd (Api.uploadFileAndGetExcel server data w)) !! "access_token" = None /\
  location_href (snd (Api.uploadFileAndGetExcel server data w)) = "/login".
Proof.
  intros w data server.
  exact (upload_unauthorized server data w eq_refl).
Defined.

(** X17.  [handleSaveToDatabase] always completes: whatever the store does
    it never throws, sends exactly one request, shows at most one notice,
    calls [onSave] only together with a success notice, clears the busy flag
    and changes nothing else of the editor's state. *)
Theorem handleSaveToDatabase_completes (p : ExcelEditor.Props)
    (server : Request -> Reply Api.SaveQuarterlyReportResponse)
    (w : World) (s : ExcelEditor.State) :
  let out := ExcelEditor.handleSaveToDatabase p server (w, s) in
  fst out = Return tt /\
  (exists config, network (fst (snd out)) = (network w ++ [config])%list) /\
  (notices (fst (snd out)) = notices w \/
   (exists text, notices (fst (snd out)) = (notices w ++ [NoticeError text])%list) \/
   (exists text, notices (fst (snd out)) = (notices w ++ [NoticeSuccess text])%list)) /\
  (callbacks (fst (snd out)) = callbacks w \/
   (callbacks (fst (snd out))
    = (callbacks w ++ [OnSave (ExcelEditor.currentGridData s)])%list /\
    exists text, notices (fst (snd out)) = (notices w ++ [NoticeSuccess text])%list)) /\
  snd (snd out) = settled s (ExcelEditor.isModalVisible s).
Proof.
  cbn zeta.
  destruct (EditorFacts.handleSaveToDatabase_run p server w s)
    as (Hret & Hnet & Hnote & Hcb & _).
  destruct (EditorFacts.save_call_frame p server w s) as (Hsent & Hquiet & Hcalls).
  cbn zeta in *. rewrite Hquiet in Hnote. rewrite Hcalls in Hcb. rewrite Hsent in Hnet.
  split; [done|]. split; [by eexists|].
  split; [|split; [|apply EditorMoreFacts.handleSaveToDatabase_state]].
  - destruct (fst (ExcelEditor.save_call p server s w)) as [response|e]; cbn in Hnote.
    + destruct (Api.success response).
      * right. right. by eexists.
      * left. by rewrite app_nil_r in Hnote.
    + right. left. by eexists.
  - destruct (fst (ExcelEditor.save_call p server s w)) as [response|e]; cbn in Hcb, Hnote.
    + destruct (Api.success response), (ExcelEditor.onSave p); cbn in Hcb;
        rewrite ?app_nil_r in Hcb; try (by left).
      right. split; [done|]. by eexists.
    + left. by rewrite app_nil_r in Hcb.
Qed.

(** X18.  When the form of the save dialog does not validate,
    [handleModalOk] sends nothing to the store: it shows its error, leaves
    the dialog as it is, clears the busy flag and does not call [onSave]. *)
Theorem modal_invalid_sends_nothing (p : ExcelEditor.Props)
    (server : Request -> Reply Api.SaveQuarterlyReportResponse)
    (w : World) (s : ExcelEditor.State) :
  let out := ExcelEditor.handleModalOk p None server (w, s) in
  fst out = Return tt /\
  network (fst (snd out)) = network w /\
  notices (fst (snd out)) = (notices w ++ [NoticeError "保存失败"])%list /\
  callbacks (fst (snd out)) = callbacks w /\
  snd (snd out) = settled s (ExcelEditor.isModalVisible s).
Proof. apply EditorMoreFacts.handleModalOk_rejected. Qed.

(** X19.  Confirming the save dialog with valid values always issues the
    create, never the update, keyed by the values of the form and not by
    the props, even when a [portfolioId] is known.  The dialog is closed
    exactly when the store's response says success; a refusal or a transport
    failure leaves it as it was, and the busy flag is cleared in every
    case. *)
Theorem modal_confirm_creates (p : ExcelEditor.Props) (values : ExcelEditor.FormValues)
    (server : Request -> Reply Api.SaveQuarterlyReportResponse)
    (w : World) (s : ExcelEditor.State) :
  let out := ExcelEditor.handleModalOk p (Some values) server (w, s) in
  let r := fst (Api.saveQuarterlyReport server (modal_saveData values s) w) in
  fst out = Return tt /\
  network (fst (snd out)) = (network w ++ [Api.create_request w (modal_saveData values s)])%list /\
  method (Api.create_request w (modal_saveData values s)) = POST /\
  ExcelEditor.isModalVisible (snd (snd out))
  = (if succeeded r then false else ExcelEditor.isModalVisible s) /\
  ExcelEditor.saving (snd (snd out)) = false /\
  notices (fst (snd out)) = (notices w ++ ExcelEditor.shown "保存失败" r)%list.
Proof.
  cbn zeta.
  destruct (EditorMoreFacts.handleModalOk_run p values server w s)
    as (Hret & Hnet & Hnote & _ & Hstate).
  destruct (ApiFacts.saveQuarterlyReport_frame server (modal_saveData values s) w)
    as (Hsent & Hquiet & _).
  cbn zeta in *. rewrite Hsent in Hnet. rewrite Hquiet in Hnote.
  split; [done|]. split; [done|]. split; [done|].
  rewrite Hstate. done.
Qed.

(** ** The other calls of the service modules *)

Module WireFacts.

Lemma response_error_run {A} (status : option nat) (reason : string) (w : World) :
  exists w', Api.response_error (A := A) status reason w = (Throw (AxiosError status reason), w') /\
             network w' = network w /\ notices w' = notices w /\ callbacks w' = callbacks w.
Proof.
  unfold Api.response_error. case_bool_decide; cbn; eexists; (split; [reflexivity|done]).
Qed.

(** One call through the instance: its outcome is the one of the reply,
    the call is logged, and nothing is shown. *)
Lemma request_run {A} (server : Wire.Call -> Reply A) (m : Method) (path : string)
    (responseType : option string) (payload : Wire.Payload) (w : World)
    (calls : list Wire.Call) :
  let config := {| Wire.call_method := m; Wire.call_baseURL := "/api"; Wire.call_url := path;
                   Wire.call_responseType := responseType;
                   Wire.call_authorization := Api.bearer w;
                   Wire.call_payload := payload |} in
  exists w', Wire.request server m path responseType payload (w, calls)
             = (settle (server config), (w', (calls ++ [config])%list)) /\
             network w' = network w /\ notices w' = notices w /\ callbacks w' = callbacks w.
Proof.
  intros config.
  unfold Wire.request, Wire.log_call, get, liftW, modifyC, modify, console_log,
    mbind, M_bind, mret, M_ret.
  cbn -[Api.bearer Api.validateStatus Api.response_error]. fold config.
  destruct (server config) as [status data|reason]; cbn -[Api.response_error Api.validateStatus].
  - destruct (Api.validateStatus status); [by eexists|].
    match goal with
    | |- context [Api.response_error ?st ?re ?x] =>
        destruct (response_error_run (A := A) st re x) as (w' & Heq & Hn & Hm & Hc)
    end.
    rewrite Heq. by exists w'.
  - match goal with
    | |- context [Api.response_error ?st ?re ?x] =>
        destruct (response_error_run (A := A) st re x) as (w' & Heq & Hn & Hm & Hc)
    end.
    rewrite Heq. by exists w'.
Qed.

Lemma saveExcelData_run (server : Wire.Call -> Reply Wire.SaveExcelResponse)
    (d : Wire.SaveExcelData) (w : World) (calls : list Wire.Call) :
  exists w', Wire.saveExcelData server d (w, calls)
             = (settle (server (save_excel_call w d)),
                (w', (calls ++ [save_excel_call w d])%list)) /\
             network w' = network w /\ notices w' = notices w /\ callbacks w' = callbacks w.
Proof.
  unfold Wire.saveExcelData, try_catch.
  destruct (request_run server POST "/v1/excel/save" None
              (Wire.ExcelPayload (Wire.fileName d) (Wire.data d) (Wire.sheets d)) w calls)
    as (w' & -> & Hn & Hm & Hc).
  fold (save_excel_call w d).
  destruct (settle (server (save_excel_call w d))) as [a|e]; [by exists w'|].
  eexists. split; [reflexivity|]. done.
Qed.

Lemma getQuarterlyReport_run (server : Wire.Call -> Reply (option (option Sheet)))
    (w : World) (calls : list Wire.Call) :
  exists w', Wire.getQuarterlyReport server (w, calls)
             = (settle (server (report_call w)), (w', (calls ++ [report_call w])%list)) /\
             network w' = network w /\ notices w' = notices w /\ callbacks w' = callbacks w.
Proof.
  unfold Wire.getQuarterlyReport, try_catch.
  destruct (request_run server GET "/v1/excel/quarterly-report" None Wire.NoPayload w calls)
    as (w' & -> & Hn & Hm & Hc).
  fold (report_call w).
  destruct (settle (server (report_call w))) as [a|e]; [by exists w'|].
  eexists. split; [reflexivity|]. done.
Qed.

Lemma legacy_request_run {A} (server : Wire.Call -> Reply A) (m : Method) (path : string)
    (responseType : option string) (payload : Wire.Payload) (w : World)
    (calls : list Wire.Call) :
  let config := {| Wire.call_method := m; Wire.call_baseURL := "/api"; Wire.call_url := path;
                   Wire.call_responseType := responseType;
                   Wire.call_authorization := None;
                   Wire.call_payload := payload |} in
  exists w', LegacyApi.request server m path responseType payload (w, calls)
             = (settle (server config), (w', (calls ++ [config])%list)) /\
             network w' = network w /\ notices w' = notices w /\ callbacks w' = callbacks w /\
             localStorage w' = localStorage w /\ location_href w' = location_href w.
Proof.
  intros config.
  unfold LegacyApi.request, Wire.log_call, liftW, modifyC, modify, console_log, console_error,
    throw, mbind, M_bind, mret, M_ret.
  cbn -[Api.validateStatus]. fold config.
  destruct (server config) as [status data|reason]; cbn -[Api.validateStatus].
  - destruct (Api.validateStatus status); by eexists.
  - by eexists.
Qed.

Lemma legacy_saveExcelData_run (server : Wire.Call -> Reply Wire.SaveExcelResponse)
    (d : Wire.SaveExcelData) (w : World) (calls : list Wire.Call) :
  exists response w',
    LegacyApi.saveExcelData server d (w, calls)
    = (Return response, (w', (calls ++ [legacy_save_call d])%list)) /\
    response = match settle (server (legacy_save_call d)) with
               | Return a => a
               | Throw _ => LegacyApi.assumedSaved
               end /\
    network w' = network w /\ notices w' = notices w /\ callbacks w' = callbacks w.
Proof.
  unfold LegacyApi.saveExcelData, try_catch.
  destruct (legacy_request_run server POST "/save-excel" None
              (Wire.ExcelPayload (Wire.fileName d) (Wire.data d) (Wire.sheets d)) w calls)
    as (w' & -> & Hn & Hm & Hc & _).
  fold (legacy_save_call d).
  destruct (settle (server (legacy_save_call d))) as [a|e].
  - by exists a, w'.
  - do 2 eexists. split; [reflexivity|]. done.
Qed.

End WireFacts.

(** X20.  [handleSave] of the grid editor sends the current grid data once,
    under the file name of the props or ["edited_excel.xlsx"], and then
    goes by the transport alone: every 2xx response is reported as a
    success and passed to [onSave], whatever its [success] field says; a
    failed call shows the error text and does not call [onSave].  In every
    case the handler completes, the busy flag is cleared and the sheet is
    untouched. *)
Theorem handleSave_goes_by_transport (p : ExcelEditor.Props)
    (server : Wire.Call -> Reply Wire.SaveExcelResponse) (w : World) (e : EditorIO.Env) :
  let out := EditorIO.handleSave p server (w, e) in
  let call := save_excel_call w (save_data p e) in
  fst out = Return tt /\
  EditorIO.wire (snd (snd out)) = (EditorIO.wire e ++ [call])%list /\
  EditorIO.editor (snd (snd out)) = with_loading (EditorIO.editor e) false /\
  match settle (server call) with
  | Return _ =>
      notices (fst (snd out)) = (notices w ++ [NoticeSuccess "Excel数据保存成功"])%list /\
      callbacks (fst (snd out))
      = (callbacks w ++ if ExcelEditor.onSave p
                        then [OnSave (ExcelEditor.currentGridData (EditorIO.editor e))]
                        else [])%list
  | Throw _ =>
      notices (fst (snd out)) = (notices w ++ [NoticeError "保存失败"])%list /\
      callbacks (fst (snd out)) = callbacks w
  end.
Proof.
  cbn zeta.
  unfold EditorIO.handleSave, EditorIO.liftNet, EditorIO.setLoading, EditorIO.modifyEditor,
    try_finally, try_catch, modifyC, modify, getC, liftW, mbind, M_bind, mret, M_ret.
  cbn -[Wire.saveExcelData ExcelEditor.currentGridData EditorIO.save_name].
  change (ExcelEditor.currentGridData _)
    with (ExcelEditor.currentGridData (EditorIO.editor e)).
  fold (save_data p e).
  destruct (WireFacts.saveExcelData_run server (save_data p e) w (EditorIO.wire e))
    as (w' & -> & _ & Hm & Hc).
  destruct (settle (server (save_excel_call w (save_data p e)))) as [a|err]; cbn.
  - destruct (ExcelEditor.onSave p); cbn; rewrite Hm, Hc, ?app_nil_r; done.
  - by rewrite Hm, Hc.
Qed.

(** X21.  [handleSave] of the table editor reports success whatever
    happens to the request: the earlier [saveExcelData] answers for the
    store when the call fails, so the success text is always shown and
    [onSave] is always called with the sheet; the one request it sends goes
    to "/save-excel" without credentials, and the busy flag is cleared. *)
Theorem legacy_save_always_succeeds (fileName : option string) (onSave : bool)
    (server : Wire.Call -> Reply Wire.SaveExcelResponse) (w : World) (e : EditorIO.LegacyEnv) :
  let out := EditorIO.legacy_handleSave fileName onSave server (w, e) in
  fst out = Return tt /\
  notices (fst (snd out)) = (notices w ++ [NoticeSuccess "Excel数据保存成功"])%list /\
  callbacks (fst (snd out))
  = (callbacks w ++ if onSave then [OnSave (EditorIO.snapshot (EditorIO.table e))] else [])%list /\
  EditorIO.l_wire (snd (snd out))
  = (EditorIO.l_wire e ++ [legacy_save_call (legacy_save_data fileName e)])%list /\
  Wire.call_authorization (legacy_save_call (legacy_save_data fileName e)) = None /\
  EditorIO.l_loading (snd (snd out)) = false /\
  EditorIO.table (snd (snd out)) = EditorIO.table e.
Proof.
  cbn zeta.
  unfold EditorIO.legacy_handleSave, EditorIO.liftLegacy, EditorIO.setLegacyLoading,
    try_finally, try_catch, modifyC, modify, getC, liftW, mbind, M_bind, mret, M_ret.
  cbn -[LegacyApi.saveExcelData EditorIO.snapshot FileUpload.str_or].
  fold (legacy_save_data fileName e).
  destruct (WireFacts.legacy_saveExcelData_run server (legacy_save_data fileName e) w
              (EditorIO.l_wire e)) as (response & w' & -> & _ & _ & Hm & Hc).
  cbn. destruct onSave; cbn; rewrite Hm, Hc, ?app_nil_r; done.
Qed.

(** X22.  [loadQuarterlyReport] never shows its success text.  When the
    response carries a sheet, the sheet replaces the editor's data and the
    handler then fails on the undeclared [setFileName], so the error text is
    shown although the data was loaded; a response without data changes and
    shows nothing; a failed call shows the error text and keeps the data.
    The handler always completes, sends one GET and clears the busy
    flag. *)
Theorem loadQuarterlyReport_outcomes (server : Wire.Call -> Reply (option (option Sheet)))
    (w : World) (e : EditorIO.Env) :
  let out := EditorIO.loadQuarterlyReport server (w, e) in
  let r := settle (server (report_call w)) in
  fst out = Return tt /\
  EditorIO.wire (snd (snd out)) = (EditorIO.wire e ++ [report_call w])%list /\
  ExcelEditor.loading (EditorIO.editor (snd (snd out))) = false /\
  ExcelEditor.excelData (EditorIO.editor (snd (snd out)))
  = default (ExcelEditor.excelData (EditorIO.editor e)) (report_sheet r) /\
  notices (fst (snd out))
  = (notices w ++ match r with
                  | Return (Some (Some _)) => [NoticeError "加载季度投资报告失败"]
                  | Return _ => []
                  | Throw _ => [NoticeError "加载季度投资报告失败"]
                  end)%list /\
  callbacks (fst (snd out)) = callbacks w.
Proof.
  cbn zeta.
  unfold EditorIO.loadQuarterlyReport, EditorIO.liftNet, EditorIO.setLoading,
    EditorIO.setExcelData, EditorIO.setFileName, EditorIO.modifyEditor,
    try_finally, try_catch, throw, modifyC, modify, getC, liftW, mbind, M_bind, mret, M_ret.
  cbn -[Wire.getQuarterlyReport].
  destruct (WireFacts.getQuarterlyReport_run server w (EditorIO.wire e))
    as (w' & -> & _ & Hm & Hc).
  destruct (settle (server (report_call w))) as [[[d|]|]|err]; cbn;
    rewrite Hm, Hc, ?app_nil_r; done.
Qed.

(** X23.  [downloadExcel] returns the file of the store when the call
    through the instance resolves, and then sends nothing else.  When that
    call fails it fetches "/example.xlsx" outside the instance, without
    credentials, and returns its body; it throws only when this second
    request has no response either. *)
Theorem downloadExcel_falls_back (server : Wire.Call -> Reply string)
    (web : string -> option string) (fileName : string) (w : World)
    (calls : list Wire.Call) :
  let out := Wire.downloadExcel server web fileName (w, calls) in
  match settle (server (download_call w fileName)) with
  | Return blob =>
      fst out = Return blob /\
      snd (snd out) = (calls ++ [download_call w fileName])%list
  | Throw _ =>
      snd (snd out) = (calls ++ [download_call w fileName; example_fetch])%list /\
      fst out = match web "/example.xlsx" with
                | Some blob => Return blob
                | None => Throw (OtherError "Failed to fetch")
                end
  end.
Proof.
  cbn zeta. unfold Wire.downloadExcel, try_catch.
  destruct (WireFacts.request_run server GET ("/v1/excel/download/" +:+ fileName)
              (Some "blob") Wire.NoPayload w calls) as (w' & -> & _).
  fold (download_call w fileName).
  destruct (settle (server (download_call w fileName))) as [blob|err]; [done|].
  unfold Wire.fetch, Wire.log_call, liftW, modifyC, modify, console_error, throw,
    mbind, M_bind, mret, M_ret.
  cbn. fold example_fetch. rewrite <- app_assoc. cbn.
  by destruct (web "/example.xlsx").
Qed.

(** ** The matcher and the form rules *)

Module RegexFacts.
Import Regex.

Lemma nullable_lang (r : re) : nullable r = true <-> lang r [].
Proof.
  induction r as [| |lo hi|r1 IH1 r2 IH2|r1 IH1 r2 IH2]; cbn.
  - split; [discriminate | done].
  - done.
  - split; [discriminate | by intros (a & [=] & _)].
  - rewrite andb_true_iff, IH1, IH2. split.
    + intros [H1 H2]. by exists [], [].
    + intros (l1 & l2 & Hl & H1 & H2). symmetry in Hl.
      apply app_eq_nil in Hl as [-> ->]. done.
  - rewrite orb_true_iff, IH1, IH2. done.
Qed.

Lemma deriv_lang (a : ascii) (r : re) (l : list ascii) :
  lang (deriv a r) l <-> lang r (a :: l).
Proof.
  revert l. induction r as [| |lo hi|r1 IH1 r2 IH2|r1 IH1 r2 IH2]; intros l; cbn.
  - done.
  - split; [done | discriminate].
  - destruct (in_range lo hi a) eqn:Hr; cbn.
    + split.
      * intros H. subst l. by exists a.
      * intros (b & Hb & _). by injection Hb as _ ->.
    + split; [done|]. intros (b & Hb & Hin). injection Hb as <- _. congruence.
  - split.
    + intros [(l1 & l2 & -> & H1 & H2)|H].
      * exists (a :: l1), l2. split; [done|]. split; [by apply IH1 | done].
      * destruct (nullable r1) eqn:Hn; [|done].
        exists [], (a :: l). split; [done|]. split; [by apply nullable_lang | by apply IH2].
    + intros (l1 & l2 & Hl & H1 & H2). destruct l1 as [|b l1].
      * right. cbn in Hl. subst l2. apply nullable_lang in H1. rewrite H1. by apply IH2.
      * left. injection Hl as <- ->. exists l1, l2. split; [done|]. split; [by apply IH1 | done].
  - by rewrite IH1, IH2.
Qed.

(** The matcher decides the language of the pattern. *)
Lemma matches_lang (r : re) (l : list ascii) : matches r l = true <-> lang r l.
Proof.
  revert r. induction l as [|a l IH]; intros r; cbn.
  - apply nullable_lang.
  - rewrite IH. apply deriv_lang.
Qed.

Lemma lang_width (r : re) (n : nat) (l : list ascii) :
  width r = Some n -> lang r l -> length l = n.
Proof.
  revert n l. induction r as [| |lo hi|r1 IH1 r2 IH2|r1 IH1 r2 IH2]; intros n l; cbn.
  - done.
  - by intros [= <-] ->.
  - by intros [= <-] (a & -> & _).
  - destruct (width r1) as [n1|], (width r2) as [n2|]; try done.
    intros [= <-] (l1 & l2 & -> & H1 & H2).
    rewrite length_app, (IH1 n1 l1), (IH2 n2 l2); done.
  - destruct (width r1) as [n1|], (width r2) as [n2|]; try done.
    case_decide; [|done]. subst n2. intros [= <-] [H|H]; [by apply IH1 | by apply IH2].
Qed.

(** A pattern of fixed width in front takes exactly that many characters. *)
Lemma matches_seq (r1 r2 : re) (n : nat) (l : list ascii) :
  width r1 = Some n ->
  matches (Seq r1 r2) l = matches r1 (take n l) && matches r2 (drop n l).
Proof.
  intros Hw. apply eq_true_iff_eq.
  rewrite andb_true_iff, !matches_lang. cbn. split.
  - intros (l1 & l2 & -> & H1 & H2).
    pose proof (lang_width _ _ _ Hw H1) as Hlen. subst n.
    by rewrite take_app_length, drop_app_length.
  - intros [H1 H2]. exists (take n l), (drop n l). by rewrite take_drop.
Qed.

Lemma matches_class (lo hi : ascii) (l : list ascii) :
  matches (Class lo hi) l = match l with [a] => in_range lo hi a | _ => false end.
Proof.
  apply eq_true_iff_eq. rewrite matches_lang. cbn. split.
  - by intros (a & -> & Ha).
  - destruct l as [|a [|b l]]; try done. intros Ha. by exists a.
Qed.

Lemma matches_Fail (l : list ascii) : matches Fail l = false.
Proof. induction l as [|a l IH]; [done|]. exact IH. Qed.

Lemma matches_rep_class (lo hi : ascii) (n : nat) (l : list ascii) :
  matches (rep n (Class lo hi)) l = (length l =? n)%nat && forallb (in_range lo hi) l.
Proof.
  revert l. induction n as [|n IH]; intros l.
  - destruct l as [|a l]; [done|]. cbn. apply matches_Fail.
  - cbn [rep]. rewrite (matches_seq _ _ 1) by done.
    rewrite matches_class, IH. destruct l as [|a l]; [done|]. cbn.
    rewrite ?drop_0. destruct (in_range lo hi a); cbn; by rewrite ?andb_false_r.
Qed.

Lemma in_range_single (c a : ascii) : in_range c c a = true <-> a = c.
Proof.
  unfold in_range. rewrite andb_true_iff, !N.leb_le. split.
  - intros [H1 H2]. assert (N_of_ascii a = N_of_ascii c) as H by lia.
    by rewrite <- (ascii_N_embedding a), H, ascii_N_embedding.
  - intros ->. lia.
Qed.

End RegexFacts.

Module FormFacts.
Import Regex RegexFacts LegacyForm.

Lemma all_ascii_complete (a : ascii) : a ∈ all_ascii.
Proof.
  unfold all_ascii. apply list_elem_of_fmap. exists (nat_of_ascii a).
  split; [by rewrite ascii_nat_embedding|].
  apply elem_of_seq. pose proof (nat_ascii_bounded a). lia.
Qed.

Lemma for_all_pairs (P : ascii -> ascii -> bool) :
  forallb (fun a => forallb (P a) all_ascii) all_ascii = true ->
  forall a b, P a b = true.
Proof.
  intros H a b. rewrite forallb_forall in H.
  specialize (H a (proj1 (list_elem_of_In _ _) (all_ascii_complete a))).
  rewrite forallb_forall in H.
  apply H, list_elem_of_In, all_ascii_complete.
Qed.

Lemma century_pair (a b : ascii) : matches century [a; b] = two_digits 18 20 a b.
Proof.
  apply Bool.eqb_prop.
  apply (for_all_pairs (fun a b => Bool.eqb (matches century [a; b]) (two_digits 18 20 a b))).
  vm_compute. reflexivity.
Qed.

Lemma month_pair (a b : ascii) : matches month [a; b] = two_digits 1 12 a b.
Proof.
  apply Bool.eqb_prop.
  apply (for_all_pairs (fun a b => Bool.eqb (matches month [a; b]) (two_digits 1 12 a b))).
  vm_compute. reflexivity.
Qed.

Lemma day_pair (a b : ascii) : matches day [a; b] = two_digits 1 31 a b.
Proof.
  apply Bool.eqb_prop.
  apply (for_all_pairs (fun a b => Bool.eqb (matches day [a; b]) (two_digits 1 31 a b))).
  vm_compute. reflexivity.
Qed.

Lemma check_char (c : ascii) :
  matches check [c] = true <-> is_digit c = true \/ c = "X"%char \/ c = "x"%char.
Proof.
  cbn. unfold is_digit.
  destruct (in_range "0" "9" c); cbn; [by split; [left|]|].
  destruct (in_range "X" "X" c) eqn:HX; cbn.
  { apply in_range_single in HX. split; [by right; left|done]. }
  destruct (in_range "x" "x" c) eqn:Hx; cbn.
  { apply in_range_single in Hx. split; [by right; right|done]. }
  split; [done|]. intros [|[->| ->]]; done.
Qed.

Lemma is_digit_bounds (a : ascii) :
  is_digit a = true <-> (48 <= N_of_ascii a <= 57)%N.
Proof.
  unfold is_digit, in_range. rewrite andb_true_iff, !N.leb_le.
  change (N_of_ascii "0") with 48%N. change (N_of_ascii "9") with 57%N. done.
Qed.

Lemma two_digits_spec (lo hi : N) (a b : ascii) :
  two_digits lo hi a b = true <->
  is_digit a = true /\ is_digit b = true /\ (lo <= num [a; b] <= hi)%N.
Proof.
  unfold two_digits. rewrite !andb_true_iff, !N.leb_le. tauto.
Qed.

Lemma num_pair (a b : ascii) :
  num [a; b] = (10 * (N_of_ascii a - 48) + (N_of_ascii b - 48))%N.
Proof. unfold num. cbn. lia. Qed.

Lemma num_four (a b c d : ascii) :
  num [a; b; c; d] = (100 * num [a; b] + num [c; d])%N.
Proof. unfold num. cbn. lia. Qed.

End FormFacts.

Section FormTheorems.
Import Regex RegexFacts LegacyForm FormFacts.

(** X24.  The phone rule accepts exactly the strings of eleven digits that
    start with 1 and have a digit from 3 to 9 in second place. *)
Theorem phone_pattern_accepts (s : string) :
  Regex.test LegacyForm.phonePattern s = true <->
  LegacyForm.phone_shape (list_ascii_of_string s).
Proof.
  unfold test. generalize (list_ascii_of_string s). clear s. intros l.
  unfold phonePattern, chr, phone_shape.
  rewrite (matches_seq _ _ 1) by done. rewrite (matches_seq _ _ 1) by done.
  rewrite !matches_class.
  change (matches (rep 9 digit)) with (matches (rep 9 (Class "0" "9"))).
  rewrite matches_rep_class.
  destruct l as [|a [|b rest]]; cbn.
  - split; [intros [=] | intros [[=] _]].
  - rewrite andb_false_r. split; [intros [=] | intros [[=] _]].
  - rewrite take_0, drop_0.
    rewrite !andb_true_iff, in_range_single, Nat.eqb_eq, forallb_forall. split.
    + intros (-> & Hb & Hlen & Hdigits). split; [lia|]. split; [|split; [done|by exists b]].
      repeat constructor.
      * unfold is_digit, in_range in *. apply andb_true_iff in Hb as [H1 H2].
        apply N.leb_le in H1, H2. cbn in H1, H2. apply andb_true_iff.
        rewrite !N.leb_le. cbn. lia.
      * apply Forall_forall. intros x Hx. apply Hdigits. by apply list_elem_of_In.
    + intros (Hlen & Hdigits & [= ->] & (b' & [= <-] & Hb)).
      split; [done|]. split; [done|]. split; [lia|].
      intros x Hx. apply Forall_cons in Hdigits as [_ Hdigits].
      apply Forall_cons in Hdigits as [_ Hdigits].
      rewrite Forall_forall in Hdigits. apply Hdigits. by apply list_elem_of_In.
Qed.

(** X25.  The identity-number rule is a check of the form only: it accepts
    exactly the strings of eighteen characters made of seventeen digits, the
    first not 0, and a last character that is any digit or the letter X in
    either case, whose digits 7 to 10 write a year from 1800 to 2099, whose
    digits 11 and 12 write a month from 1 to 12 and whose digits 13 and 14
    write a day from 1 to 31.  The day is not checked against the month and
    the last character is not checked against the others. *)
Theorem id_pattern_accepts (s : string) :
  Regex.test LegacyForm.idNumberPattern s = true <->
  LegacyForm.id_shape (list_ascii_of_string s).
Proof.
  unfold test. generalize (list_ascii_of_string s). clear s. intros l.
  assert (matches idNumberPattern l = true -> length l = 18) as Hlen.
  { intros H. apply matches_lang in H. by apply (lang_width idNumberPattern 18). }
  assert (forall c, in_range "1" "9" c = true <-> is_digit c = true /\ c <> "0"%char) as Hfirst.
  { intros c. rewrite is_digit_bounds. unfold in_range.
    rewrite andb_true_iff, !N.leb_le.
    change (N_of_ascii "1") with 49%N. change (N_of_ascii "9") with 57%N. split.
    - intros [Hlo Hhi]. split; [lia|]. intros ->. cbn in Hlo. lia.
    - intros [Hd Hne]. assert (N_of_ascii c <> 48%N); [|lia].
      intros Heq. apply Hne. by rewrite <- (ascii_N_embedding c), Heq. }
  split.
  - intros H. pose proof (Hlen H) as Hl.
    destruct l as [|c0 [|c1 [|c2 [|c3 [|c4 [|c5 [|c6 [|c7 [|c8 [|c9 [|c10 [|c11 [|c12 [|c13 [|c14 [|c15 [|c16 [|c17 [|? ?]]]]]]]]]]]]]]]]]]]; try discriminate Hl.
    clear Hlen Hl. revert H.
    unfold idNumberPattern.
    rewrite (matches_seq _ _ 1) by done. rewrite (matches_seq _ _ 5) by done.
    rewrite (matches_seq _ _ 2) by done. rewrite (matches_seq _ _ 2) by done.
    rewrite (matches_seq _ _ 2) by done. rewrite (matches_seq _ _ 2) by done.
    rewrite (matches_seq _ _ 3) by done.
    cbn [take drop]. rewrite matches_class.
    change (matches (rep 5 digit)) with (matches (rep 5 (Class "0" "9"))).
    change (matches (rep 2 digit)) with (matches (rep 2 (Class "0" "9"))).
    change (matches (rep 3 digit)) with (matches (rep 3 (Class "0" "9"))).
    rewrite !matches_rep_class, century_pair, month_pair, day_pair.
    cbn [length Nat.eqb forallb andb].
    change (in_range "0" "9") with is_digit.
    rewrite !andb_true_iff, !two_digits_spec, check_char.
    intros (H0 & (H1 & H2 & H3 & H4 & H5 & _) & (H6 & H7 & Hc) & (H8 & H9 & _) &
            (H10 & H11 & Hm) & (H12 & H13 & Hd) & (H14 & H15 & H16 & _) & Hk).
    apply Hfirst in H0 as [H0 Hnz].
    unfold id_shape. cbn [length take drop].
    split; [done|]. split; [repeat constructor; done|].
    split; [by intros [= ->]|]. split; [by exists c17|].
    rewrite num_four. rewrite !num_pair in *.
    apply is_digit_bounds in H8, H9. lia.
  - intros (Hl & Hdigits & Hnz & (c & Hc & Hk) & Hy & Hm & Hd).
    destruct l as [|c0 [|c1 [|c2 [|c3 [|c4 [|c5 [|c6 [|c7 [|c8 [|c9 [|c10 [|c11 [|c12 [|c13 [|c14 [|c15 [|c16 [|c17 [|? ?]]]]]]]]]]]]]]]]]]]; try discriminate Hl.
    clear Hlen Hl. cbn in Hc. injection Hc as <-.
    cbn [take drop] in Hdigits, Hy, Hm, Hd.
    apply Forall_cons in Hdigits as [D0 Hdigits]. apply Forall_cons in Hdigits as [D1 Hdigits].
    apply Forall_cons in Hdigits as [D2 Hdigits]. apply Forall_cons in Hdigits as [D3 Hdigits].
    apply Forall_cons in Hdigits as [D4 Hdigits]. apply Forall_cons in Hdigits as [D5 Hdigits].
    apply Forall_cons in Hdigits as [D6 Hdigits]. apply Forall_cons in Hdigits as [D7 Hdigits].
    apply Forall_cons in Hdigits as [D8 Hdigits]. apply Forall_cons in Hdigits as [D9 Hdigits].
    apply Forall_cons in Hdigits as [D10 Hdigits]. apply Forall_cons in Hdigits as [D11 Hdigits].
    apply Forall_cons in Hdigits as [D12 Hdigits]. apply Forall_cons in Hdigits as [D13 Hdigits].
    apply Forall_cons in Hdigits as [D14 Hdigits]. apply Forall_cons in Hdigits as [D15 Hdigits].
    apply Forall_cons in Hdigits as [D16 _].
    unfold idNumberPattern.
    rewrite (matches_seq _ _ 1) by done. rewrite (matches_seq _ _ 5) by done.
    rewrite (matches_seq _ _ 2) by done. rewrite (matches_seq _ _ 2) by done.
    rewrite (matches_seq _ _ 2) by done. rewrite (matches_seq _ _ 2) by done.
    rewrite (matches_seq _ _ 3) by done.
    cbn [take drop]. rewrite matches_class.
    change (matches (rep 5 digit)) with (matches (rep 5 (Class "0" "9"))).
    change (matches (rep 2 digit)) with (matches (rep 2 (Class "0" "9"))).
    change (matches (rep 3 digit)) with (matches (rep 3 (Class "0" "9"))).
    rewrite !matches_rep_class, century_pair, month_pair, day_pair.
    cbn [length Nat.eqb forallb andb].
    change (in_range "0" "9") with is_digit.
    rewrite !andb_true_iff, !two_digits_spec, check_char.
    rewrite num_four in Hy. rewrite !num_pair in *.
    assert (in_range "1" "9" c0 = true) as H0.
    { apply Hfirst. split; [done|]. intros ->. by apply Hnz. }
    pose proof (proj1 (is_digit_bounds _) D8) as B8.
    pose proof (proj1 (is_digit_bounds _) D9) as B9.
    repeat split; try done; lia.
Qed.

End FormTheorems.
